(** * Audio transcription services: a shallow embedding and its properties

    The repository holds three FastAPI services that transcribe audio:
    - the WhisperLive service ([main.py], [src/api.py], [src/processor.py]),
    - the Faster-Whisper container ([containers/whisper]),
    - the WhisperX container ([containers/whisperx]).

    The first part of this file embeds the Python code as Rocq functions:
    JSON-like values for the dicts the code builds, an exception type, a
    state-and-exception monad for the code that touches module globals, the
    file system and cloud storage.  External collaborators (the speech
    models, Google Cloud Storage, the clock, uuid) appear as oracles.  The
    second part defines the predicates and the concrete runs the
    properties speak of, the third part states and proves them. *)

From Stdlib Require Import ZArith String Ascii List Bool Lia DecimalString.
From Stdlib Require Import Floats.PrimFloat.
From stdpp Require Import base option gmap strings list.

Open Scope string_scope.
Open Scope list_scope.
Set Warnings "-register-all".

(* ===================================================================== *)
(** * Part I: the embedding                                               *)
(* ===================================================================== *)

(** ** Python data and library functions used by the services *)
Module Py.

(** JSON-like Python values.  A dict keeps its insertion order, so it is an
    association list; the code only ever builds dicts with string keys. *)
Inductive value : Type :=
| VNone
| VBool (b : bool)
| VInt (z : Z)
| VFloat (f : float)
| VStr (s : string)
| VList (l : list value)
| VDict (d : list (string * value)).

Abbreviation dict := (list (string * value)).

(** [d.get(k)] on a dict: the first (only) binding of [k]. *)
Fixpoint lookup_key (k : string) (d : dict) : option value :=
  match d with
  | [] => None
  | (k', v) :: d' => if String.eqb k k' then Some v else lookup_key k d'
  end.

(** [d.get(k, dflt)]. *)
Definition dict_get (k : string) (dflt : value) (d : dict) : value :=
  default dflt (lookup_key k d).

(** [list(d.keys())]. *)
Definition keys (d : dict) : list string := map fst d.

(** [k in d]. *)
Definition contains (k : string) (d : dict) : bool :=
  match lookup_key k d with Some _ => true | None => false end.

(** Python truthiness ([if x:], [not x]). *)
Definition truthy (v : value) : bool :=
  match v with
  | VNone => false
  | VBool b => b
  | VInt z => negb (Z.eqb z 0)
  | VFloat f => negb (PrimFloat.eqb f 0%float)
  | VStr s => negb (String.eqb s "")
  | VList l => match l with [] => false | _ => true end
  | VDict d => match d with [] => false | _ => true end
  end.

(** Truthiness of a [str] and of an [Optional[str]]. *)
Definition str_truthy (s : string) : bool := negb (String.eqb s "").
Definition opt_truthy (o : option string) : bool :=
  match o with Some s => str_truthy s | None => false end.

(** An [Optional[str]] stored in a dict. *)
Definition of_opt (o : option string) : value :=
  match o with Some s => VStr s | None => VNone end.

(** [v == "..."] for a value and a string literal. *)
Definition eq_str (v : value) (s : string) : bool :=
  match v with VStr s' => String.eqb s' s | _ => false end.

(** *** Strings.  A [str] is modelled by its UTF-8 bytes.  [lower] acts
    on the ASCII letters, the only ones in the file formats the services
    compare with. *)
Definition ascii_lower (c : ascii) : ascii :=
  let n := nat_of_ascii c in
  if (65 <=? n)%nat && (n <=? 90)%nat then ascii_of_nat (n + 32) else c.

Fixpoint lower (s : string) : string :=
  match s with
  | EmptyString => EmptyString
  | String c r => String (ascii_lower c) (lower r)
  end.

(** [s.endswith(suf)]. *)
Definition endswith (s suf : string) : bool :=
  let n := String.length s in
  let m := String.length suf in
  (m <=? n)%nat && String.eqb (substring (n - m) m s) suf.

(** [any(p(x) for x in l)]. *)
Definition any {A} (p : A -> bool) (l : list A) : bool := existsb p l.

(** White space in the sense of [str.isspace], which is what
    [str.strip()] removes.  In one byte: the characters 9 to 13 and 28 to
    32.  In two and three bytes: the UTF-8 encodings of U+0085 and U+00A0
    ([C2 85], [C2 A0]), of U+1680 ([E1 9A 80]), of U+2000 to U+200A,
    U+2028, U+2029 and U+202F ([E2 80 80] to [E2 80 8A], [E2 80 A8],
    [E2 80 A9], [E2 80 AF]), of U+205F ([E2 81 9F]) and of U+3000
    ([E3 80 80]). *)
Definition is_space (c : ascii) : bool :=
  let n := nat_of_ascii c in
  ((9 <=? n)%nat && (n <=? 13)%nat) || ((28 <=? n)%nat && (n <=? 32)%nat).

Definition is_space2 (a b : ascii) : bool :=
  let a := nat_of_ascii a in
  let b := nat_of_ascii b in
  (a =? 194)%nat && ((b =? 133)%nat || (b =? 160)%nat).

Definition is_space3 (a b c : ascii) : bool :=
  let a := nat_of_ascii a in
  let b := nat_of_ascii b in
  let c := nat_of_ascii c in
  ((a =? 225)%nat && (b =? 154)%nat && (c =? 128)%nat)
  || ((a =? 226)%nat && (b =? 128)%nat
      && (((128 <=? c)%nat && (c <=? 138)%nat)
          || (c =? 168)%nat || (c =? 169)%nat || (c =? 175)%nat))
  || ((a =? 226)%nat && (b =? 129)%nat && (c =? 159)%nat)
  || ((a =? 227)%nat && (b =? 128)%nat && (c =? 128)%nat).

(** [s.lstrip()] on the bytes of [s]. *)
Fixpoint lstrip_chars (l : list ascii) : list ascii :=
  match l with
  | a :: r =>
      if is_space a then lstrip_chars r
      else
        match r with
        | b :: r' =>
            if is_space2 a b then lstrip_chars r'
            else
              match r' with
              | c :: r'' => if is_space3 a b c then lstrip_chars r'' else l
              | [] => l
              end
        | [] => l
        end
  | [] => []
  end.

(** [s.rstrip()] on the bytes of [s] in reverse order.  A lead byte of
    UTF-8 is never a continuation byte, so reading a character from its
    last byte is as safe as reading it from its first. *)
Fixpoint rstrip_reversed (l : list ascii) : list ascii :=
  match l with
  | c :: r =>
      if is_space c then rstrip_reversed r
      else
        match r with
        | b :: r' =>
            if is_space2 b c then rstrip_reversed r'
            else
              match r' with
              | a :: r'' => if is_space3 a b c then rstrip_reversed r'' else l
              | [] => l
              end
        | [] => l
        end
  | [] => []
  end.

(** [s.strip()]. *)
Definition strip (s : string) : string :=
  string_of_list_ascii
    (rev (rstrip_reversed (rev (lstrip_chars (list_ascii_of_string s))))).

(** *** pathlib: [Path(p).name], [.suffix], [.stem] for POSIX paths. *)
Fixpoint split_chars (sep : ascii) (cur : list ascii) (l : list ascii)
  : list (list ascii) :=
  match l with
  | [] => [rev cur]
  | c :: r =>
      if Ascii.eqb c sep then rev cur :: split_chars sep [] r
      else split_chars sep (c :: cur) r
  end.

Definition is_part (p : list ascii) : bool :=
  match p with
  | [] => false
  | [c] => negb (Ascii.eqb c ".")
  | _ => true
  end.

Definition path_name_chars (p : string) : list ascii :=
  List.last (List.filter is_part (split_chars "/" [] (list_ascii_of_string p))) [].

Fixpoint rfind (c : ascii) (l : list ascii) : option nat :=
  match l with
  | [] => None
  | a :: r =>
      match rfind c r with
      | Some i => Some (S i)
      | None => if Ascii.eqb a c then Some 0%nat else None
      end
  end.

(** The index at which the suffix starts, when the name has one. *)
Definition suffix_index (name : list ascii) : option nat :=
  match rfind "." name with
  | Some i => if (0 <? i)%nat && (i <? length name - 1)%nat then Some i else None
  | None => None
  end.

Definition path_name (p : string) : string :=
  string_of_list_ascii (path_name_chars p).

Definition path_suffix (p : string) : string :=
  let name := path_name_chars p in
  match suffix_index name with
  | Some i => string_of_list_ascii (drop i name)
  | None => ""
  end.

Definition path_stem (p : string) : string :=
  let name := path_name_chars p in
  match suffix_index name with
  | Some i => string_of_list_ascii (take i name)
  | None => string_of_list_ascii name
  end.

(** [os.path.join(a, b)] for a directory name [a] without trailing slash. *)
Definition os_path_join (a b : string) : string :=
  match b with
  | String "/" _ => b
  | _ => a +:+ "/" +:+ b
  end.

(** *** Exceptions.  All of these are subclasses of [Exception]. *)
Inductive exn : Type :=
| AttributeError (msg : string)
| TypeError (msg : string)
| ValueError (msg : string)
| ValidationError (msg : string)
| JSONDecodeError (msg : string)
| HTTPException (status_code : Z) (detail : string)
| WebSocketDisconnect
| ExternalError (msg : string).

(** [str(e)]. *)
Definition str_exn (e : exn) : string :=
  match e with
  | AttributeError m | TypeError m | ValueError m | ValidationError m
  | JSONDecodeError m | ExternalError m => m
  | HTTPException _ d => d
  | WebSocketDisconnect => ""
  end.

(** Code without side effects that may raise. *)
Definition fallible (A : Type) : Type := exn + A.

Definition rbind {A B} (r : fallible A) (k : A -> fallible B) : fallible B :=
  match r with inl e => inl e | inr a => k a end.

(** Iterating over a value ([for x in v]). *)
Definition iterate (v : value) : fallible (list value) :=
  match v with
  | VList l => inr l
  | VDict d => inr (map VStr (keys d))
  | VStr s => inr (map (fun c => VStr (String c "")) (list_ascii_of_string s))
  | _ => inl (TypeError "object is not iterable")
  end.

(** [v.get(k, dflt)]: only dicts have [get]. *)
Definition get (k : string) (dflt : value) (v : value) : fallible value :=
  match v with
  | VDict d => inr (dict_get k dflt d)
  | _ => inl (AttributeError "object has no attribute 'get'")
  end.

(** [v.strip()]: only strings have [strip]. *)
Definition value_strip (v : value) : fallible value :=
  match v with
  | VStr s => inr (VStr (strip s))
  | _ => inl (AttributeError "object has no attribute 'strip'")
  end.

(** *** Code that reads and writes state and may raise. *)
Definition M (S A : Type) : Type := S -> fallible A * S.

Definition ret {S A} (a : A) : M S A := fun s => (inr a, s).
Definition raise {S A} (e : exn) : M S A := fun s => (inl e, s).
Definition bind {S A B} (m : M S A) (k : A -> M S B) : M S B :=
  fun s => match m s with
           | (inl e, s') => (inl e, s')
           | (inr a, s') => k a s'
           end.
Definition lift {S A} (r : fallible A) : M S A := fun s => (r, s).
Definition gets {S A} (f : S -> A) : M S A := fun s => (inr (f s), s).
Definition modify {S} (f : S -> S) : M S unit := fun s => (inr tt, f s).

(** [try: m  except Exception as e: h e]. *)
Definition try_except {S A} (m : M S A) (h : exn -> M S A) : M S A :=
  fun s => match m s with
           | (inl e, s') => h e s'
           | (inr a, s') => (inr a, s')
           end.

(** [try: m  finally: f].  The [finally] block runs on both exits; an
    exception it raises replaces the outcome of [m]. *)
Definition try_finally {S A} (m : M S A) (f : M S unit) : M S A :=
  fun s => match m s with
           | (r, s') =>
               match f s' with
               | (inl e, s'') => (inl e, s'')
               | (inr _, s'') => (r, s'')
               end
           end.

(** A local variable of type [L] that lives for the duration of [m]: it
    is assigned inside a [try] block and read in its [finally] block. *)
Definition liftS {S L A} (m : M S A) : M (S * L) A :=
  fun sl => match m (fst sl) with (r, s') => (r, (s', snd sl)) end.
Definition get_local {S L} : M (S * L) L := fun sl => (inr (snd sl), sl).
Definition set_local {S L} (l : L) : M (S * L) unit :=
  fun sl => (inr tt, (fst sl, l)).
Definition with_local {S L A} (init : L) (m : M (S * L) A) : M S A :=
  fun s => match m (s, init) with (r, sl) => (r, fst sl) end.

End Py.

Import Py.

Declare Scope py_scope.
Delimit Scope py_scope with py.
Bind Scope py_scope with M.
Notation "x <- c1 ;; c2" := (bind c1 (fun x => c2))
  (at level 100, c1 at next level, c2 at level 200, right associativity)
  : py_scope.
Notation "c1 ;; c2" := (bind c1 (fun _ => c2))
  (at level 100, c2 at level 200, right associativity) : py_scope.
Open Scope py_scope.

(* --------------------------------------------------------------------- *)
(** ** The WhisperLive service: [src/processor.py]                        *)
(* --------------------------------------------------------------------- *)
Module WhisperLive.

(** What the module reads when it is imported: [os.environ], and whether
    the storage client could be created ([storage_client] is [None] when
    its initialisation raised). *)
Record Config : Type := {
  environ : gmap string string;
  storage_client : bool;
}.

Definition TRANSCRIPT_BUCKET (c : Config) : option string :=
  environ c !! "TRANSCRIPT_BUCKET".
Definition MODEL_SIZE (c : Config) : string :=
  default "medium" (environ c !! "MODEL_SIZE").
Definition COMPUTE_TYPE (c : Config) : string :=
  default "float16" (environ c !! "COMPUTE_TYPE").
Definition LANGUAGE (c : Config) : string :=
  default "ko" (environ c !! "LANGUAGE").

(** A decoded audio signal (the numpy array handed to the model). *)
Definition audio : Type := list float.

(** How one attempt to construct the global model ends:
    [WhisperLiveASR(...)] may raise, and so may [AudioProcessor(...)],
    which runs after [model] has already been assigned. *)
Inductive load_outcome : Type :=
| LoadOk
| ModelInitFails (e : exn)
| AudioProcessorInitFails (e : exn).

(** How [blob.download_to_filename(path)] ends.  The library opens
    [path] for writing and streams the object into it.  When it raises,
    the file is either left as it is at that moment, empty or partly
    written, or removed by the library itself, which it does for an
    object that is missing or corrupt. *)
Inductive download_outcome : Type :=
| Downloaded
| DownloadFails (e : exn) (file_removed : bool).

(** The collaborators outside the repository:
    - [ext_load n]: how the [n]-th attempt to construct the model ends;
    - [ext_load_audio_file]: [audio_proc.load_audio_file(path)];
    - [ext_inference]: [reset_state()] followed by
      [inference(audio_data, is_final=True)];
    - [ext_tmpname n suffix]: the name chosen by the [n]-th [mkstemp];
    - [ext_blob bucket object]: [storage_client.bucket(bucket)] followed
      by [bucket.blob(object)], which build the handles of the download
      and raise on a name the library rejects;
    - [ext_download bucket object]: [blob.download_to_filename(...)];
    - [ext_upload bucket name]: [storage_client.bucket(bucket)],
      [bucket.blob(name)] and [blob.upload_from_string(...)], which the
      code calls in a row;
    - [ext_write path]: creating the directory and writing the file;
    - [ext_clock n]: the [n]-th reading of [time.time()]. *)
Record External : Type := {
  ext_load : nat -> load_outcome;
  ext_load_audio_file : string -> fallible audio;
  ext_inference : audio -> fallible value;
  ext_tmpname : nat -> string -> string;
  ext_blob : string -> string -> option exn;
  ext_download : string -> string -> download_outcome;
  ext_upload : string -> string -> option exn;
  ext_write : string -> option exn;
  ext_clock : nat -> float;
}.

(** Files on the local disk: downloaded audio or a written JSON document. *)
Inductive content : Type :=
| Binary
| Document (v : value).

(** Module globals and the outside world they act on.  [fs] holds the
    paths that exist on the local disk; [unremovable] holds the paths
    that [os.remove] refuses, each with the exception it raises there:
    [IsADirectoryError] for a directory, [PermissionError] for a file
    that the process may not delete. *)
Record State : Type := {
  model : bool;
  audio_processor : bool;
  load_attempts : nat;
  clock_reads : nat;
  tmp_counter : nat;
  fs : gmap string content;
  unremovable : gmap string exn;
  blobs : gmap (string * string) value;
  transcription_results : gmap (option string) dict;
}.

Definition initial_state : State :=
  {| model := false; audio_processor := false; load_attempts := 0;
     clock_reads := 0; tmp_counter := 0; fs := ∅; unremovable := ∅;
     blobs := ∅; transcription_results := ∅ |}.

Definition set_model (b : bool) (s : State) : State :=
  {| model := b; audio_processor := audio_processor s;
     load_attempts := load_attempts s; clock_reads := clock_reads s;
     tmp_counter := tmp_counter s; fs := fs s;
     unremovable := unremovable s; blobs := blobs s;
     transcription_results := transcription_results s |}.
Definition set_audio_processor (b : bool) (s : State) : State :=
  {| model := model s; audio_processor := b;
     load_attempts := load_attempts s; clock_reads := clock_reads s;
     tmp_counter := tmp_counter s; fs := fs s;
     unremovable := unremovable s; blobs := blobs s;
     transcription_results := transcription_results s |}.
Definition set_load_attempts (n : nat) (s : State) : State :=
  {| model := model s; audio_processor := audio_processor s;
     load_attempts := n; clock_reads := clock_reads s;
     tmp_counter := tmp_counter s; fs := fs s;
     unremovable := unremovable s; blobs := blobs s;
     transcription_results := transcription_results s |}.
Definition set_clock_reads (n : nat) (s : State) : State :=
  {| model := model s; audio_processor := audio_processor s;
     load_attempts := load_attempts s; clock_reads := n;
     tmp_counter := tmp_counter s; fs := fs s;
     unremovable := unremovable s; blobs := blobs s;
     transcription_results := transcription_results s |}.
Definition set_tmp_counter (n : nat) (s : State) : State :=
  {| model := model s; audio_processor := audio_processor s;
     load_attempts := load_attempts s; clock_reads := clock_reads s;
     tmp_counter := n; fs := fs s;
     unremovable := unremovable s; blobs := blobs s;
     transcription_results := transcription_results s |}.
Definition set_fs (f : gmap string content) (s : State) : State :=
  {| model := model s; audio_processor := audio_processor s;
     load_attempts := load_attempts s; clock_reads := clock_reads s;
     tmp_counter := tmp_counter s; fs := f;
     unremovable := unremovable s; blobs := blobs s;
     transcription_results := transcription_results s |}.
Definition set_unremovable (u : gmap string exn) (s : State) : State :=
  {| model := model s; audio_processor := audio_processor s;
     load_attempts := load_attempts s; clock_reads := clock_reads s;
     tmp_counter := tmp_counter s; fs := fs s;
     unremovable := u; blobs := blobs s;
     transcription_results := transcription_results s |}.
Definition set_blobs (b : gmap (string * string) value) (s : State) : State :=
  {| model := model s; audio_processor := audio_processor s;
     load_attempts := load_attempts s; clock_reads := clock_reads s;
     tmp_counter := tmp_counter s; fs := fs s;
     unremovable := unremovable s; blobs := b;
     transcription_results := transcription_results s |}.
Definition set_transcription_results
    (r : gmap (option string) dict) (s : State) : State :=
  {| model := model s; audio_processor := audio_processor s;
     load_attempts := load_attempts s; clock_reads := clock_reads s;
     tmp_counter := tmp_counter s; fs := fs s;
     unremovable := unremovable s; blobs := blobs s;
     transcription_results := r |}.

(** A call to an external operation that only succeeds or raises. *)
Definition outcome (o : option exn) : M State unit :=
  match o with Some e => raise e | None => ret tt end.

(** [time.time()]. *)
Definition time_time (E : External) : M State float :=
  fun s => (inr (ext_clock E (clock_reads s)),
            set_clock_reads (S (clock_reads s)) s).

(** [os.path.exists(p)]: true of files and of directories. *)
Definition os_path_exists (p : string) : M State bool :=
  gets (fun s => bool_decide (is_Some (fs s !! p))).

(** [os.remove(p)]: raises on a path that does not exist and on a path
    that it may not remove, which then stays where it is. *)
Definition os_remove (p : string) : M State unit :=
  fun s => match fs s !! p with
           | Some _ =>
               match unremovable s !! p with
               | Some e => (inl e, s)
               | None => (inr tt, set_fs (delete p (fs s)) s)
               end
           | None => (inl (ExternalError "No such file or directory"), s)
           end.

(** [if os.path.exists(p): os.remove(p)]. *)
Definition remove_if_exists (p : string) : M State unit :=
  found <- os_path_exists p ;;
  if found then os_remove p else ret tt.

(** [tempfile.mkstemp(suffix=...)]: creates an empty file under a name
    that was free; the file belongs to the process, which may remove
    it. *)
Definition mkstemp (E : External) (suffix : string) : M State string :=
  fun s => let p := ext_tmpname E (tmp_counter s) suffix in
           (inr p, set_fs (<[p := Binary]> (fs s))
                     (set_unremovable (delete p (unremovable s))
                        (set_tmp_counter (S (tmp_counter s)) s))).

(** [blob.download_to_filename(path)] on the object [object] of [bucket],
    into the file [path] that [mkstemp] has created. *)
Definition download_to_filename (E : External) (bucket object path : string)
  : M State unit :=
  match ext_download E bucket object with
  | Downloaded => ret tt
  | DownloadFails e file_removed =>
      (if file_removed
       then modify (fun s => set_fs (delete path (fs s)) s)
       else ret tt) ;;
      raise e
  end.

(** [with open(path, "w") as f: json.dump(data, f, ...)]. *)
Definition write_json (E : External) (path : string) (data : value)
  : M State unit :=
  outcome (ext_write E path) ;;
  modify (fun s => set_fs (<[path := Document data]> (fs s)) s).

(** [storage_client.bucket(bucket).blob(name)] and
    [blob.upload_from_string(json.dumps(data), ...)]. *)
Definition upload_from_string (E : External) (bucket name : string)
    (data : value) : M State unit :=
  outcome (ext_upload E bucket name) ;;
  modify (fun s => set_blobs (<[(bucket, name) := data]> (blobs s)) s).

(** [load_model]: lazy initialisation of the global model.  The result is
    whether the returned [audio_processor] is an object or [None]. *)
Definition load_model (E : External) : M State bool :=
  loaded <- gets model ;;
  if loaded then gets audio_processor
  else
    n <- gets load_attempts ;;
    modify (set_load_attempts (S n)) ;;
    match ext_load E n with
    | ModelInitFails e => raise e
    | AudioProcessorInitFails e => modify (set_model true) ;; raise e
    | LoadOk =>
        modify (set_model true) ;;
        modify (set_audio_processor true) ;;
        gets audio_processor
    end.

(** The pre-load at import time: a failure is logged and swallowed. *)
Definition preload (E : External) : M State unit :=
  try_except (load_model E ;; ret tt) (fun _ => ret tt).

(** [download_audio]. *)
Definition download_audio (C : Config) (E : External)
    (bucket_name object_name : string) : M State string :=
  try_except
    (if negb (storage_client C)
     then raise (ValueError "스토리지 클라이언트가 초기화되지 않았습니다")
     else
       outcome (ext_blob E bucket_name object_name) ;;
       temp_local_filename <- mkstemp E (path_suffix object_name) ;;
       download_to_filename E bucket_name object_name temp_local_filename ;;
       ret temp_local_filename)
    (fun e => raise e).

(** [upload_transcript]. *)
Definition upload_transcript (C : Config) (E : External)
    (transcript_data : dict) (object_name : string)
    (session_id request_id : option string) : M State string :=
  try_except
    (if negb (storage_client C) || negb (opt_truthy (TRANSCRIPT_BUCKET C))
     then
       let output_dir := "transcripts" in
       let base_name := path_stem object_name in
       let output_file :=
         if opt_truthy session_id
         then os_path_join output_dir
                (default "" session_id +:+ "_" +:+ base_name +:+ ".json")
         else os_path_join output_dir (base_name +:+ ".json") in
       write_json E output_file (VDict transcript_data) ;;
       ret output_file
     else
       let base_name := path_stem object_name in
       let transcript_name :=
         if opt_truthy session_id
         then default "" session_id +:+ "/" +:+ base_name +:+ ".json"
         else base_name +:+ ".json" in
       upload_from_string E (default "" (TRANSCRIPT_BUCKET C))
         transcript_name (VDict transcript_data) ;;
       ret transcript_name)
    (fun e => raise e).

(** One iteration of the segment loop of [process_audio]: the dict built
    for the [i]-th segment of the model's result. *)
Definition segment_dict (i : nat) (segment : value) : fallible dict :=
  rbind (get "start" (VInt 0) segment) (fun start =>
  rbind (get "end" (VInt 0) segment) (fun end_ =>
  rbind (get "text" (VStr "") segment) (fun text =>
  rbind (value_strip text) (fun text' =>
  inr [("id", VInt (Z.of_nat i)); ("start", start); ("end", end_);
       ("text", text')])))).

(** [for i, segment in enumerate(...): ... segments_list.append(...)]. *)
Fixpoint segments_loop (i : nat) (rest : list value)
    (segments_list : list value) : fallible (list value) :=
  match rest with
  | [] => inr segments_list
  | segment :: rest' =>
      rbind (segment_dict i segment) (fun d =>
      segments_loop (S i) rest' (segments_list ++ [VDict d]))
  end.

(** The part of [process_audio] after the inference call. *)
Definition build_transcript (C : Config) (result : value) : fallible dict :=
  rbind (get "segments" (VList []) result) (fun segs =>
  rbind (iterate segs) (fun segs' =>
  rbind (segments_loop 0 segs' []) (fun segments_list =>
  rbind (get "text" (VStr "") result) (fun text =>
  inr [("segments", VList segments_list);
       ("language", VStr (LANGUAGE C));
       ("text", text)])))).

(** [process_audio]. *)
Definition process_audio (C : Config) (E : External)
    (audio_file_path : string) : M State dict :=
  try_except
    (audio_proc <- load_model E ;;
     audio_data <-
       (if audio_proc then lift (ext_load_audio_file E audio_file_path)
        else raise (AttributeError
                      "'NoneType' object has no attribute 'load_audio_file'")) ;;
     result <- lift (ext_inference E audio_data) ;;
     lift (build_transcript C result))
    (fun e => raise e).

(** [transcription_results[request_id] = r]. *)
Definition store_result (request_id : option string) (r : dict)
  : M State unit :=
  modify (fun s => set_transcription_results
                     (<[request_id := r]> (transcription_results s)) s).

(** [process_audio_file]: the background task of [/transcribe]. *)
Definition process_audio_file (C : Config) (E : External)
    (bucket_name object_name : string)
    (session_id request_id : option string) : M State dict :=
  start_time <- time_time E ;;
  with_local (None : option string)
    (try_finally
       (try_except
          (path <- liftS (download_audio C E bucket_name object_name) ;;
           set_local (Some path) ;;
           transcript_result <- liftS (process_audio C E path) ;;
           transcript_name <-
             liftS (upload_transcript C E transcript_result object_name
                      session_id request_id) ;;
           t <- liftS (time_time E) ;;
           let processing_time := PrimFloat.sub t start_time in
           let result :=
             [("status", VStr "success");
              ("message", VStr "오디오 처리 완료");
              ("request_id", of_opt request_id);
              ("transcript_location",
                 VStr (if opt_truthy (TRANSCRIPT_BUCKET C)
                       then "gs://" +:+ default "" (TRANSCRIPT_BUCKET C)
                              +:+ "/" +:+ transcript_name
                       else transcript_name));
              ("processing_time_seconds", VFloat processing_time);
              ("result", VDict transcript_result)] in
           liftS (store_result request_id result) ;;
           ret result)
          (fun e =>
           t <- liftS (time_time E) ;;
           let error_result :=
             [("status", VStr "error");
              ("message", VStr "오디오 처리 중 오류 발생");
              ("request_id", of_opt request_id);
              ("error_details", VStr (str_exn e));
              ("processing_time_seconds", VFloat (PrimFloat.sub t start_time))] in
           liftS (store_result request_id error_result) ;;
           ret error_result))
       (local_file_path <- get_local ;;
        if opt_truthy local_file_path
        then liftS (remove_if_exists (default "" local_file_path))
        else ret tt)).

(** [process_uploaded_file]: the background task of [/upload-transcribe].
    [language] and [beam_size] are accepted and not used. *)
Definition process_uploaded_file (C : Config) (E : External)
    (file_path request_id : string) (language : option string)
    (beam_size : Z) : M State dict :=
  start_time <- time_time E ;;
  try_finally
    (try_except
       (transcript_result <- process_audio C E file_path ;;
        let base_name := "upload_" +:+ request_id in
        let result_file_name := base_name +:+ ".json" in
        transcript_location <-
          (if storage_client C && opt_truthy (TRANSCRIPT_BUCKET C)
           then
             try_except
               (upload_from_string E (default "" (TRANSCRIPT_BUCKET C))
                  result_file_name (VDict transcript_result) ;;
                ret (Some ("gs://" +:+ default "" (TRANSCRIPT_BUCKET C)
                             +:+ "/" +:+ result_file_name)))
               (fun _ => ret None)
           else
             let output_dir := "transcripts" in
             let output_file := os_path_join output_dir result_file_name in
             write_json E output_file (VDict transcript_result) ;;
             ret (Some output_file)) ;;
        t <- time_time E ;;
        let processing_time := PrimFloat.sub t start_time in
        let result :=
          [("status", VStr "success");
           ("message", VStr "오디오 처리 완료");
           ("request_id", VStr request_id);
           ("transcript_location", of_opt transcript_location);
           ("processing_time_seconds", VFloat processing_time);
           ("result", VDict transcript_result)] in
        store_result (Some request_id) result ;;
        ret result)
       (fun e =>
        t <- time_time E ;;
        let error_result :=
          [("status", VStr "error");
           ("message", VStr "오디오 처리 중 오류 발생");
           ("request_id", VStr request_id);
           ("error_details", VStr (str_exn e));
           ("processing_time_seconds", VFloat (PrimFloat.sub t start_time))] in
        store_result (Some request_id) error_result ;;
        ret error_result))
    (remove_if_exists file_path).

End WhisperLive.

(* --------------------------------------------------------------------- *)
(** ** The request and response models: [src/models.py]                   *)
(* --------------------------------------------------------------------- *)
Module Models.

Inductive StatusEnum : Type :=
| SUCCESS | ERROR | PENDING | PROCESSING | SKIPPED.

(** The string value of each member ([StatusEnum] is a [str] enum). *)
Definition status_value (s : StatusEnum) : string :=
  match s with
  | SUCCESS => "success"
  | ERROR => "error"
  | PENDING => "pending"
  | PROCESSING => "processing"
  | SKIPPED => "skipped"
  end.

Record PubSubMessage : Type := {
  data : string;
  attributes : option (list (string * string));
  message_id : option string;
  publish_time : option string;
}.

Record PubSubEnvelope : Type := {
  message : PubSubMessage;
  subscription : string;
}.

Record AudioProcessingRequest : Type := {
  bucket : string;
  name : string;
  session_id : option string;
}.

(** The field [message] of the response is [message_text] here, and the
    field [status] of the health response is [health_status]: the names
    [message] and [status] are taken by the records above. *)
Record AudioProcessingResponse : Type := {
  status : StatusEnum;
  message_text : string;
  request_id : option string;
  transcript_location : option string;
  processing_time_seconds : option float;
  error_details : option string;
}.

Record HealthResponse : Type := {
  health_status : string;
  version : string;
  environment : option string;
}.

(** Validation of a required [str] field and of an [Optional[str]] field
    when a model object is constructed: [None] is refused for a required
    field, and so is a value that is not a string (pydantic 2; pydantic 1
    would turn a number into its string). *)
Definition validate_str (field : string) (v : value) : fallible string :=
  match v with
  | VStr s => inr s
  | _ => inl (ValidationError (field +:+ ": str type expected"))
  end.

Definition validate_opt_str (field : string) (v : value)
  : fallible (option string) :=
  match v with
  | VStr s => inr (Some s)
  | VNone => inr None
  | _ => inl (ValidationError (field +:+ ": str type expected"))
  end.

(** [AudioProcessingRequest(bucket=..., name=..., session_id=...)]. *)
Definition make_request (b n sid : value) : fallible AudioProcessingRequest :=
  rbind (validate_str "bucket" b) (fun b' =>
  rbind (validate_str "name" n) (fun n' =>
  rbind (validate_opt_str "session_id" sid) (fun sid' =>
  inr {| bucket := b'; name := n'; session_id := sid' |}))).

(** [AudioProcessingResponse(status=..., message=..., request_id=...)]
    with the remaining fields left at their default [None]. *)
Definition response (st : StatusEnum) (msg : string) (rid : string)
    (details : option string) : AudioProcessingResponse :=
  {| status := st; message_text := msg; request_id := Some rid;
     transcript_location := None; processing_time_seconds := None;
     error_details := details |}.

(** [JSONResponse(status_code=..., content=...)]. *)
Record JSONResponse : Type := {
  status_code : Z;
  content : value;
}.

End Models.

(* --------------------------------------------------------------------- *)
(** ** The HTTP endpoints: [src/api.py]                                   *)
(* --------------------------------------------------------------------- *)
Module Api.
Import Models.

Definition API_VERSION : string := "v1".

(** A call registered with [background_tasks.add_task]. *)
Inductive task : Type :=
| ProcessAudioFile (bucket name : string) (session_id : option string)
    (request_id : string)
| ProcessUploadedFile (temp_file_path request_id : string)
    (language : option string) (beam_size : Z).

(** What a handler can change while it answers one request: the request's
    [BackgroundTasks] object, the temporary files, and how many uuids and
    temporary names were drawn. *)
Record Request : Type := {
  background_tasks : list task;
  temp_files : gmap string string;
  uuid_calls : nat;
  temp_names : nat;
}.

Definition new_request : Request :=
  {| background_tasks := []; temp_files := ∅; uuid_calls := 0;
     temp_names := 0 |}.

(** The collaborators outside the repository: the [n]-th uuid drawn,
    [base64.b64decode(...).decode("utf-8")], [json.loads], the name of
    the [n]-th temporary file, and the writing of a file. *)
Record External : Type := {
  ext_uuid4 : nat -> string;
  ext_b64decode_utf8 : string -> fallible string;
  ext_json_loads : string -> fallible value;
  ext_temp_name : nat -> string -> string;
  ext_write : string -> option exn;
}.

(** An uploaded file: its name and the outcome of [await file.read()]. *)
Record UploadFile : Type := {
  filename : string;
  read : fallible string;
}.

(** [str(uuid.uuid4())]. *)
Definition uuid4 (E : External) : M Request string :=
  fun r => (inr (ext_uuid4 E (uuid_calls r)),
            {| background_tasks := background_tasks r;
               temp_files := temp_files r;
               uuid_calls := S (uuid_calls r);
               temp_names := temp_names r |}).

(** [background_tasks.add_task(...)]. *)
Definition add_task (t : task) : M Request unit :=
  modify (fun r => {| background_tasks := background_tasks r ++ [t];
                      temp_files := temp_files r;
                      uuid_calls := uuid_calls r;
                      temp_names := temp_names r |}).

(** [tempfile.NamedTemporaryFile(delete=False, suffix=...)], closed at
    once: an empty file that stays on disk. *)
Definition named_temporary_file (E : External) (suffix : string)
  : M Request string :=
  fun r => let p := ext_temp_name E (temp_names r) suffix in
           (inr p, {| background_tasks := background_tasks r;
                      temp_files := <[p := ""]> (temp_files r);
                      uuid_calls := uuid_calls r;
                      temp_names := S (temp_names r) |}).

(** [with open(path, "wb") as f: f.write(content)]. *)
Definition write_file (E : External) (path content : string)
  : M Request unit :=
  match ext_write E path with
  | Some e => raise e
  | None =>
      modify (fun r => {| background_tasks := background_tasks r;
                          temp_files := <[path := content]> (temp_files r);
                          uuid_calls := uuid_calls r;
                          temp_names := temp_names r |})
  end.

Definition supported_formats : list string :=
  [".mp3"; ".wav"; ".m4a"; ".flac"; ".ogg"; ".aac"].

(** [transcribe_audio], the [/transcribe] endpoint: the [try] block. *)
Definition transcribe_audio_try (E : External) (envelope : PubSubEnvelope)
  : M Request AudioProcessingResponse :=
  message_data <- lift (ext_b64decode_utf8 E (data (message envelope))) ;;
  data <- lift (ext_json_loads E message_data) ;;
  request_id <- uuid4 E ;;
  b <- lift (get "bucket" VNone data) ;;
  n <- lift (get "name" VNone data) ;;
  sid <- lift (get "session_id" VNone data) ;;
  request <- lift (make_request b n sid) ;;
  if negb (str_truthy (bucket request)) || negb (str_truthy (name request))
  then ret (response ERROR "버킷 또는 파일명이 제공되지 않았습니다"
              request_id None)
  else if negb (any (fun fmt => endswith (lower (name request)) fmt)
                  supported_formats)
  then ret (response SKIPPED
              ("지원되지 않는 파일 형식: " +:+ name request) request_id None)
  else
    add_task (ProcessAudioFile (bucket request) (name request)
                (session_id request) request_id) ;;
    ret (response PENDING "오디오 처리가 시작되었습니다" request_id None).

(** Its two [except] clauses: [json.JSONDecodeError], then [Exception]. *)
Definition transcribe_audio_except (E : External) (e : exn)
  : M Request AudioProcessingResponse :=
  match e with
  | JSONDecodeError _ =>
      rid <- uuid4 E ;;
      ret (response ERROR "잘못된 메시지 형식" rid None)
  | _ =>
      rid <- uuid4 E ;;
      ret (response ERROR "서버 내부 오류" rid (Some (str_exn e)))
  end.

Definition transcribe_audio (E : External) (envelope : PubSubEnvelope)
  : M Request AudioProcessingResponse :=
  try_except (transcribe_audio_try E envelope) (transcribe_audio_except E).

(** [upload_and_transcribe], the [/upload-transcribe] endpoint: the [try]
    block. *)
Definition upload_and_transcribe_try (E : External) (file : UploadFile)
    (language : option string) (beam_size : Z)
  : M Request AudioProcessingResponse :=
  request_id <- uuid4 E ;;
  let file_extension := lower (path_suffix (filename file)) in
  if negb (any (fun fmt => endswith file_extension fmt) supported_formats)
  then ret (response SKIPPED
              ("지원되지 않는 파일 형식: " +:+ filename file) request_id None)
  else
    temp_file_path <- named_temporary_file E file_extension ;;
    content <- lift (read file) ;;
    write_file E temp_file_path content ;;
    add_task (ProcessUploadedFile temp_file_path request_id language
                beam_size) ;;
    ret (response PENDING "오디오 처리가 시작되었습니다" request_id None).

(** Its [except Exception] clause. *)
Definition upload_and_transcribe_except (E : External) (e : exn)
  : M Request AudioProcessingResponse :=
  rid <- uuid4 E ;;
  ret (response ERROR "서버 내부 오류" rid (Some (str_exn e))).

Definition upload_and_transcribe (E : External) (file : UploadFile)
    (language : option string) (beam_size : Z)
  : M Request AudioProcessingResponse :=
  try_except (upload_and_transcribe_try E file language beam_size)
    (upload_and_transcribe_except E).

(** [get_transcription_result]: reads the processor's in-memory store. *)
Definition get_transcription_result (request_id : string)
  : M WhisperLive.State JSONResponse :=
  results <- gets WhisperLive.transcription_results ;;
  match results !! Some request_id with
  | None =>
      raise (HTTPException 404
               ("요청된 ID의 트랜스크립션 결과를 찾을 수 없습니다: "
                  +:+ request_id))
  | Some result =>
      if eq_str (dict_get "status" VNone result) "error"
      then ret {| status_code := 500;
                  content := VDict
                    [("status", VStr "error");
                     ("message",
                        dict_get "message" (VStr "처리 중 오류 발생") result);
                     ("request_id", VStr request_id);
                     ("error_details", dict_get "error_details" VNone result)]
               |}
      else if negb (eq_str (dict_get "status" VNone result) "success")
      then ret {| status_code := 200;
                  content := VDict
                    [("status", dict_get "status" (VStr "unknown") result);
                     ("message", dict_get "message" (VStr "처리 중") result);
                     ("request_id", VStr request_id)] |}
      else if contains "result" result
                && truthy (dict_get "result" VNone result)
      then ret {| status_code := 200;
                  content := dict_get "result" VNone result |}
      else ret {| status_code := 200;
                  content := VDict
                    [("status", VStr "success");
                     ("message",
                        VStr "처리 완료되었으나 트랜스크립션 데이터를 찾을 수 없습니다");
                     ("request_id", VStr request_id);
                     ("transcript_location",
                        dict_get "transcript_location" VNone result)] |}
  end.

(** [health_check]: the [/health] endpoint. *)
Definition health_check (C : WhisperLive.Config)
  : M WhisperLive.State HealthResponse :=
  ret {| health_status := "healthy";
         version := API_VERSION;
         environment :=
           Some (default "development"
                   (WhisperLive.environ C !! "ENVIRONMENT")) |}.

End Api.

(* --------------------------------------------------------------------- *)
(** ** The session registry behind the streaming endpoint                 *)
(* --------------------------------------------------------------------- *)
Module SessionRegistry.

(** Modelled from the spec: the module [src/websocket.py], which holds the
    session table used by [main.py], is not among the sources.  The spec
    gives the registry the contract [create() -> Session],
    [get(id) -> Optional[Session]] and [remove(id) -> None], a session an
    immutable [id], a [state], a [sequence_counter] and an
    [accumulated_text]. *)
Inductive lifecycle : Type := CONNECTING | ACTIVE | FINALIZING | CLOSED.

Record Session : Type := {
  id : string;
  state : lifecycle;
  sequence_counter : nat;
  accumulated_text : string;
}.

Definition new_session (i : string) : Session :=
  {| id := i; state := CONNECTING; sequence_counter := 0;
     accumulated_text := "" |}.

(** [create]: a fresh id, inserted, and the new session returned. *)
Definition create : M (gmap string Session) Session :=
  fun reg => let i := fresh (dom reg) in
             (inr (new_session i), <[i := new_session i]> reg).

(** [get]. *)
Definition get (i : string) : M (gmap string Session) (option Session) :=
  gets (fun reg => reg !! i).

(** [remove]: deletes the entry when there is one; never raises. *)
Definition remove (i : string) : M (gmap string Session) unit :=
  modify (fun reg => delete i reg).

End SessionRegistry.

(* --------------------------------------------------------------------- *)
(** ** The application: [main.py]                                         *)
(* --------------------------------------------------------------------- *)
Module Main.
Import Models.

(** [global_exception_handler]. *)
Definition global_exception_handler (exc : exn) : JSONResponse :=
  {| status_code := 500;
     content := VDict [("status", VStr "error");
                       ("message", VStr "내부 서버 오류가 발생했습니다")] |}.

(** What the application sends for the outcome of a handler: the
    handler's own response, the framework's answer to an [HTTPException],
    and the global handler's answer to any other exception. *)
Definition app_response (r : fallible JSONResponse) : JSONResponse :=
  match r with
  | inr resp => resp
  | inl (HTTPException code detail) =>
      {| status_code := code; content := VDict [("detail", VStr detail)] |}
  | inl e => global_exception_handler e
  end.

(** The first frame of a streaming connection. *)
Definition connected_frame (session_id : string) : value :=
  VDict [("event", VStr "connected"); ("session_id", VStr session_id)].

Section WebSocket.

(** The [WebSocketManager] of [src/websocket.py] is not among the sources;
    the endpoint is embedded over any manager.  [register] creates the
    session and returns its id, [process_audio] handles one binary frame
    and returns the frames it sent to the client and the exception it
    raised, if any, [unregister] drops the session. *)
Variable Manager : Type.
Variable register : Manager -> fallible string * Manager.
Variable process_audio :
  string -> string -> Manager -> (list value * option exn) * Manager.
Variable unregister : string -> Manager -> Manager.

(** The [while True] loop over the frames the client sends.  [incoming]
    lists the outcomes of the successive [receive_bytes()] calls; when the
    client has nothing more to send the call raises [WebSocketDisconnect].
    The loop ends with the exception that stopped it. *)
Fixpoint receive_loop (session_id : string)
    (incoming : list (fallible string)) (m : Manager) (sent : list value)
  : exn * Manager * list value :=
  match incoming with
  | [] => (WebSocketDisconnect, m, sent)
  | inl e :: _ => (e, m, sent)
  | inr data :: rest =>
      if negb (str_truthy data) then receive_loop session_id rest m sent
      else
        match process_audio session_id data m with
        | ((frames, Some e), m') => (e, m', (sent ++ frames))
        | ((frames, None), m') =>
            receive_loop session_id rest m' (sent ++ frames)
        end
  end.

(** [websocket_endpoint].  [accept] is the outcome of
    [websocket.accept()].  Both [except] clauses only log, so the result
    is the manager's final state and the frames sent to the client. *)
Definition websocket_endpoint (accept : option exn)
    (incoming : list (fallible string)) (m : Manager)
  : Manager * list value :=
  match accept with
  | Some _ => (m, [])
  | None =>
      match register m with
      | (inl _, m1) => (m1, [])
      | (inr session_id, m1) =>
          match receive_loop session_id incoming m1
                  [connected_frame session_id] with
          | (_, m2, sent) =>
              (if str_truthy session_id then unregister session_id m2
               else m2, sent)
          end
      end
  end.

End WebSocket.

End Main.

(* --------------------------------------------------------------------- *)
(** ** The Faster-Whisper container: [containers/whisper/src/processor.py] *)
(* --------------------------------------------------------------------- *)
Module FasterWhisper.

(** The objects returned by [WhisperModel.transcribe]. *)
Record Word : Type := {
  word : string;
  word_start : float;
  word_end : float;
  probability : float;
}.

Record Segment : Type := {
  seg_start : float;
  seg_end : float;
  text : string;
  words : option (list Word);
}.

Record TranscriptionInfo : Type := {
  language : string;
  language_probability : float;
}.

(** The collaborators outside the repository.  The segments come from a
    generator: it yields a list of segments and may then raise. *)
Record External : Type := {
  ext_load : option exn;
  ext_transcribe :
    string -> fallible (list Segment * option exn * TranscriptionInfo);
}.

(** The module global [model]: whether it has been loaded. *)
Definition State : Type := bool.

(** [load_model]. *)
Definition load_model (E : External) : M State unit :=
  loaded <- gets (fun s : State => s) ;;
  if loaded then ret tt
  else
    match ext_load E with
    | Some e => raise e
    | None => modify (fun _ : State => true)
    end.

Definition word_dict (w : Word) : value :=
  VDict [("word", VStr (word w)); ("start", VFloat (word_start w));
         ("end", VFloat (word_end w));
         ("probability", VFloat (probability w))].

(** The dict built for [segment] when [segments_list] holds the ones
    before it. *)
Definition segment_dict (segments_list : list value) (segment : Segment)
  : dict :=
  [("id", VInt (Z.of_nat (length segments_list)));
   ("start", VFloat (seg_start segment));
   ("end", VFloat (seg_end segment));
   ("text", VStr (strip (text segment)));
   ("words", VList (map word_dict (default [] (words segment))))].

(** [for segment in segments_generator: ...], with both accumulators. *)
Fixpoint segments_loop (rest : list Segment) (segments_list : list value)
    (full_text : string) : list value * string :=
  match rest with
  | [] => (segments_list, full_text)
  | segment :: rest' =>
      segments_loop rest'
        (segments_list ++ [VDict (segment_dict segments_list segment)])
        (full_text +:+ text segment +:+ " ")
  end.

(** [process_audio]. *)
Definition process_audio (E : External) (audio_file_path : string)
  : M State dict :=
  try_except
    (load_model E ;;
     r <- lift (ext_transcribe E audio_file_path) ;;
     match r with
     | (segments_generator, failure, info) =>
         match segments_loop segments_generator [] "" with
         | (segments_list, full_text) =>
             match failure with
             | Some e => raise e
             | None =>
                 ret [("segments", VList segments_list);
                      ("language", VStr (language info));
                      ("text", VStr (strip full_text));
                      ("language_probability",
                         VFloat (language_probability info))]
             end
         end
     end)
    (fun e => raise e).

End FasterWhisper.

(* --------------------------------------------------------------------- *)
(** ** The WhisperX container: [containers/whisperx/src]                  *)
(* --------------------------------------------------------------------- *)
Module WhisperX.

(** The collaborators outside the repository: [model.transcribe], and the
    diarization pipeline followed by [assign_word_speakers]. *)
Record External : Type := {
  ext_load : option exn;
  ext_transcribe : string -> fallible value;
  ext_diarize : string -> value -> fallible value;
}.

(** Whether the module global [model] exists. *)
Definition State : Type := bool.

(** [load_model]. *)
Definition load_model (E : External) : M State unit :=
  loaded <- gets (fun s : State => s) ;;
  if loaded then ret tt
  else
    match ext_load E with
    | Some e => raise e
    | None => modify (fun _ : State => true)
    end.

(** [process_audio]: the model's result, with speakers assigned when the
    diarization succeeds, is returned as it is. *)
Definition process_audio (E : External) (audio_file_path : string)
  : M State value :=
  try_except
    (load_model E ;;
     result <- lift (ext_transcribe E audio_file_path) ;;
     try_except
       (lift (ext_diarize E audio_file_path result))
       (fun _ => ret result))
    (fun e => raise e).

(** [transcribe_audio] of [containers/whisperx/src/api.py] is the handler
    of [src/api.py], statement for statement. *)
Definition transcribe_audio := Api.transcribe_audio.

End WhisperX.

(* --------------------------------------------------------------------- *)
(** ** Background tasks: how the registered calls are made                *)
(* --------------------------------------------------------------------- *)
Module Background.

(** [background_tasks.add_task(f, a, b, ...)] registers the call
    [f(a, b, ...)]; the framework makes it once the response has been sent.  The calls
    registered by [src/api.py] are to the two functions of
    [src/processor.py], with the arguments in the order given there. *)
Definition run_task (C : WhisperLive.Config) (E : WhisperLive.External)
    (t : Api.task) : M WhisperLive.State dict :=
  match t with
  | Api.ProcessAudioFile bucket name session_id request_id =>
      WhisperLive.process_audio_file C E bucket name session_id
        (Some request_id)
  | Api.ProcessUploadedFile temp_file_path request_id language beam_size =>
      WhisperLive.process_uploaded_file C E temp_file_path request_id
        language beam_size
  end.

End Background.

(* --------------------------------------------------------------------- *)
(** ** The session endpoint: [get_session_result] of [src/api.py]         *)
(* --------------------------------------------------------------------- *)
Module SessionResult.
Import Models.

(** [str(PurePosixPath(p))]: empty and "." components are dropped, a
    leading slash is kept (two leading slashes are kept as two), and the
    empty path is ".". *)
Fixpoint join_parts (parts : list (list ascii)) : list ascii :=
  match parts with
  | [] => []
  | [p] => p
  | p :: rest => p ++ "/"%char :: join_parts rest
  end.

Definition posix_path (p : string) : string :=
  let chars := list_ascii_of_string p in
  let parts := List.filter is_part (split_chars "/" [] chars) in
  let root :=
    match chars with
    | "/"%char :: "/"%char :: "/"%char :: _ => ["/"%char]
    | "/"%char :: "/"%char :: _ => ["/"%char; "/"%char]
    | "/"%char :: _ => ["/"%char]
    | _ => []
    end in
  match root, parts with
  | [], [] => "."
  | _, _ => string_of_list_ascii (root ++ join_parts parts)
  end.

(** [Path(a) / b]: an absolute [b] replaces [a]. *)
Definition path_div (a b : string) : string :=
  match b with
  | String "/" _ => posix_path b
  | _ => posix_path (a +:+ "/" +:+ b)
  end.

(** [Path("transcripts") / f"{session_id}.json"]. *)
Definition output_file (session_id : string) : string :=
  path_div "transcripts" (session_id +:+ ".json").



End SessionResult.

(* --------------------------------------------------------------------- *)
(** ** The Faster-Whisper container: the tasks of its [processor.py]      *)
(* --------------------------------------------------------------------- *)
Module FasterWhisperTasks.
Import FasterWhisper.

(** The collaborators outside the repository: those of [process_audio],
    [transcribe] called on a path with a language and a beam size, the
    name chosen by [mkstemp], [storage_client.bucket(...)] followed by
    [bucket.blob(...)] before a download, the download itself, the upload
    of a blob (its handles included), and the clock. *)
Record External : Type := {
  base : FasterWhisper.External;
  ext_transcribe_with :
    string -> string -> Z ->
    fallible (list Segment * option exn * TranscriptionInfo);
  ext_tmpname : nat -> string -> string;
  ext_blob : string -> string -> option exn;
  ext_download : string -> string -> WhisperLive.download_outcome;
  ext_upload : string -> string -> option exn;
  ext_clock : nat -> float;
}.

(** The module globals [model] and [transcription_results], the paths
    that exist on the local disk, the paths that [os.remove] refuses
    (a directory, a file that may not be deleted) with the exception it
    raises there, the uploaded blobs, and the counters of the oracles. *)
Record State : Type := {
  model : bool;
  clock_reads : nat;
  tmp_counter : nat;
  fs : gset string;
  unremovable : gmap string exn;
  blobs : gmap (string * string) value;
  transcription_results : gmap string dict;
}.

Definition initial_state : State :=
  {| model := false; clock_reads := 0; tmp_counter := 0; fs := ∅;
     unremovable := ∅; blobs := ∅; transcription_results := ∅ |}.

Definition set_model (b : bool) (s : State) : State :=
  {| model := b; clock_reads := clock_reads s; tmp_counter := tmp_counter s;
     fs := fs s; unremovable := unremovable s; blobs := blobs s;
     transcription_results := transcription_results s |}.
Definition set_clock_reads (n : nat) (s : State) : State :=
  {| model := model s; clock_reads := n; tmp_counter := tmp_counter s;
     fs := fs s; unremovable := unremovable s; blobs := blobs s;
     transcription_results := transcription_results s |}.
Definition set_tmp_counter (n : nat) (s : State) : State :=
  {| model := model s; clock_reads := clock_reads s; tmp_counter := n;
     fs := fs s; unremovable := unremovable s; blobs := blobs s;
     transcription_results := transcription_results s |}.
Definition set_fs (f : gset string) (s : State) : State :=
  {| model := model s; clock_reads := clock_reads s;
     tmp_counter := tmp_counter s; fs := f;
     unremovable := unremovable s; blobs := blobs s;
     transcription_results := transcription_results s |}.
Definition set_unremovable (u : gmap string exn) (s : State) : State :=
  {| model := model s; clock_reads := clock_reads s;
     tmp_counter := tmp_counter s; fs := fs s;
     unremovable := u; blobs := blobs s;
     transcription_results := transcription_results s |}.
Definition set_blobs (b : gmap (string * string) value) (s : State) : State :=
  {| model := model s; clock_reads := clock_reads s;
     tmp_counter := tmp_counter s; fs := fs s;
     unremovable := unremovable s; blobs := b;
     transcription_results := transcription_results s |}.
Definition set_transcription_results (r : gmap string dict) (s : State)
  : State :=
  {| model := model s; clock_reads := clock_reads s;
     tmp_counter := tmp_counter s; fs := fs s;
     unremovable := unremovable s; blobs := blobs s;
     transcription_results := r |}.

(** Code of [FasterWhisper], which only knows the [model] global, run in
    the full state. *)
Definition on_model {A : Type} (m : M FasterWhisper.State A) : M State A :=
  fun s => match m (model s) with (r, b) => (r, set_model b s) end.

Definition outcome (o : option exn) : M State unit :=
  match o with Some e => raise e | None => ret tt end.

Definition time_time (E : External) : M State float :=
  fun s => (inr (ext_clock E (clock_reads s)),
            set_clock_reads (S (clock_reads s)) s).

(** [os.path.exists(p)]. *)
Definition os_path_exists (p : string) : M State bool :=
  gets (fun s => bool_decide (p ∈ fs s)).

(** [os.remove(p)]: raises on a path that does not exist and on a path
    that it may not remove, which then stays where it is. *)
Definition os_remove (p : string) : M State unit :=
  fun s => if bool_decide (p ∈ fs s)
           then match unremovable s !! p with
                | Some e => (inl e, s)
                | None => (inr tt, set_fs (fs s ∖ {[p]}) s)
                end
           else (inl (ExternalError "No such file or directory"), s).

(** [if os.path.exists(p): os.remove(p)]. *)
Definition remove_if_exists (p : string) : M State unit :=
  found <- os_path_exists p ;;
  if found then os_remove p else ret tt.

(** [tempfile.mkstemp(suffix=...)]: a new file of the process. *)
Definition mkstemp (E : External) (suffix : string) : M State string :=
  fun s => let p := ext_tmpname E (tmp_counter s) suffix in
           (inr p, set_fs ({[p]} ∪ fs s)
                     (set_unremovable (delete p (unremovable s))
                        (set_tmp_counter (S (tmp_counter s)) s))).

(** [blob.download_to_filename(path)]. *)
Definition download_to_filename (E : External) (bucket object path : string)
  : M State unit :=
  match ext_download E bucket object with
  | WhisperLive.Downloaded => ret tt
  | WhisperLive.DownloadFails e file_removed =>
      (if file_removed
       then modify (fun s => set_fs (fs s ∖ {[path]}) s)
       else ret tt) ;;
      raise e
  end.

Definition upload_from_string (E : External) (bucket name : string)
    (data : value) : M State unit :=
  outcome (ext_upload E bucket name) ;;
  modify (fun s => set_blobs (<[(bucket, name) := data]> (blobs s)) s).

(** [download_audio]: there is no check of the storage client here. *)
Definition download_audio (E : External) (bucket_name object_name : string)
  : M State string :=
  try_except
    (outcome (ext_blob E bucket_name object_name) ;;
     temp_local_filename <- mkstemp E (path_suffix object_name) ;;
     download_to_filename E bucket_name object_name temp_local_filename ;;
     ret temp_local_filename)
    (fun e => raise e).

(** [upload_transcript]: always to the bucket. *)
Definition upload_transcript (TRANSCRIPT_BUCKET : option string)
    (E : External) (transcript_data : dict) (object_name : string)
    (session_id request_id : option string) : M State string :=
  try_except
    (let base_name := path_stem object_name in
     let transcript_name :=
       if opt_truthy session_id
       then default "" session_id +:+ "/" +:+ base_name +:+ ".json"
       else base_name +:+ ".json" in
     upload_from_string E (default "" TRANSCRIPT_BUCKET) transcript_name
       (VDict transcript_data) ;;
     ret transcript_name)
    (fun e => raise e).

(** [process_audio_file]: the check of [TRANSCRIPT_BUCKET] stands before
    the [try], and nothing is written to [transcription_results]. *)
Definition process_audio_file (TRANSCRIPT_BUCKET : option string)
    (E : External) (bucket_name object_name : string)
    (session_id request_id : option string) : M State dict :=
  if negb (opt_truthy TRANSCRIPT_BUCKET)
  then raise (ValueError "환경 변수 TRANSCRIPT_BUCKET이 설정되지 않았습니다")
  else
    start_time <- time_time E ;;
    with_local (None : option string)
      (try_finally
         (try_except
            (path <- liftS (download_audio E bucket_name object_name) ;;
             set_local (Some path) ;;
             transcript_result <-
               liftS (on_model (process_audio (base E) path)) ;;
             transcript_name <-
               liftS (upload_transcript TRANSCRIPT_BUCKET E transcript_result
                        object_name session_id request_id) ;;
             t <- liftS (time_time E) ;;
             let processing_time := PrimFloat.sub t start_time in
             ret [("status", VStr "success");
                  ("message", VStr "오디오 처리 완료");
                  ("request_id", of_opt request_id);
                  ("transcript_location",
                     VStr ("gs://" +:+ default "" TRANSCRIPT_BUCKET
                             +:+ "/" +:+ transcript_name));
                  ("processing_time_seconds", VFloat processing_time)])
            (fun e =>
             t <- liftS (time_time E) ;;
             ret [("status", VStr "error");
                  ("message", VStr "오디오 처리 중 오류 발생");
                  ("request_id", of_opt request_id);
                  ("error_details", VStr (str_exn e));
                  ("processing_time_seconds",
                     VFloat (PrimFloat.sub t start_time))]))
         (local_file_path <- get_local ;;
          if opt_truthy local_file_path
          then liftS (remove_if_exists (default "" local_file_path))
          else ret tt)).

(** The transcription inside [process_uploaded_file]: the same loop as
    in [process_audio], on a call of [transcribe] with the language of
    the request, "ko" when it gives none, and its beam size. *)
Definition transcribe_upload (E : External) (file_path : string)
    (language : option string) (beam_size : Z) : M State dict :=
  on_model (load_model (base E)) ;;
  r <- lift (ext_transcribe_with E file_path
               (if opt_truthy language then default "" language else "ko")
               beam_size) ;;
  match r with
  | (segments_generator, failure, info) =>
      match segments_loop segments_generator [] "" with
      | (segments_list, full_text) =>
          match failure with
          | Some e => raise e
          | None =>
              ret [("segments", VList segments_list);
                   ("language", VStr (FasterWhisper.language info));
                   ("text", VStr (strip full_text));
                   ("language_probability",
                      VFloat (language_probability info))]
          end
      end
  end.

(** [process_uploaded_file]. *)
Definition process_uploaded_file (TRANSCRIPT_BUCKET : option string)
    (E : External) (file_path request_id : string)
    (language : option string) (beam_size : Z) : M State dict :=
  start_time <- time_time E ;;
  try_finally
    (try_except
       (transcript_result <-
          transcribe_upload E file_path language beam_size ;;
        let base_name := "upload_" +:+ request_id in
        let result_file_name := base_name +:+ ".json" in
        transcript_location <-
          (if opt_truthy TRANSCRIPT_BUCKET
           then
             try_except
               (upload_from_string E (default "" TRANSCRIPT_BUCKET)
                  result_file_name (VDict transcript_result) ;;
                ret (Some ("gs://" +:+ default "" TRANSCRIPT_BUCKET
                             +:+ "/" +:+ result_file_name)))
               (fun _ => ret None)
           else ret None) ;;
        t <- time_time E ;;
        let processing_time := PrimFloat.sub t start_time in
        let result :=
          [("status", VStr "success");
           ("message", VStr "오디오 처리 완료");
           ("request_id", VStr request_id);
           ("transcript_location", of_opt transcript_location);
           ("processing_time_seconds", VFloat processing_time);
           ("result", VDict transcript_result)] in
        modify (fun s => set_transcription_results
                           (<[request_id := result]> (transcription_results s))
                           s) ;;
        ret result)
       (fun e =>
        t <- time_time E ;;
        let error_result :=
          [("status", VStr "error");
           ("message", VStr "오디오 처리 중 오류 발생");
           ("request_id", VStr request_id);
           ("error_details", VStr (str_exn e));
           ("processing_time_seconds", VFloat (PrimFloat.sub t start_time))] in
        modify (fun s => set_transcription_results
                           (<[request_id := error_result]>
                              (transcription_results s)) s) ;;
        ret error_result))
    (remove_if_exists file_path).

End FasterWhisperTasks.

(* --------------------------------------------------------------------- *)
(** ** Python sequences: [range], slices, [join], [str] of a number       *)
(* --------------------------------------------------------------------- *)
Module PySeq.

(** [len(range(start, stop, step))] for a [step] that is not zero. *)
Definition range_count (start stop step : Z) : nat :=
  if (0 <? step)%Z
  then Z.to_nat ((stop - start + step - 1) / step)
  else Z.to_nat ((start - stop - step - 1) / (- step)).

(** [range(start, stop, step)], as the list of its elements. *)
Definition range (start stop step : Z) : fallible (list Z) :=
  if (step =? 0)%Z
  then inl (ValueError "range() arg 3 must not be zero")
  else inr (map (fun k : nat => (start + Z.of_nat k * step)%Z)
              (seq 0 (range_count start stop step))).

(** A bound of a slice, brought into [0 .. n]: a negative bound counts
    from the end. *)
Definition clamp_index (n i : Z) : Z :=
  if (i <? 0)%Z then Z.max 0 (i + n) else Z.min i n.

(** [l[a:b]]. *)
Definition slice {A : Type} (l : list A) (a b : Z) : list A :=
  let n := Z.of_nat (length l) in
  let a' := clamp_index n a in
  let b' := clamp_index n b in
  take (Z.to_nat (b' - a')) (drop (Z.to_nat a') l).

(** [sep.join(l)]. *)
Fixpoint join (sep : string) (l : list string) : string :=
  match l with
  | [] => ""
  | [x] => x
  | x :: rest => x +:+ sep +:+ join sep rest
  end.

(** [str(n)] for a number that is not negative. *)
Definition str_nat (n : nat) : string :=
  NilZero.string_of_uint (Nat.to_uint n).

End PySeq.

(* --------------------------------------------------------------------- *)
(** ** Records for the vector index: [src/parse_data.py]                  *)
(* --------------------------------------------------------------------- *)
Module ParseData.
Import PySeq.

(** The first loop of [txt_to_records], on the lines of the file: each
    line is stripped and kept when something is left. *)
Definition sentences_of (lines : list string) : list string :=
  List.filter str_truthy (map strip lines).

(** The second loop: the windows of [sentences_per_chunk] sentences
    taken every [sentences_per_chunk - overlap] sentences, those of
    fewer than two sentences left out. *)
Definition windows (sentences : list string)
    (sentences_per_chunk overlap : Z) : fallible (list (list string)) :=
  let step := (sentences_per_chunk - overlap)%Z in
  rbind (range 0 (Z.of_nat (length sentences)) step) (fun starts =>
  inr (List.filter (fun window => (2 <=? length window)%nat)
         (map (fun i => slice sentences i (i + sentences_per_chunk)) starts))).

(** The record built for the [i]-th window that was kept. *)
Definition record (id category : string) (i : nat)
    (chunk_sentences : list string) : dict :=
  [("id", VStr (id +:+ str_nat i));
   ("text", VStr (join " " chunk_sentences));
   ("category", VStr category)].

(** [txt_to_records], on the lines of [txt_file]. *)
Definition txt_to_records (lines : list string) (category id : string)
    (sentences_per_chunk overlap : Z) : fallible (list dict) :=
  rbind (windows (sentences_of lines) sentences_per_chunk overlap)
    (fun modified_sentences =>
  inr (imap (record id category) modified_sentences)).



End ParseData.

(* --------------------------------------------------------------------- *)
(** ** Chunks of a document: [embed_document] of [src/embedding.py]       *)
(* --------------------------------------------------------------------- *)
Module Embedding.
Import PySeq.

Section Document.

(** The characters of a document; [len] counts them. *)
Variable char : Type.

(** The loop of [embed_document]: the chunks of [chunk_size] characters
    taken every [chunk_size - overlap] characters, those of 200
    characters or fewer left out. *)
Definition chunks_of (document : list char) (chunk_size overlap : Z)
  : fallible (list (list char)) :=
  rbind (range 0 (Z.of_nat (length document)) (chunk_size - overlap))
    (fun starts =>
  inr (List.filter (fun chunk => (200 <? length chunk)%nat)
         (map (fun i => slice document i (i + chunk_size)) starts))).

(** What [embed_document] returns. *)
Record embedded : Type := {
  chunks : list (list char);
  embeddings : list (list float);
}.

(** [embed_document]; [create_embeddings] is the call to the embedding
    service, which returns one vector per embedding of the response or
    raises. *)
Definition embed_document
    (create_embeddings : list (list char) -> string -> fallible (list (list float)))
    (document : list char) (chunk_size overlap : Z) : fallible embedded :=
  rbind (chunks_of document chunk_size overlap) (fun chunks =>
  rbind (create_embeddings chunks "RETRIEVAL_DOCUMENT")
    (fun chunk_embeddings =>
  inr {| chunks := chunks; embeddings := chunk_embeddings |})).

End Document.

End Embedding.

(* ===================================================================== *)
(** * Part II: the vocabulary of the properties                           *)
(* ===================================================================== *)

(** ** Predicates on transcripts, results and requests *)

(** The [id] entry of a segment of a transcript. *)
Definition segment_id (seg : value) : option value :=
  match seg with
  | VDict d => lookup_key "id" d
  | _ => None
  end.

(** The segments are numbered by their position. *)
Definition ids_sequential (segs : list value) : Prop :=
  forall (i : nat) (seg : value),
    segs !! i = Some seg -> segment_id seg = Some (VInt (Z.of_nat i)).

(** The [segments] entry of a transcript, when it is a list. *)
Definition segments_of (t : dict) : option (list value) :=
  match lookup_key "segments" t with
  | Some (VList l) => Some l
  | _ => None
  end.

(** The record of the specification: exactly the three keys [segments],
    [language] and [text], holding a list, a string and a string. *)
Definition is_transcript_record (d : dict) : bool :=
  (length d =? 3)%nat
  && match lookup_key "segments" d with Some (VList _) => true | _ => false end
  && match lookup_key "language" d with Some (VStr _) => true | _ => false end
  && match lookup_key "text" d with Some (VStr _) => true | _ => false end.

(** A result dict that reports the exception [e]. *)
Definition is_error (d : dict) (e : exn) : Prop :=
  lookup_key "status" d = Some (VStr "error") /\
  lookup_key "error_details" d = Some (VStr (str_exn e)).

(** A result dict that reports success and carries the transcript [t]. *)
Definition is_success (d : dict) (t : dict) : Prop :=
  lookup_key "status" d = Some (VStr "success") /\
  lookup_key "result" d = Some (VDict t).

Section StoreVocabulary.

Import WhisperLive Models.

(** An operation that leaves [transcription_results] as it found it. *)
Definition keeps_results {A} (m : M State A) : Prop :=
  forall s : State,
    transcription_results (snd (m s)) = transcription_results s.

(** An operation that leaves [unremovable] as it found it. *)
Definition keeps_unremovable {A} (m : M State A) : Prop :=
  forall s : State, unremovable (snd (m s)) = unremovable s.

(** What a task hands to its caller when its [try] block has produced
    the dict [d] and its [finally] block has tried to remove [p],
    leaving the state [s']: the exception of [os.remove] when [p] is
    still there and is a path that [os.remove] refuses, and [d] in every
    other case. *)
Definition after_cleanup (p : string) (s' : State) (d : dict)
  : fallible dict :=
  match fs s' !! p, unremovable s' !! p with
  | Some _, Some e => inl e
  | _, _ => inr d
  end.

(** The answer of [/health] under configuration [C]. *)
Definition healthy_response (C : Config) : HealthResponse :=
  {| health_status := "healthy";
     version := Api.API_VERSION;
     environment :=
       Some (default "development" (environ C !! "ENVIRONMENT")) |}.

(** The HTTP status the client sees for [request_id] in state [s]. *)
Definition result_status_code (request_id : string) (s : State) : Z :=
  status_code (Main.app_response (fst (Api.get_transcription_result request_id s))).

End StoreVocabulary.

(** Whether a file name ends, whatever its case, in a supported format. *)
Definition supported (name : string) : bool :=
  any (fun fmt => endswith (lower name) fmt) Api.supported_formats.

(** The request object that [transcribe_audio] builds from an envelope:
    the decoding steps at the head of its [try] block. *)
Definition decoded_request (E : Api.External) (envelope : Models.PubSubEnvelope)
  : fallible Models.AudioProcessingRequest :=
  rbind (Api.ext_b64decode_utf8 E (Models.data (Models.message envelope)))
    (fun message_data =>
  rbind (Api.ext_json_loads E message_data) (fun data =>
  rbind (get "bucket" VNone data) (fun b =>
  rbind (get "name" VNone data) (fun n =>
  rbind (get "session_id" VNone data) (fun sid =>
  Models.make_request b n sid))))).

(** The body that [global_exception_handler] sends. *)
Definition internal_error_body : value :=
  VDict [("status", VStr "error");
         ("message", VStr "내부 서버 오류가 발생했습니다")].

(** ** Concrete surroundings on which the services are run *)

(** No environment variable set, no storage client: everything is local. *)
Definition local_config : WhisperLive.Config :=
  {| WhisperLive.environ := ∅; WhisperLive.storage_client := false |}.

(** A bucket configured and a storage client at hand. *)
Definition cloud_config : WhisperLive.Config :=
  {| WhisperLive.environ := {[ "TRANSCRIPT_BUCKET" := "transcripts-bucket" ]};
     WhisperLive.storage_client := true |}.

(** A model result that carries its own numbering (7, then 3) and its own
    language. *)
Definition numbered_result : value :=
  VDict [("segments",
            VList [VDict [("id", VInt 7); ("start", VFloat 0);
                          ("end", VFloat 1.5); ("text", VStr " hello ")];
                   VDict [("id", VInt 3); ("start", VFloat 1.5);
                          ("end", VFloat 2); ("text", VStr "world")]]);
         ("language", VStr "en");
         ("text", VStr "hello world")].

(** Collaborators that all succeed. *)
Definition working : WhisperLive.External :=
  {| WhisperLive.ext_load := fun _ => WhisperLive.LoadOk;
     WhisperLive.ext_load_audio_file := fun _ => inr [];
     WhisperLive.ext_inference := fun _ => inr numbered_result;
     WhisperLive.ext_tmpname := fun _ suffix => "/tmp/tmpaudio" +:+ suffix;
     WhisperLive.ext_blob := fun _ _ => None;
     WhisperLive.ext_download := fun _ _ => WhisperLive.Downloaded;
     WhisperLive.ext_upload := fun _ _ => None;
     WhisperLive.ext_write := fun _ => None;
     WhisperLive.ext_clock := fun _ => 0%float |}.

(** The same, with a model that cannot be constructed. *)
Definition model_unavailable : WhisperLive.External :=
  {| WhisperLive.ext_load :=
       fun _ => WhisperLive.ModelInitFails (ExternalError "CUDA out of memory");
     WhisperLive.ext_load_audio_file := fun _ => inr [];
     WhisperLive.ext_inference := fun _ => inr numbered_result;
     WhisperLive.ext_tmpname := fun _ suffix => "/tmp/tmpaudio" +:+ suffix;
     WhisperLive.ext_blob := fun _ _ => None;
     WhisperLive.ext_download := fun _ _ => WhisperLive.Downloaded;
     WhisperLive.ext_upload := fun _ _ => None;
     WhisperLive.ext_write := fun _ => None;
     WhisperLive.ext_clock := fun _ => 0%float |}.

(** The same as [working], with uploads to cloud storage failing. *)
Definition upload_refused : WhisperLive.External :=
  {| WhisperLive.ext_load := fun _ => WhisperLive.LoadOk;
     WhisperLive.ext_load_audio_file := fun _ => inr [];
     WhisperLive.ext_inference := fun _ => inr numbered_result;
     WhisperLive.ext_tmpname := fun _ suffix => "/tmp/tmpaudio" +:+ suffix;
     WhisperLive.ext_blob := fun _ _ => None;
     WhisperLive.ext_download := fun _ _ => WhisperLive.Downloaded;
     WhisperLive.ext_upload := fun _ _ => Some (ExternalError "403 Forbidden");
     WhisperLive.ext_write := fun _ => None;
     WhisperLive.ext_clock := fun _ => 0%float |}.

(** A Faster-Whisper model that hears nothing. *)
Definition silent : FasterWhisper.External :=
  {| FasterWhisper.ext_load := None;
     FasterWhisper.ext_transcribe := fun _ =>
       inr ([], None,
            {| FasterWhisper.language := "ko";
               FasterWhisper.language_probability := 1%float |}) |}.

(** A Faster-Whisper model that returns one segment. *)
Definition one_segment : FasterWhisper.External :=
  {| FasterWhisper.ext_load := None;
     FasterWhisper.ext_transcribe := fun _ =>
       inr ([ {| FasterWhisper.seg_start := 0%float;
                 FasterWhisper.seg_end := 1%float;
                 FasterWhisper.text := " hello";
                 FasterWhisper.words := None |} ], None,
            {| FasterWhisper.language := "ko";
               FasterWhisper.language_probability := 1%float |}) |}.

(** A WhisperX model whose result is a bare list, diarization failing. *)
Definition bare_list : WhisperX.External :=
  {| WhisperX.ext_load := None;
     WhisperX.ext_transcribe := fun _ => inr (VList []);
     WhisperX.ext_diarize := fun _ _ => inl (ExternalError "no auth token") |}.

Section Runs.

Import WhisperLive.

(** The process after a start-up at which the model could not be built. *)
Definition degraded : State := snd (preload model_unavailable initial_state).

(** The store after a task that failed because the model was not
    available ("bad") and a later one that succeeded ("ok"). *)
Definition two_results : State :=
  snd (process_uploaded_file local_config working "/tmp/a.wav" "ok" None 5
         (snd (process_uploaded_file local_config model_unavailable
                 "/tmp/b.wav" "bad" None 5 initial_state))).

End Runs.

(** Collaborators for which every message decodes to the JSON value [v]. *)
Definition decoding_to (v : value) : Api.External :=
  {| Api.ext_uuid4 := fun n => if (n =? 0)%nat then "uuid-0" else "uuid-1";
     Api.ext_b64decode_utf8 := fun s => inr s;
     Api.ext_json_loads := fun _ => inr v;
     Api.ext_temp_name := fun _ suffix => "/tmp/tmpupload" +:+ suffix;
     Api.ext_write := fun _ => None |}.

(** Collaborators for which no message is valid JSON. *)
Definition undecodable : Api.External :=
  {| Api.ext_uuid4 := fun n => if (n =? 0)%nat then "uuid-0" else "uuid-1";
     Api.ext_b64decode_utf8 := fun s => inr s;
     Api.ext_json_loads := fun _ => inl (JSONDecodeError "Expecting value");
     Api.ext_temp_name := fun _ suffix => "/tmp/tmpupload" +:+ suffix;
     Api.ext_write := fun _ => None |}.

(** The envelope of a push subscription around [payload]. *)
Definition envelope_of (payload : string) : Models.PubSubEnvelope :=
  {| Models.message :=
       {| Models.data := payload; Models.attributes := None;
          Models.message_id := None; Models.publish_time := None |};
     Models.subscription := "projects/lecture2quiz/subscriptions/audio" |}.

(** A message that names a text file in a bucket. *)
Definition notes_in_bucket : value :=
  VDict [("bucket", VStr "lectures"); ("name", VStr "week1/Notes.TXT")].

(** An uploaded text file. *)
Definition uploaded_notes : Api.UploadFile :=
  {| Api.filename := "notes.txt"; Api.read := inr "plain text" |}.

(** An upload whose content cannot be read. *)
Definition unreadable_upload : Api.UploadFile :=
  {| Api.filename := "talk.mp3";
     Api.read := inl (ExternalError "connection reset") |}.

(** A manager on top of the session registry: [register] creates a
    session and returns its id. *)
Definition registry_register (m : gmap string SessionRegistry.Session)
  : fallible string * gmap string SessionRegistry.Session :=
  match SessionRegistry.create m with
  | (inr session, m') => (inr (SessionRegistry.id session), m')
  | (inl e, m') => (inl e, m')
  end.

(** Answers the frame [data] with one result frame that echoes it. *)
Definition echo_process_audio (session_id data : string)
    (m : gmap string SessionRegistry.Session)
  : (list value * option exn) * gmap string SessionRegistry.Session :=
  (([VDict [("session_id", VStr session_id); ("sequence", VInt 0);
            ("is_final", VBool false); ("text", VStr data);
            ("segments", VList []); ("language", VNone)]], None), m).

(** [unregister] as the registry's [remove]. *)
Definition registry_unregister (session_id : string)
    (m : gmap string SessionRegistry.Session)
  : gmap string SessionRegistry.Session :=
  snd (SessionRegistry.remove session_id m).

(** ** Further vocabulary: the processor *)

(** What [process_audio] computes once the model is available: the audio
    is loaded, the model is run, the transcript is built. *)
Definition transcribe_pipeline (C : WhisperLive.Config)
    (E : WhisperLive.External) (path : string) : fallible dict :=
  rbind (WhisperLive.ext_load_audio_file E path) (fun audio_data =>
  rbind (WhisperLive.ext_inference E audio_data) (fun result =>
  WhisperLive.build_transcript C result)).

(** The exception of a call on the [audio_processor] that is [None]. *)
Definition no_audio_processor : exn :=
  AttributeError "'NoneType' object has no attribute 'load_audio_file'".

(** Collaborators whose model loads at the second attempt only. *)
Definition loads_at_second_attempt : WhisperLive.External :=
  {| WhisperLive.ext_load := fun n =>
       if (n =? 0)%nat
       then WhisperLive.ModelInitFails (ExternalError "CUDA out of memory")
       else WhisperLive.LoadOk;
     WhisperLive.ext_load_audio_file := fun _ => inr [];
     WhisperLive.ext_inference := fun _ => inr numbered_result;
     WhisperLive.ext_tmpname := fun _ suffix => "/tmp/tmpaudio" +:+ suffix;
     WhisperLive.ext_blob := fun _ _ => None;
     WhisperLive.ext_download := fun _ _ => WhisperLive.Downloaded;
     WhisperLive.ext_upload := fun _ _ => None;
     WhisperLive.ext_write := fun _ => None;
     WhisperLive.ext_clock := fun _ => 0%float |}.

(** Collaborators whose model loads and whose audio processor does not. *)
Definition audio_processor_unavailable : WhisperLive.External :=
  {| WhisperLive.ext_load := fun _ =>
       WhisperLive.AudioProcessorInitFails (ExternalError "no resampler");
     WhisperLive.ext_load_audio_file := fun _ => inr [];
     WhisperLive.ext_inference := fun _ => inr numbered_result;
     WhisperLive.ext_tmpname := fun _ suffix => "/tmp/tmpaudio" +:+ suffix;
     WhisperLive.ext_blob := fun _ _ => None;
     WhisperLive.ext_download := fun _ _ => WhisperLive.Downloaded;
     WhisperLive.ext_upload := fun _ _ => None;
     WhisperLive.ext_write := fun _ => None;
     WhisperLive.ext_clock := fun _ => 0%float |}.

(** The same as [working], with downloads from cloud storage cut off:
    the library raises and leaves the file it had opened. *)
Definition download_refused : WhisperLive.External :=
  {| WhisperLive.ext_load := fun _ => WhisperLive.LoadOk;
     WhisperLive.ext_load_audio_file := fun _ => inr [];
     WhisperLive.ext_inference := fun _ => inr numbered_result;
     WhisperLive.ext_tmpname := fun _ suffix => "/tmp/tmpaudio" +:+ suffix;
     WhisperLive.ext_blob := fun _ _ => None;
     WhisperLive.ext_download := fun _ _ =>
       WhisperLive.DownloadFails (ExternalError "503 Service Unavailable")
         false;
     WhisperLive.ext_upload := fun _ _ => None;
     WhisperLive.ext_write := fun _ => None;
     WhisperLive.ext_clock := fun _ => 0%float |}.

(** The same, with the object missing from the bucket: the library
    raises after it has removed the empty file. *)
Definition object_missing : WhisperLive.External :=
  {| WhisperLive.ext_load := fun _ => WhisperLive.LoadOk;
     WhisperLive.ext_load_audio_file := fun _ => inr [];
     WhisperLive.ext_inference := fun _ => inr numbered_result;
     WhisperLive.ext_tmpname := fun _ suffix => "/tmp/tmpaudio" +:+ suffix;
     WhisperLive.ext_blob := fun _ _ => None;
     WhisperLive.ext_download := fun _ _ =>
       WhisperLive.DownloadFails (ExternalError "404 Not Found") true;
     WhisperLive.ext_upload := fun _ _ => None;
     WhisperLive.ext_write := fun _ => None;
     WhisperLive.ext_clock := fun _ => 0%float |}.

(** The same as [working], with a bucket name that the storage library
    rejects when the handle is built. *)
Definition bucket_rejected : WhisperLive.External :=
  {| WhisperLive.ext_load := fun _ => WhisperLive.LoadOk;
     WhisperLive.ext_load_audio_file := fun _ => inr [];
     WhisperLive.ext_inference := fun _ => inr numbered_result;
     WhisperLive.ext_tmpname := fun _ suffix => "/tmp/tmpaudio" +:+ suffix;
     WhisperLive.ext_blob := fun _ _ =>
       Some (ValueError
               "Bucket names must start and end with a number or letter.");
     WhisperLive.ext_download := fun _ _ => WhisperLive.Downloaded;
     WhisperLive.ext_upload := fun _ _ => None;
     WhisperLive.ext_write := fun _ => None;
     WhisperLive.ext_clock := fun _ => 0%float |}.

(** The body of the 500 answer of [get_transcription_result] for a task
    that stored an error with the text [details]. *)
Definition task_error_body (request_id details : string) : value :=
  VDict [("status", VStr "error");
         ("message", VStr "오디오 처리 중 오류 발생");
         ("request_id", VStr request_id);
         ("error_details", VStr details)].

(** A message that names an audio file in a bucket, for a session. *)
Definition lecture_in_bucket : value :=
  VDict [("bucket", VStr "lectures"); ("name", VStr "week1/Intro.MP3");
         ("session_id", VStr "s1")].

(** An uploaded lecture recording. *)
Definition uploaded_lecture : Api.UploadFile :=
  {| Api.filename := "Week1.MP3"; Api.read := inr "ID3-audio-bytes" |}.


(** A store with a record that a task would not write: no status. *)
Definition odd_store : WhisperLive.State :=
  WhisperLive.set_transcription_results
    (<[Some "queued" := [("message", VStr "in the queue")]]>
       (<[Some "hollow" := [("status", VStr "success"); ("result", VDict []);
                            ("transcript_location", VStr "gs://b/x.json")]]>
          ∅))
    WhisperLive.initial_state.

(** The dict rebuilt for the model's segment [d], at position [i], whose
    text is [txt]: the four keys of the service, whatever else the model
    put in [d]. *)
Definition rebuilt_segment (i : nat) (d : dict) (txt : string) : value :=
  VDict [("id", VInt (Z.of_nat i));
         ("start", dict_get "start" (VInt 0) d);
         ("end", dict_get "end" (VInt 0) d);
         ("text", VStr (strip txt))].

(** A segment of a model result that the service can rebuild: a dict
    whose [text], when it has one, is a string. *)
Definition usable_segment (seg : value) : bool :=
  match seg with
  | VDict d =>
      match dict_get "text" (VStr "") d with VStr _ => true | _ => false end
  | _ => false
  end.

(** A model result with a speaker and words on its segment, and no text
    of its own. *)
Definition diarized_dict : dict :=
  [("segments",
      VList [VDict [("speaker", VStr "SPEAKER_00");
                    ("text", VStr "  first  ");
                    ("words", VList [VStr "first"]);
                    ("end", VFloat 2)]])].

Definition diarized_result : value := VDict diarized_dict.

(** A model result whose second segment is a string, not a dict. *)
Definition broken_result : value :=
  VDict [("segments", VList [VDict [("text", VStr "fine")]; VStr "oops"])].

(** The frames a client sends, without the empty ones. *)
Definition without_empty_frames (incoming : list (fallible string))
  : list (fallible string) :=
  List.filter
    (fun f => match f with inr data => str_truthy data | inl _ => true end)
    incoming.


(** A WhisperX model whose diarization assigns speakers. *)
Definition with_speakers : WhisperX.External :=
  {| WhisperX.ext_load := None;
     WhisperX.ext_transcribe := fun _ => inr (VDict [("segments", VList [])]);
     WhisperX.ext_diarize := fun _ r =>
       inr (VDict [("segments", VList []); ("speakers", VInt 2)]) |}.

(** Collaborators of the Faster-Whisper tasks that all succeed; the
    model answers with one segment and reports the language it was
    asked for. *)
Definition faster_working : FasterWhisperTasks.External :=
  {| FasterWhisperTasks.base := one_segment;
     FasterWhisperTasks.ext_transcribe_with := fun _ lang _ =>
       inr ([ {| FasterWhisper.seg_start := 0%float;
                 FasterWhisper.seg_end := 1%float;
                 FasterWhisper.text := " hello";
                 FasterWhisper.words := None |} ], None,
            {| FasterWhisper.language := lang;
               FasterWhisper.language_probability := 1%float |});
     FasterWhisperTasks.ext_tmpname := fun _ suffix => "/tmp/tmpaudio" +:+ suffix;
     FasterWhisperTasks.ext_blob := fun _ _ => None;
     FasterWhisperTasks.ext_download := fun _ _ => WhisperLive.Downloaded;
     FasterWhisperTasks.ext_upload := fun _ _ => None;
     FasterWhisperTasks.ext_clock := fun _ => 0%float |}.

(** [after_cleanup] for the tasks of the Faster-Whisper container. *)
Definition faster_after_cleanup (p : string) (s' : FasterWhisperTasks.State)
    (d : dict) : fallible dict :=
  if bool_decide (p ∈ FasterWhisperTasks.fs s')
  then match FasterWhisperTasks.unremovable s' !! p with
       | Some e => inl e
       | None => inr d
       end
  else inr d.

(** A disk that holds the upload "/tmp/upload.wav" in a directory the
    process may not write: [os.remove] raises [PermissionError] there. *)
Definition protected_upload : WhisperLive.State :=
  WhisperLive.set_unremovable
    {[ "/tmp/upload.wav" :=
         ExternalError "[Errno 13] Permission denied: '/tmp/upload.wav'" ]}
    (WhisperLive.set_fs {[ "/tmp/upload.wav" := WhisperLive.Binary ]}
       WhisperLive.initial_state).

(** A disk on which "/tmp/upload.wav" is a directory. *)
Definition upload_is_directory : FasterWhisperTasks.State :=
  FasterWhisperTasks.set_unremovable
    {[ "/tmp/upload.wav" :=
         ExternalError "[Errno 21] Is a directory: '/tmp/upload.wav'" ]}
    (FasterWhisperTasks.set_fs {[ "/tmp/upload.wav" ]}
       FasterWhisperTasks.initial_state).

(** The loop shared by [txt_to_records] and [embed_document]: the
    pieces of [size] elements of [l] taken every [size - overlap]
    elements, those shorter than [min_len] left out. *)
Definition sliding {A : Type} (min_len : nat) (l : list A)
    (size overlap : Z) : fallible (list (list A)) :=
  rbind (PySeq.range 0 (Z.of_nat (length l)) (size - overlap)) (fun starts =>
  inr (List.filter (fun w => (min_len <=? length w)%nat)
         (map (fun i => PySeq.slice l i (i + size)) starts))).

(** The piece [w] is the part of [l] that starts at [start], and the
    position [j] of [l] lies in it. *)
Definition covers {A : Type} (l : list A) (start : nat) (w : list A)
    (j : nat) : Prop :=
  w = take (length w) (drop start l) /\
  (start <= j)%nat /\ (j < start + length w)%nat.

(** The lines of a short lecture transcript. *)
Definition lecture_lines : list string :=
  ["one"; ""; " two "; "three"; "four"; "five"; "  "; "six"; "seven"].

(** A document of [n] characters. *)
Definition document_of (n : nat) : list nat := seq 0 n.

(** An embedding service that answers one empty vector per text. *)
Definition empty_vectors (texts : list (list nat)) (task_type : string)
  : fallible (list (list float)) :=
  inr (map (fun _ => []) texts).

(** Where [upload_transcript] puts the transcript of [object_name]: a
    local file under "transcripts" without a storage client or a
    bucket, and an object of the bucket otherwise. *)
Definition transcript_target (C : WhisperLive.Config) (object_name : string)
    (session_id : option string) : string :=
  if negb (WhisperLive.storage_client C)
     || negb (opt_truthy (WhisperLive.TRANSCRIPT_BUCKET C))
  then
    if opt_truthy session_id
    then os_path_join "transcripts"
           (default "" session_id +:+ "_" +:+ path_stem object_name +:+ ".json")
    else os_path_join "transcripts" (path_stem object_name +:+ ".json")
  else
    if opt_truthy session_id
    then default "" session_id +:+ "/" +:+ path_stem object_name +:+ ".json"
    else path_stem object_name +:+ ".json".

(** The transcript stored at [location], on the disk or in the bucket. *)
Definition stored_at (C : WhisperLive.Config) (s : WhisperLive.State)
    (location : string) (t : dict) : Prop :=
  WhisperLive.fs s !! location = Some (WhisperLive.Document (VDict t)) \/
  WhisperLive.blobs s
    !! (default "" (WhisperLive.TRANSCRIPT_BUCKET C), location)
  = Some (VDict t).

(* ===================================================================== *)
(** * Part III: properties                                                *)
(* ===================================================================== *)

(** Unfolds the monadic combinators, leaving nested matches on outcomes. *)
Ltac unfold_monad :=
  unfold try_except, try_finally, with_local, liftS, get_local, set_local,
    bind, ret, raise, lift, gets, modify in *.

(** ** Strings *)

(** [strip] removes the white space of Unicode at both ends, not only
    that of ASCII: here a no-break space (U+00A0, bytes [C2 A0]) in
    front, an ideographic space (U+3000, bytes [E3 80 80]) and a line
    feed behind.  The letter U+00E0, whose second byte is also [A0], is
    no white space and stays. *)
Remark strip_removes_unicode_white_space :
  strip (String (ascii_of_nat 194) (String (ascii_of_nat 160)
           ("hello"
            +:+ String (ascii_of_nat 227) (String (ascii_of_nat 128)
                  (String (ascii_of_nat 128) (String (ascii_of_nat 10) ""))))))
  = "hello" /\
  strip "  a b  " = "a b" /\
  strip (String (ascii_of_nat 195) (String (ascii_of_nat 160) " "))
  = String (ascii_of_nat 195) (String (ascii_of_nat 160) "").
Proof. repeat split. Qed.

(** ** Transcripts built by [process_audio] *)

Section Transcripts.

Import WhisperLive.

Lemma ids_sequential_nil : ids_sequential [].
Proof. intros i seg H. rewrite lookup_nil in H. discriminate. Qed.

Lemma ids_sequential_snoc (acc : list value) (d : dict) :
  ids_sequential acc ->
  lookup_key "id" d = Some (VInt (Z.of_nat (length acc))) ->
  ids_sequential (acc ++ [VDict d]).
Proof.
  intros Hacc Hd i seg Hi.
  destruct (decide (i < length acc)%nat) as [Hlt | Hge].
  - rewrite lookup_app_l in Hi by assumption. now apply Hacc.
  - rewrite lookup_app_r in Hi by lia.
    destruct (i - length acc)%nat as [| k] eqn:Hk; simpl in Hi.
    + injection Hi as <-. simpl. rewrite Hd. do 3 f_equal. lia.
    + rewrite lookup_nil in Hi. discriminate.
Qed.

Lemma segment_dict_id (i : nat) (segment : value) (d : dict) :
  segment_dict i segment = inr d ->
  lookup_key "id" d = Some (VInt (Z.of_nat i)).
Proof.
  unfold segment_dict, rbind. intros H.
  repeat case_match; simplify_eq. reflexivity.
Qed.

Lemma segments_loop_ids (rest : list value) :
  forall (i : nat) (acc out : list value),
    i = length acc -> ids_sequential acc ->
    segments_loop i rest acc = inr out -> ids_sequential out.
Proof.
  induction rest as [| segment rest IH]; intros i acc out Hi Hacc H; simpl in H.
  - now simplify_eq.
  - unfold rbind in H. destruct (segment_dict i segment) as [e | d] eqn:Hd.
    + discriminate.
    + apply (IH (S i) (acc ++ [VDict d]) out).
      * rewrite length_app. simpl. lia.
      * apply ids_sequential_snoc; [assumption |].
        rewrite <- Hi. now apply segment_dict_id with segment.
      * assumption.
Qed.

(** What a successful [build_transcript] has computed. *)
Lemma build_transcript_inv (C : Config) (result : value) (t : dict) :
  build_transcript C result = inr t ->
  exists (d : dict) (segs segments_list : list value),
    result = VDict d /\
    iterate (dict_get "segments" (VList []) d) = inr segs /\
    segments_loop 0 segs [] = inr segments_list /\
    t = [("segments", VList segments_list);
         ("language", VStr (LANGUAGE C));
         ("text", dict_get "text" (VStr "") d)].
Proof.
  unfold build_transcript, rbind, get. intros H.
  destruct result; try discriminate.
  destruct (iterate _) as [e | segs] eqn:Hit; [discriminate |].
  destruct (segments_loop 0 segs []) as [e | sl] eqn:Hloop; [discriminate |].
  simplify_eq. eauto 10.
Qed.

(** A successful [process_audio] went through the audio loader, the
    inference call and [build_transcript]. *)
Lemma process_audio_inv (C : Config) (E : External) (path : string)
    (s s' : State) (t : dict) :
  process_audio C E path s = (inr t, s') ->
  exists (audio_data : audio) (result : value),
    ext_load_audio_file E path = inr audio_data /\
    ext_inference E audio_data = inr result /\
    build_transcript C result = inr t.
Proof.
  unfold process_audio, load_model. unfold_monad. intros H.
  repeat case_match; simplify_eq; eauto.
Qed.

End Transcripts.

Section TranscriptProperties.

Lemma faster_segment_dict_id (acc : list value) (segment : FasterWhisper.Segment) :
  lookup_key "id" (FasterWhisper.segment_dict acc segment)
  = Some (VInt (Z.of_nat (length acc))).
Proof. reflexivity. Qed.

Lemma faster_segments_loop_ids (rest : list FasterWhisper.Segment) :
  forall (acc : list value) (txt : string),
    ids_sequential acc ->
    ids_sequential (fst (FasterWhisper.segments_loop rest acc txt)).
Proof.
  induction rest as [| segment rest IH]; intros acc txt Hacc; simpl.
  - assumption.
  - apply IH. apply ids_sequential_snoc; [assumption |].
    apply faster_segment_dict_id.
Qed.

(** What a successful Faster-Whisper [process_audio] has computed. *)
Lemma faster_process_audio_inv (E : FasterWhisper.External) (path : string)
    (s s' : FasterWhisper.State) (t : dict) :
  FasterWhisper.process_audio E path s = (inr t, s') ->
  exists (segs : list FasterWhisper.Segment) (info : FasterWhisper.TranscriptionInfo),
    FasterWhisper.ext_transcribe E path = inr (segs, None, info) /\
    t = [("segments", VList (fst (FasterWhisper.segments_loop segs [] "")));
         ("language", VStr (FasterWhisper.language info));
         ("text", VStr (strip (snd (FasterWhisper.segments_loop segs [] ""))));
         ("language_probability",
            VFloat (FasterWhisper.language_probability info))].
Proof.
  unfold FasterWhisper.process_audio, FasterWhisper.load_model.
  unfold_monad. intros H.
  repeat case_match; simplify_eq; eexists _, _;
    (split; [reflexivity |]);
    match goal with Hl : FasterWhisper.segments_loop _ _ _ = _ |- _ =>
      rewrite Hl end;
    reflexivity.
Qed.

(** C1.  In the transcript that [process_audio] returns, in the WhisperLive
    service and in the Faster-Whisper container alike, the segment at
    position [i] of the [segments] list has [id] equal to [i], for every
    result of the model: the model's own numbering plays no part. *)
Theorem segment_ids_by_position :
  (forall (C : WhisperLive.Config) (E : WhisperLive.External) (path : string)
          (s s' : WhisperLive.State) (t : dict),
      WhisperLive.process_audio C E path s = (inr t, s') ->
      exists segs : list value,
        segments_of t = Some segs /\ ids_sequential segs) /\
  (forall (E : FasterWhisper.External) (path : string)
          (s s' : FasterWhisper.State) (t : dict),
      FasterWhisper.process_audio E path s = (inr t, s') ->
      exists segs : list value,
        segments_of t = Some segs /\ ids_sequential segs).
Proof.
  split.
  - intros C E path s s' t H.
    apply process_audio_inv in H as (audio_data & result & _ & _ & Hb).
    apply build_transcript_inv in Hb as (d & segs & sl & _ & _ & Hloop & ->).
    exists sl. split; [reflexivity |].
    apply (segments_loop_ids segs 0%nat [] sl);
      [reflexivity | apply ids_sequential_nil | assumption].
  - intros E path s s' t H.
    apply faster_process_audio_inv in H as (segs & info & _ & ->).
    eexists. split; [reflexivity |].
    apply faster_segments_loop_ids, ids_sequential_nil.
Qed.

(** The ids the service gives to [numbered_result], whose segments the
    model had numbered 7 and 3, and to the one segment of [one_segment]. *)
Lemma segment_ids_by_position_witness :
  (exists (t : dict) (segs : list value),
      fst (WhisperLive.process_audio local_config working "lecture.wav"
             WhisperLive.initial_state) = inr t /\
      segments_of t = Some segs /\
      map segment_id segs = [Some (VInt 0); Some (VInt 1)] /\
      ids_sequential segs) /\
  (exists (t : dict) (segs : list value),
      fst (FasterWhisper.process_audio one_segment "lecture.wav" false) = inr t /\
      segments_of t = Some segs /\
      map segment_id segs = [Some (VInt 0)] /\
      ids_sequential segs).
Proof.
  split.
  - destruct (WhisperLive.process_audio local_config working "lecture.wav"
                WhisperLive.initial_state) as [r s'] eqn:Hrun.
    vm_compute in Hrun. injection Hrun as <- <-.
    eexists _, _. split; [reflexivity |]. split; [reflexivity |].
    split; [reflexivity |].
    destruct (proj1 segment_ids_by_position local_config working "lecture.wav"
                WhisperLive.initial_state _ _ eq_refl)
      as (segs & Hs & Hids).
    vm_compute in Hs. injection Hs as <-. exact Hids.
  - destruct (proj2 segment_ids_by_position one_segment "lecture.wav" false
                _ _ eq_refl)
      as (segs & Hs & Hids).
    vm_compute in Hs. injection Hs as <-.
    eexists _, _. split; [reflexivity |]. split; [reflexivity |].
    split; [reflexivity | exact Hids].
Defined.

End TranscriptProperties.

(** ** The shape of the transcript record *)

Section RecordShape.

Lemma whisperx_process_audio_inv (E : WhisperX.External) (path : string)
    (s s' : WhisperX.State) (v : value) :
  WhisperX.process_audio E path s = (inr v, s') ->
  exists r : value,
    WhisperX.ext_transcribe E path = inr r /\
    (WhisperX.ext_diarize E path r = inr v \/
     (v = r /\ exists e, WhisperX.ext_diarize E path r = inl e)).
Proof.
  unfold WhisperX.process_audio, WhisperX.load_model. unfold_monad. intros H.
  repeat case_match; simplify_eq; eauto 10.
Qed.

(** Where [upload_transcript] returns, the document it was given is in
    the local file or in the bucket object that it names. *)
Lemma upload_transcript_persists (C : WhisperLive.Config)
    (E : WhisperLive.External) (t : dict) (object_name : string)
    (session_id request_id : option string) (s s' : WhisperLive.State)
    (location : string) :
  WhisperLive.upload_transcript C E t object_name session_id request_id s
    = (inr location, s') ->
  WhisperLive.fs s' !! location = Some (WhisperLive.Document (VDict t)) \/
  WhisperLive.blobs s' !! (default "" (WhisperLive.TRANSCRIPT_BUCKET C), location)
    = Some (VDict t).
Proof.
  unfold WhisperLive.upload_transcript, WhisperLive.write_json,
    WhisperLive.upload_from_string, WhisperLive.outcome.
  unfold_monad. intros H.
  repeat (case_match; simpl in *; simplify_eq);
    (left; apply lookup_insert_eq) || (right; apply lookup_insert_eq).
Qed.

(** C10.  The [language] entry of the transcript returned by the
    WhisperLive [process_audio] is the constant [LANGUAGE], that is the
    environment variable of that name, or "ko" when it is not set,
    whatever the audio and whatever the model answers. *)
Theorem language_is_configured (C : WhisperLive.Config)
    (E : WhisperLive.External) (path : string)
    (s s' : WhisperLive.State) (t : dict) :
  WhisperLive.process_audio C E path s = (inr t, s') ->
  lookup_key "language" t = Some (VStr (WhisperLive.LANGUAGE C)) /\
  WhisperLive.LANGUAGE C = default "ko" (WhisperLive.environ C !! "LANGUAGE").
Proof.
  intros H.
  apply process_audio_inv in H as (audio_data & result & _ & _ & Hb).
  apply build_transcript_inv in Hb as (d & segs & sl & _ & _ & _ & ->).
  split; reflexivity.
Qed.

(** With no [LANGUAGE] variable and a model whose result says "en", the
    transcript says "ko". *)
Lemma language_is_configured_witness :
  get "language" VNone numbered_result = inr (VStr "en") /\
  exists t : dict,
    fst (WhisperLive.process_audio local_config working "lecture.wav"
           WhisperLive.initial_state) = inr t /\
    lookup_key "language" t = Some (VStr "ko").
Proof.
  split; [reflexivity |].
  destruct (language_is_configured local_config working "lecture.wav"
              WhisperLive.initial_state _ _ eq_refl) as [Hl _].
  eexists. split; [reflexivity | exact Hl].
Defined.

(** C2, as the code has it.  The WhisperLive transcript has exactly the
    keys [segments] (a list), [language] (the configured string) and
    [text] (the model's [text] entry, or the empty string without one).
    Its [upload_transcript] stores the transcript it is given, as it is,
    in the file or bucket object it names.  The Faster-Whisper
    transcript has the three keys, all of the stated types, and a fourth
    key [language_probability]; its [upload_transcript] stores the
    transcript it is given, as it is, in the bucket object it names.
    The WhisperX [process_audio] builds no record: it returns the object
    its library returned, after the speaker assignment or without it,
    so that none of the keys is guaranteed there. *)
Theorem transcript_record_shape :
  (forall (C : WhisperLive.Config) (E : WhisperLive.External) (path : string)
          (s s' : WhisperLive.State) (t : dict),
      WhisperLive.process_audio C E path s = (inr t, s') ->
      exists (segs : list value) (audio_data : WhisperLive.audio) (d : dict),
        WhisperLive.ext_load_audio_file E path = inr audio_data /\
        WhisperLive.ext_inference E audio_data = inr (VDict d) /\
        t = [("segments", VList segs);
             ("language", VStr (WhisperLive.LANGUAGE C));
             ("text", dict_get "text" (VStr "") d)]) /\
  (forall (C : WhisperLive.Config) (E : WhisperLive.External) (t : dict)
          (object_name : string) (session_id request_id : option string)
          (s s' : WhisperLive.State) (location : string),
      WhisperLive.upload_transcript C E t object_name session_id request_id s
        = (inr location, s') ->
      WhisperLive.fs s' !! location = Some (WhisperLive.Document (VDict t)) \/
      WhisperLive.blobs s'
        !! (default "" (WhisperLive.TRANSCRIPT_BUCKET C), location)
        = Some (VDict t)) /\
  (forall (E : FasterWhisper.External) (path : string)
          (s s' : FasterWhisper.State) (t : dict),
      FasterWhisper.process_audio E path s = (inr t, s') ->
      exists (segs : list value) (lang txt : string) (p : float),
        t = [("segments", VList segs); ("language", VStr lang);
             ("text", VStr txt); ("language_probability", VFloat p)]) /\
  (forall (E : WhisperX.External) (path : string)
          (s s' : WhisperX.State) (v : value),
      WhisperX.process_audio E path s = (inr v, s') ->
      exists r : value,
        WhisperX.ext_transcribe E path = inr r /\
        (WhisperX.ext_diarize E path r = inr v \/
         (v = r /\ exists e : exn, WhisperX.ext_diarize E path r = inl e))) /\
  (forall (B : option string) (E : FasterWhisperTasks.External) (t : dict)
          (object_name : string) (session_id request_id : option string)
          (s s' : FasterWhisperTasks.State) (location : string),
      FasterWhisperTasks.upload_transcript B E t object_name session_id
        request_id s = (inr location, s') ->
      FasterWhisperTasks.blobs s' !! (default "" B, location)
      = Some (VDict t)).
Proof.
  split; [| split; [| split; [| split]]].
  - intros C E path s s' t H.
    apply process_audio_inv in H as (audio_data & result & Ha & Hi & Hb).
    apply build_transcript_inv in Hb as (d & segs & sl & -> & _ & _ & ->).
    eauto 10.
  - exact upload_transcript_persists.
  - intros E path s s' t H.
    apply faster_process_audio_inv in H as (segs & info & _ & ->).
    eauto 10.
  - intros E path s s' v H.
    apply whisperx_process_audio_inv in H as (r & Hr & Hd). eauto.
  - intros B E t o sid rid s s'' location.
    unfold FasterWhisperTasks.upload_transcript,
      FasterWhisperTasks.upload_from_string, FasterWhisperTasks.outcome.
    unfold_monad. intros H.
    repeat (case_match; simpl in *; simplify_eq); apply lookup_insert_eq.
Qed.

(** The three services run on concrete collaborators; the WhisperX
    library here answers with a bare list, which is what is returned. *)
Lemma transcript_record_shape_witness :
  (exists t : dict,
      fst (WhisperLive.process_audio local_config working "lecture.wav"
             WhisperLive.initial_state) = inr t /\
      keys t = ["segments"; "language"; "text"] /\
      is_transcript_record t = true) /\
  (exists s' : WhisperLive.State,
      WhisperLive.upload_transcript local_config working [] "lecture.wav"
        None None WhisperLive.initial_state
      = (inr "transcripts/lecture.json", s') /\
      (WhisperLive.fs s' !! "transcripts/lecture.json"
         = Some (WhisperLive.Document (VDict [])) \/
       WhisperLive.blobs s' !! ("", "transcripts/lecture.json")
         = Some (VDict []))) /\
  (exists t : dict,
      fst (FasterWhisper.process_audio one_segment "lecture.wav" false) = inr t /\
      keys t = ["segments"; "language"; "text"; "language_probability"]) /\
  (fst (WhisperX.process_audio bare_list "lecture.wav" false)
   = inr (VList [])) /\
  (exists s' : FasterWhisperTasks.State,
      FasterWhisperTasks.upload_transcript (Some "transcripts-bucket")
        faster_working [] "week1/lecture.wav" (Some "s1") None
        FasterWhisperTasks.initial_state
      = (inr "s1/lecture.json", s') /\
      FasterWhisperTasks.blobs s' !! ("transcripts-bucket", "s1/lecture.json")
      = Some (VDict [])).
Proof.
  split; [| split; [| split; [| split]]].
  - destruct (proj1 transcript_record_shape local_config working "lecture.wav"
                WhisperLive.initial_state _ _ eq_refl)
      as (segs & a & d & _ & _ & Ht).
    eexists. split; [reflexivity |]. split; reflexivity.
  - eexists. split; [reflexivity |].
    exact (proj1 (proj2 transcript_record_shape) local_config working []
             "lecture.wav" None None WhisperLive.initial_state _ _ eq_refl).
  - destruct (proj1 (proj2 (proj2 transcript_record_shape)) one_segment
                "lecture.wav" false _ _ eq_refl)
      as (segs & lang & txt & p & Ht).
    eexists. split; [reflexivity |]. reflexivity.
  - destruct (proj1 (proj2 (proj2 (proj2 transcript_record_shape))) bare_list
                "lecture.wav" false _ _ eq_refl) as (r & Hr & _).
    reflexivity.
  - eexists. split; [reflexivity |].
    exact (proj2 (proj2 (proj2 (proj2 transcript_record_shape)))
             (Some "transcripts-bucket") faster_working []
             "week1/lecture.wav" (Some "s1") None
             FasterWhisperTasks.initial_state _ _ eq_refl).
Defined.

(** C2 as it is stated fails in the Faster-Whisper container: with a model
    that returns no segment, the record has a fourth key. *)
Lemma faster_whisper_record_has_fourth_key :
  exists t : dict,
    fst (FasterWhisper.process_audio silent "lecture.wav" false) = inr t /\
    keys t = ["segments"; "language"; "text"; "language_probability"] /\
    is_transcript_record t = false.
Proof.
  eexists. split; [reflexivity |]. split; reflexivity.
Qed.

End RecordShape.

(** ** The background tasks and the in-memory result store *)

Section ResultStore.

Import WhisperLive.

Ltac frame :=
  intros s; unfold_monad; simpl;
  repeat (case_match; simpl in *; simplify_eq); try reflexivity.

Lemma time_time_keeps (E : External) : keeps_results (time_time E).
Proof. unfold time_time. frame. Qed.

Lemma load_model_keeps (E : External) : keeps_results (load_model E).
Proof. unfold load_model. frame. Qed.

Lemma remove_if_exists_keeps (p : string) : keeps_results (remove_if_exists p).
Proof. unfold remove_if_exists, os_path_exists, os_remove. frame. Qed.

Lemma download_audio_keeps (C : Config) (E : External) (b o : string) :
  keeps_results (download_audio C E b o).
Proof.
  unfold download_audio, mkstemp, download_to_filename, outcome. frame.
Qed.

Lemma process_audio_keeps (C : Config) (E : External) (p : string) :
  keeps_results (process_audio C E p).
Proof. unfold process_audio, load_model. frame. Qed.

Lemma upload_transcript_keeps (C : Config) (E : External) (t : dict)
    (o : string) (sid rid : option string) :
  keeps_results (upload_transcript C E t o sid rid).
Proof.
  unfold upload_transcript, write_json, upload_from_string, outcome. frame.
Qed.

(** Only [mkstemp] touches [unremovable]. *)
Lemma process_audio_keeps_unremovable (C : Config) (E : External)
    (p : string) :
  keeps_unremovable (process_audio C E p).
Proof. unfold process_audio, load_model. frame. Qed.

Lemma upload_transcript_keeps_unremovable (C : Config) (E : External)
    (t : dict) (o : string) (sid rid : option string) :
  keeps_unremovable (upload_transcript C E t o sid rid).
Proof.
  unfold upload_transcript, write_json, upload_from_string, outcome. frame.
Qed.

Lemma remove_if_exists_keeps_unremovable (p : string) :
  keeps_unremovable (remove_if_exists p).
Proof. unfold remove_if_exists, os_path_exists, os_remove. frame. Qed.

(** The file that [download_audio] returns is the one [mkstemp] has just
    created: [os.remove] does not refuse it. *)
Lemma download_audio_removable (C : Config) (E : External) (b o : string)
    (s s2 : State) (p : string) :
  download_audio C E b o s = (inr p, s2) ->
  unremovable s2 !! p = None.
Proof.
  unfold download_audio, mkstemp, download_to_filename, outcome.
  unfold_monad. intros H.
  repeat (case_match; simpl in *; simplify_eq).
  apply lookup_delete_eq.
Qed.

(** The three ways in which [if os.path.exists(p): os.remove(p)] ends. *)
Lemma remove_if_exists_outcome (p : string) (s : State) :
  remove_if_exists p s
  = match fs s !! p, unremovable s !! p with
    | Some _, Some e => (inl e, s)
    | Some _, None => (inr tt, set_fs (delete p (fs s)) s)
    | None, _ => (inr tt, s)
    end.
Proof.
  unfold remove_if_exists, os_path_exists, os_remove. unfold_monad. simpl.
  destruct (fs s !! p) as [c |] eqn:Hp.
  - rewrite bool_decide_eq_true_2 by eauto. rewrite Hp. reflexivity.
  - rewrite bool_decide_eq_false_2; [reflexivity |].
    intros [c Hc]. discriminate.
Qed.

(** A [finally] block that removes a file of the process does not
    raise. *)
Lemma remove_if_exists_ok (p : string) (s : State) :
  unremovable s !! p = None ->
  fst (remove_if_exists p s) = inr tt.
Proof.
  intros Hp. rewrite remove_if_exists_outcome, Hp.
  destruct (fs s !! p); reflexivity.
Qed.

(** The task returns its dict when the file is gone, and when it is a
    file that [os.remove] does not refuse. *)
Lemma after_cleanup_returns (p : string) (s' : State) (d : dict) :
  fs s' !! p = None \/ unremovable s' !! p = None ->
  after_cleanup p s' d = inr d.
Proof.
  unfold after_cleanup. intros [-> | ->]; [reflexivity |].
  destruct (fs s' !! p); reflexivity.
Qed.

(** A task whose [try] block ends in the state [s1] with the dict [d],
    and whose [finally] block is [remove_if_exists p]. *)
Lemma cleanup_outcome (p : string) (s1 : State) (d : dict) :
  match remove_if_exists p s1 with
  | (inl e, s') => (inl e, s')
  | (inr _, s') => (inr d, s')
  end
  = (after_cleanup p (snd (remove_if_exists p s1)) d,
     snd (remove_if_exists p s1)).
Proof.
  rewrite remove_if_exists_outcome. unfold after_cleanup.
  destruct (fs s1 !! p) as [c |] eqn:Hp; simpl.
  - destruct (unremovable s1 !! p) as [e |] eqn:Hu; simpl.
    + rewrite Hp, Hu. reflexivity.
    + rewrite lookup_delete_eq. reflexivity.
  - rewrite Hp. reflexivity.
Qed.

(** Closes a goal about a finished task: the run is a value, and the
    store is the old one with the result inserted. *)
Ltac finished :=
  eexists _, _; split; [reflexivity |]; simpl;
  repeat match goal with
    | K : transcription_results _ = _ |- _ => rewrite K; clear K
    end;
  repeat split.

(** Runs the [finally] block [remove_if_exists p] at the end of a task
    on a file that [os.remove] does not refuse. *)
Ltac cleanup p :=
  match goal with
  | |- context [remove_if_exists p ?q] =>
      let Hok := fresh "Hok" in
      let Hkeep := fresh "Hkeep" in
      assert (Hok : fst (remove_if_exists p q) = inr tt)
        by (apply remove_if_exists_ok; simpl; congruence);
      pose proof (remove_if_exists_keeps p q) as Hkeep;
      destruct (remove_if_exists p q) as [? ?]; simpl in Hok, Hkeep; subst
  end.

(** [process_audio_file] always returns a dict, stores it under
    [request_id], and that dict reports the first step that raised, or
    success when none did. *)
Lemma process_audio_file_spec (C : Config) (E : External) (b o : string)
    (sid rid : option string) (s : State) :
  exists (d : dict) (s' : State),
    process_audio_file C E b o sid rid s = (inr d, s') /\
    transcription_results s' = <[rid := d]> (transcription_results s) /\
    match download_audio C E b o (snd (time_time E s)) with
    | (inl e, _) => is_error d e
    | (inr p, s2) =>
        match process_audio C E p s2 with
        | (inl e, _) => is_error d e
        | (inr t, s3) =>
            match upload_transcript C E t o sid rid s3 with
            | (inl e, _) => is_error d e
            | (inr _, _) => is_success d t
            end
        end
    end.
Proof.
  unfold process_audio_file, time_time. unfold_monad. simpl.
  set (s1 := set_clock_reads _ s).
  assert (K0 : transcription_results s1 = transcription_results s)
    by reflexivity.
  clearbody s1.
  pose proof (download_audio_keeps C E b o s1) as K1.
  pose proof (download_audio_removable C E b o s1) as R1.
  destruct (download_audio C E b o s1) as [[e | p] s2]; simpl in *.
  { finished. }
  specialize (R1 _ _ eq_refl).
  pose proof (process_audio_keeps C E p s2) as K2.
  pose proof (process_audio_keeps_unremovable C E p s2) as R2.
  destruct (process_audio C E p s2) as [[e | t] s3]; simpl in *.
  { destruct (str_truthy p); simpl; [cleanup p |]; finished. }
  pose proof (upload_transcript_keeps C E t o sid rid s3) as K3.
  pose proof (upload_transcript_keeps_unremovable C E t o sid rid s3) as R3.
  destruct (upload_transcript C E t o sid rid s3) as [[e | n] s4]; simpl in *.
  { destruct (str_truthy p); simpl; [cleanup p |]; finished. }
  destruct (str_truthy p); simpl; [cleanup p |]; finished.
Qed.

(** Runs the [finally] block [remove_if_exists p] of a task whose file
    was handed to it, and closes the goal about the finished task. *)
Ltac uploaded p :=
  match goal with
  | |- context [remove_if_exists p ?q] =>
      let Hkeep := fresh "Hkeep" in
      let Hun := fresh "Hun" in
      rewrite (cleanup_outcome p q);
      pose proof (remove_if_exists_keeps p q) as Hkeep;
      pose proof (remove_if_exists_keeps_unremovable p q) as Hun;
      eexists _, _; split; [reflexivity |];
      simpl in Hkeep, Hun;
      split; [rewrite Hkeep; simpl; congruence |];
      split; [rewrite Hun; congruence |];
      repeat split
  end.

(** [process_uploaded_file] always stores a dict under [request_id] and
    returns it, unless the removal of [file_path] in its [finally] block
    raises; [unremovable] is as before.  A failed transcription, or a
    failed write of the local JSON file, gives an error result; a failed
    upload to cloud storage does not: the result is a success without a
    [transcript_location]. *)
Lemma process_uploaded_file_spec (C : Config) (E : External)
    (file_path rid : string) (language : option string) (beam_size : Z)
    (s : State) :
  exists (d : dict) (s' : State),
    process_uploaded_file C E file_path rid language beam_size s
      = (after_cleanup file_path s' d, s') /\
    transcription_results s'
      = <[Some rid := d]> (transcription_results s) /\
    unremovable s' = unremovable s /\
    match process_audio C E file_path (snd (time_time E s)) with
    | (inl e, _) => is_error d e
    | (inr t, _) =>
        if storage_client C && opt_truthy (TRANSCRIPT_BUCKET C)
        then
          is_success d t /\
          lookup_key "transcript_location" d
          = Some (match ext_upload E (default "" (TRANSCRIPT_BUCKET C))
                          ("upload_" +:+ rid +:+ ".json") with
                  | None =>
                      VStr ("gs://" +:+ default "" (TRANSCRIPT_BUCKET C)
                              +:+ "/" +:+ ("upload_" +:+ rid +:+ ".json"))
                  | Some _ => VNone
                  end)
        else
          match ext_write E (os_path_join "transcripts"
                               ("upload_" +:+ rid +:+ ".json")) with
          | Some e => is_error d e
          | None => is_success d t
          end
    end.
Proof.
  unfold process_uploaded_file, time_time. unfold_monad. simpl.
  set (s1 := set_clock_reads _ s).
  assert (K0 : transcription_results s1 = transcription_results s)
    by reflexivity.
  assert (U0 : unremovable s1 = unremovable s) by reflexivity.
  clearbody s1.
  pose proof (process_audio_keeps C E file_path s1) as K1.
  pose proof (process_audio_keeps_unremovable C E file_path s1) as U1.
  destruct (process_audio C E file_path s1) as [[e | t] s2]; simpl in *.
  { uploaded file_path. }
  destruct (storage_client C && opt_truthy (TRANSCRIPT_BUCKET C)).
  - unfold upload_from_string, outcome. unfold_monad.
    destruct (ext_upload E _ _) as [e |]; simpl; uploaded file_path.
  - unfold write_json, outcome. unfold_monad.
    destruct (ext_write E _) as [e |]; simpl; uploaded file_path.
Qed.

End ResultStore.

Section TaskOutcomes.

Import WhisperLive.

(** C9, as the code has it.  [process_audio_file] never raises: it
    returns a result dict and stores exactly that dict in
    [transcription_results] under its [request_id].
    [process_uploaded_file] stores its result dict under [request_id] in
    every case, and returns it unless the [os.remove(file_path)] of its
    [finally] block raises, which it does when [file_path] is still
    there and is a directory or a file the process may not delete: then
    that exception reaches the caller, after the result has been stored.
    Every key stored before stays in the store.  The dict has status
    "success" and the transcript when every step completed, status
    "error" with the text of the exception as [error_details] when a
    step raised.  One failure is not reported: when
    [process_uploaded_file] cannot upload the transcript to cloud storage
    it still answers "success", with a null [transcript_location]. *)
Theorem tasks_always_record_a_result :
  (forall (C : Config) (E : External) (bucket_name object_name : string)
          (session_id request_id : option string) (s : State),
      exists (d : dict) (s' : State),
        process_audio_file C E bucket_name object_name session_id request_id s
          = (inr d, s') /\
        transcription_results s'
          = <[request_id := d]> (transcription_results s) /\
        dom (transcription_results s) ⊆ dom (transcription_results s') /\
        match download_audio C E bucket_name object_name
                (snd (time_time E s)) with
        | (inl e, _) => is_error d e
        | (inr p, s2) =>
            match process_audio C E p s2 with
            | (inl e, _) => is_error d e
            | (inr t, s3) =>
                match upload_transcript C E t object_name session_id
                        request_id s3 with
                | (inl e, _) => is_error d e
                | (inr _, _) => is_success d t
                end
            end
        end) /\
  (forall (C : Config) (E : External) (file_path request_id : string)
          (language : option string) (beam_size : Z) (s : State),
      exists (d : dict) (s' : State),
        process_uploaded_file C E file_path request_id language beam_size s
          = (after_cleanup file_path s' d, s') /\
        transcription_results s'
          = <[Some request_id := d]> (transcription_results s) /\
        dom (transcription_results s) ⊆ dom (transcription_results s') /\
        unremovable s' = unremovable s /\
        match process_audio C E file_path (snd (time_time E s)) with
        | (inl e, _) => is_error d e
        | (inr t, _) =>
            if storage_client C && opt_truthy (TRANSCRIPT_BUCKET C)
            then
              is_success d t /\
              lookup_key "transcript_location" d
              = Some (match ext_upload E (default "" (TRANSCRIPT_BUCKET C))
                              ("upload_" +:+ request_id +:+ ".json") with
                      | None =>
                          VStr ("gs://" +:+ default "" (TRANSCRIPT_BUCKET C)
                                  +:+ "/"
                                  +:+ ("upload_" +:+ request_id +:+ ".json"))
                      | Some _ => VNone
                      end)
            else
              match ext_write E (os_path_join "transcripts"
                                   ("upload_" +:+ request_id +:+ ".json")) with
              | Some e => is_error d e
              | None => is_success d t
              end
        end).
Proof.
  split.
  - intros C E b o sid rid s.
    destruct (process_audio_file_spec C E b o sid rid s)
      as (d & s' & Hrun & Hstore & Hout).
    exists d, s'. repeat split; try assumption.
    rewrite Hstore, dom_insert_L. set_solver.
  - intros C E fp rid lang beam s.
    destruct (process_uploaded_file_spec C E fp rid lang beam s)
      as (d & s' & Hrun & Hstore & Hun & Hout).
    exists d, s'. repeat split; try assumption.
    rewrite Hstore, dom_insert_L. set_solver.
Qed.

(** C9 as it is stated fails: with a bucket configured and the upload to
    it refused, [process_uploaded_file] reports "success"; nothing has
    been persisted and the result names no location and no error. *)
Lemma failed_upload_reported_as_success :
  exists (d : dict) (s' : State),
    process_uploaded_file cloud_config upload_refused "/tmp/upload.wav"
      "r1" None 5 initial_state = (inr d, s') /\
    ext_upload upload_refused "transcripts-bucket" "upload_r1.json"
      = Some (ExternalError "403 Forbidden") /\
    lookup_key "status" d = Some (VStr "success") /\
    lookup_key "transcript_location" d = Some VNone /\
    lookup_key "error_details" d = None /\
    blobs s' = ∅.
Proof.
  destruct (process_uploaded_file cloud_config upload_refused
              "/tmp/upload.wav" "r1" None 5 initial_state) as [r s'] eqn:Hrun.
  vm_compute in Hrun. injection Hrun as <- <-.
  eexists _, _. split; [reflexivity |]. repeat split.
Qed.

(** It fails in a second way: when the uploaded file lies where the
    process may not delete, the task transcribes it, stores a "success"
    result under "r1", and then raises the [PermissionError] of
    [os.remove] to its caller; the file stays on disk. *)
Remark unremovable_upload_raises :
  exists (d : dict) (s' : State),
    process_uploaded_file local_config working "/tmp/upload.wav" "r1" None 5
      protected_upload
    = (inl (ExternalError "[Errno 13] Permission denied: '/tmp/upload.wav'"),
       s') /\
    transcription_results s' !! Some "r1" = Some d /\
    lookup_key "status" d = Some (VStr "success") /\
    fs s' !! "/tmp/upload.wav" = Some Binary.
Proof.
  destruct (process_uploaded_file local_config working "/tmp/upload.wav"
              "r1" None 5 protected_upload) as [r s'] eqn:Hrun.
  vm_compute in Hrun. injection Hrun as <- <-.
  eexists _, _. split; [reflexivity |]. repeat split.
Qed.

End TaskOutcomes.

(** ** Model loading and the health endpoint *)

Section Health.

Import WhisperLive Models.

Lemma preload_never_raises (E : External) (s : State) :
  fst (preload E s) = inr tt.
Proof.
  unfold preload, load_model. unfold_monad.
  repeat case_match; simplify_eq; reflexivity.
Qed.

(** With no model loaded and a constructor that raises [e],
    [process_audio] raises [e]. *)
Lemma process_audio_load_fails (C : Config) (E : External) (path : string)
    (s : State) (e : exn) :
  model s = false ->
  ext_load E (load_attempts s) = ModelInitFails e ->
  fst (process_audio C E path s) = inl e.
Proof.
  intros Hm He. unfold process_audio, load_model. unfold_monad.
  rewrite Hm, He. reflexivity.
Qed.

(** C5, as the code has it.  A failure to load the model at start-up is
    swallowed; [/health] answers "healthy" in every state of the process
    and leaves the state alone; the failure shows per request: while the
    model still cannot be constructed, [process_audio] raises the
    constructor's exception and the task records an error result with
    its text under the request id (and returns it, unless the removal of
    the uploaded file raises at the end). *)
Theorem model_failure_surfaces_per_request :
  (forall (E : External) (s : State), fst (preload E s) = inr tt) /\
  (forall (C : Config) (s : State),
      Api.health_check C s = (inr (healthy_response C), s)) /\
  (forall (C : Config) (E : External) (file_path request_id : string)
          (language : option string) (beam_size : Z) (s : State) (e : exn),
      model s = false ->
      ext_load E (load_attempts s) = ModelInitFails e ->
      fst (process_audio C E file_path s) = inl e /\
      exists (d : dict) (s' : State),
        process_uploaded_file C E file_path request_id language beam_size s
          = (after_cleanup file_path s' d, s') /\
        is_error d e /\
        transcription_results s' !! Some request_id = Some d).
Proof.
  split; [exact preload_never_raises | split].
  - intros C s. reflexivity.
  - intros C E fp rid lang beam s e Hm He.
    split; [now apply process_audio_load_fails |].
    destruct (process_uploaded_file_spec C E fp rid lang beam s)
      as (d & s' & Hrun & Hstore & _ & Hout).
    exists d, s'. split; [assumption |].
    pose proof (process_audio_load_fails C E fp (snd (time_time E s)) e Hm He)
      as Hp.
    destruct (process_audio C E fp (snd (time_time E s))) as [[e' | t] s2];
      simpl in Hp; simplify_eq.
    split; [assumption |].
    rewrite Hstore. apply lookup_insert_eq.
Qed.

(** The theorem on that process: the upload task "r1" ends as an error. *)
Lemma model_failure_surfaces_per_request_witness :
  model degraded = false /\
  ext_load model_unavailable (load_attempts degraded)
    = ModelInitFails (ExternalError "CUDA out of memory") /\
  fst (process_audio local_config model_unavailable "/tmp/upload.wav" degraded)
    = inl (ExternalError "CUDA out of memory") /\
  exists (d : dict) (s' : State),
    process_uploaded_file local_config model_unavailable "/tmp/upload.wav"
      "r1" None 5 degraded = (inr d, s') /\
    is_error d (ExternalError "CUDA out of memory") /\
    transcription_results s' !! Some "r1" = Some d.
Proof.
  split; [reflexivity |]. split; [reflexivity |].
  destruct (proj2 (proj2 model_failure_surfaces_per_request)
              local_config model_unavailable "/tmp/upload.wav" "r1" None 5%Z
              degraded (ExternalError "CUDA out of memory") eq_refl eq_refl)
    as (Hp & d & s' & Hrun & He & Hs).
  split; [exact Hp |]. exists d, s'. split; [| split; assumption].
  assert (Hs' : s' = snd (process_uploaded_file local_config model_unavailable
                            "/tmp/upload.wav" "r1" None 5 degraded))
    by (rewrite Hrun; reflexivity).
  assert (Hfs : fs s' !! "/tmp/upload.wav" = None)
    by (rewrite Hs'; vm_compute; reflexivity).
  unfold after_cleanup in Hrun. rewrite Hfs in Hrun. exact Hrun.
Defined.

(** C5 as it is stated fails: after a start-up at which the model could
    not be loaded, the model is still missing and [/health] answers
    "healthy". *)
Lemma health_check_healthy_without_model :
  fst (preload model_unavailable initial_state) = inr tt /\
  model degraded = false /\
  fst (Api.health_check local_config degraded)
  = inr {| health_status := "healthy"; version := "v1";
           environment := Some "development" |}.
Proof. repeat split. Qed.

End Health.

(** ** Reading a result back: [get_transcription_result] *)

Section ResultLookup.

Import WhisperLive Models.

(** C8.  [get_transcription_result] answers 404 exactly when the id is
    not in [transcription_results].  For a stored result with status
    "error" it answers 500 with a body that carries the stored [message]
    and [error_details]; for one with status "success" and a non-empty
    [result] it answers 200 with that result as the body.  The store is
    not changed. *)
Theorem get_transcription_result_cases (request_id : string) (s : State) :
  snd (Api.get_transcription_result request_id s) = s /\
  (result_status_code request_id s = 404%Z
   <-> transcription_results s !! Some request_id = None) /\
  (forall result : dict,
      transcription_results s !! Some request_id = Some result ->
      (eq_str (dict_get "status" VNone result) "error" = true ->
       fst (Api.get_transcription_result request_id s)
       = inr {| status_code := 500;
                content := VDict
                  [("status", VStr "error");
                   ("message",
                      dict_get "message" (VStr "처리 중 오류 발생") result);
                   ("request_id", VStr request_id);
                   ("error_details", dict_get "error_details" VNone result)]
             |}) /\
      (eq_str (dict_get "status" VNone result) "success" = true ->
       contains "result" result = true ->
       truthy (dict_get "result" VNone result) = true ->
       fst (Api.get_transcription_result request_id s)
       = inr {| status_code := 200;
                content := dict_get "result" VNone result |})).
Proof.
  unfold result_status_code, Api.get_transcription_result. unfold_monad.
  destruct (transcription_results s !! Some request_id) as [result |] eqn:Hr;
    simpl.
  - split; [repeat case_match; reflexivity |].
    split.
    + split; [| discriminate].
      repeat case_match; simpl; discriminate.
    + intros result' Heq. injection Heq as <-. split.
      * intros He. rewrite He. reflexivity.
      * intros Hs Hc Ht.
        destruct (dict_get "status" VNone result) as [| | | | st | |];
          try discriminate.
        simpl in Hs. apply String.eqb_eq in Hs. subst st. simpl.
        rewrite Hc, Ht. reflexivity.
  - split; [reflexivity |]. split; [split; reflexivity |].
    intros result Heq. discriminate.
Qed.

(** The three answers on that store. *)
Lemma get_transcription_result_cases_witness :
  result_status_code "absent" two_results = 404%Z /\
  (exists msg : value,
      fst (Api.get_transcription_result "bad" two_results)
      = inr {| status_code := 500;
               content := VDict
                 [("status", VStr "error"); ("message", msg);
                  ("request_id", VStr "bad");
                  ("error_details", VStr "CUDA out of memory")] |}) /\
  (exists t : dict,
      fst (WhisperLive.process_audio local_config working "/tmp/a.wav"
             initial_state) = inr t /\
      fst (Api.get_transcription_result "ok" two_results)
      = inr {| status_code := 200; content := VDict t |}).
Proof.
  split; [| split].
  - apply (proj1 (proj2 (get_transcription_result_cases "absent" two_results))).
    reflexivity.
  - destruct (transcription_results two_results !! Some "bad")
      as [result |] eqn:Hr; [| vm_compute in Hr; discriminate].
    pose proof (proj1 (proj2 (proj2
      (get_transcription_result_cases "bad" two_results)) result Hr)) as H.
    vm_compute in Hr. injection Hr as <-.
    eexists. rewrite H by reflexivity. reflexivity.
  - destruct (transcription_results two_results !! Some "ok")
      as [result |] eqn:Hr; [| vm_compute in Hr; discriminate].
    pose proof (proj2 (proj2 (proj2
      (get_transcription_result_cases "ok" two_results)) result Hr)) as H.
    vm_compute in Hr. injection Hr as <-.
    eexists. split; [reflexivity |].
    rewrite H by reflexivity. reflexivity.
Defined.

End ResultLookup.

(** ** The transcribe endpoints *)

Section Endpoints.

Import Models Api.

Lemma transcribe_audio_unsupported (E : External) (envelope : PubSubEnvelope)
    (r : Request) (request : AudioProcessingRequest) :
  decoded_request E envelope = inr request ->
  supported (name request) = false ->
  exists (resp : AudioProcessingResponse) (r' : Request),
    transcribe_audio E envelope r = (inr resp, r') /\
    background_tasks r' = background_tasks r /\
    status resp = (if str_truthy (bucket request) && str_truthy (name request)
                   then SKIPPED else ERROR).
Proof.
  unfold decoded_request, supported, rbind. intros Hd Hs.
  unfold transcribe_audio, transcribe_audio_try, uuid4. unfold_monad.
  destruct (ext_b64decode_utf8 E _) as [e | md]; [discriminate |].
  destruct (ext_json_loads E md) as [e | data]; [discriminate |].
  cbn -[any].
  destruct (get "bucket" VNone data) as [e | b]; [discriminate |].
  destruct (get "name" VNone data) as [e | n]; [discriminate |].
  destruct (get "session_id" VNone data) as [e | sid]; [discriminate |].
  rewrite Hd, Hs.
  destruct (str_truthy (bucket request)); simpl;
    [| eexists _, _; repeat split].
  destruct (str_truthy (name request)); simpl;
    eexists _, _; repeat split.
Qed.

(** C3, as the code has it.  Each endpoint has its own test, and a
    request that fails it never gets a background task.  [/transcribe],
    in both services that have it, tests the end of the whole name: for
    a name that does not end, in any case, in .mp3, .wav, .m4a, .flac,
    .ogg or .aac it answers "skipped" when bucket and name are both
    non-empty, and "error" from the check before when one of them is
    empty.  [/upload-transcribe] tests the suffix that [pathlib] finds
    in the name of the uploaded file: when that suffix, in lower case,
    does not end in one of the six formats, it answers "skipped". *)
Theorem unsupported_format_never_enqueued :
  (forall (E : External) (envelope : PubSubEnvelope) (r : Request)
          (request : AudioProcessingRequest),
      decoded_request E envelope = inr request ->
      supported (name request) = false ->
      exists (resp : AudioProcessingResponse) (r' : Request),
        transcribe_audio E envelope r = (inr resp, r') /\
        background_tasks r' = background_tasks r /\
        status resp
        = (if str_truthy (bucket request) && str_truthy (name request)
           then SKIPPED else ERROR)) /\
  (forall (E : External) (envelope : PubSubEnvelope) (r : Request)
          (request : AudioProcessingRequest),
      decoded_request E envelope = inr request ->
      supported (name request) = false ->
      exists (resp : AudioProcessingResponse) (r' : Request),
        WhisperX.transcribe_audio E envelope r = (inr resp, r') /\
        background_tasks r' = background_tasks r /\
        status resp
        = (if str_truthy (bucket request) && str_truthy (name request)
           then SKIPPED else ERROR)) /\
  (forall (E : External) (file : UploadFile) (language : option string)
          (beam_size : Z) (r : Request),
      supported (path_suffix (filename file)) = false ->
      exists (resp : AudioProcessingResponse) (r' : Request),
        upload_and_transcribe E file language beam_size r = (inr resp, r') /\
        background_tasks r' = background_tasks r /\
        status resp = SKIPPED).
Proof.
  split; [| split].
  - exact transcribe_audio_unsupported.
  - exact transcribe_audio_unsupported.
  - intros E file language beam_size r Hs. unfold supported in Hs.
    unfold upload_and_transcribe, upload_and_transcribe_try, uuid4.
    unfold_monad. cbn -[any]. rewrite Hs. simpl.
    eexists _, _. repeat split.
Qed.

Lemma unsupported_format_never_enqueued_witness :
  (exists (resp : AudioProcessingResponse) (r' : Request),
      transcribe_audio (decoding_to notes_in_bucket) (envelope_of "e30=")
        new_request = (inr resp, r') /\
      background_tasks r' = [] /\ status resp = SKIPPED) /\
  (exists (resp : AudioProcessingResponse) (r' : Request),
      WhisperX.transcribe_audio (decoding_to notes_in_bucket)
        (envelope_of "e30=") new_request = (inr resp, r') /\
      background_tasks r' = [] /\ status resp = SKIPPED) /\
  (exists (resp : AudioProcessingResponse) (r' : Request),
      upload_and_transcribe (decoding_to VNone) uploaded_notes None 5
        new_request = (inr resp, r') /\
      background_tasks r' = [] /\ status resp = SKIPPED).
Proof.
  split; [| split].
  - exact (proj1 unsupported_format_never_enqueued
             (decoding_to notes_in_bucket) (envelope_of "e30=") new_request
             _ eq_refl eq_refl).
  - exact (proj1 (proj2 unsupported_format_never_enqueued)
             (decoding_to notes_in_bucket) (envelope_of "e30=") new_request
             _ eq_refl eq_refl).
  - exact (proj2 (proj2 unsupported_format_never_enqueued)
             (decoding_to VNone) uploaded_notes None 5%Z new_request eq_refl).
Defined.

(** C3 as it is stated fails: for a message that names the file
    "notes.txt" and an empty bucket, [/transcribe] answers "error", not
    "skipped". *)
Lemma unsupported_format_answered_with_error :
  exists (request : AudioProcessingRequest) (resp : AudioProcessingResponse)
         (r' : Request),
    decoded_request
      (decoding_to (VDict [("bucket", VStr ""); ("name", VStr "notes.txt")]))
      (envelope_of "e30=") = inr request /\
    name request = "notes.txt" /\
    supported (name request) = false /\
    transcribe_audio
      (decoding_to (VDict [("bucket", VStr ""); ("name", VStr "notes.txt")]))
      (envelope_of "e30=") new_request = (inr resp, r') /\
    status resp = ERROR /\
    status_value (status resp) = "error" /\
    background_tasks r' = [].
Proof. eexists _, _, _. repeat split. Qed.

(** The two endpoints do not test the same thing.  [/transcribe] accepts
    any name that ends in a supported format, also the dot file ".mp3",
    which has no suffix in the sense of [pathlib]; [/upload-transcribe]
    skips a file of that name. *)
Remark dot_file_accepted_by_name_only :
  path_suffix "week1/.mp3" = "" /\
  (exists r' : Request,
      transcribe_audio
        (decoding_to (VDict [("bucket", VStr "lectures");
                             ("name", VStr "week1/.mp3")]))
        (envelope_of "e30=") new_request
      = (inr (response PENDING "오디오 처리가 시작되었습니다" "uuid-0" None), r') /\
      background_tasks r'
      = [ProcessAudioFile "lectures" "week1/.mp3" None "uuid-0"]) /\
  (exists (resp : AudioProcessingResponse) (r' : Request),
      upload_and_transcribe (decoding_to VNone)
        {| filename := ".mp3"; read := inr "" |} None 5 new_request
      = (inr resp, r') /\
      status resp = SKIPPED /\ background_tasks r' = []).
Proof.
  split; [reflexivity |]. split.
  - eexists. split; reflexivity.
  - eexists _, _. repeat split.
Qed.

(** In the other direction, the upload named "a.mp3/" does not end in a
    supported format, and [/transcribe] would skip an object of that
    name; its [pathlib] suffix is ".mp3", so [/upload-transcribe]
    accepts it and registers a task. *)
Remark trailing_slash_accepted_by_suffix_only :
  supported "a.mp3/" = false /\
  path_suffix "a.mp3/" = ".mp3" /\
  (exists (resp : AudioProcessingResponse) (r' : Request),
      transcribe_audio
        (decoding_to (VDict [("bucket", VStr "lectures");
                             ("name", VStr "a.mp3/")]))
        (envelope_of "e30=") new_request
      = (inr resp, r') /\
      status resp = SKIPPED /\ background_tasks r' = []) /\
  (exists (resp : AudioProcessingResponse) (r' : Request),
      upload_and_transcribe (decoding_to VNone)
        {| filename := "a.mp3/"; read := inr "" |} None 5 new_request
      = (inr resp, r') /\
      status resp = PENDING /\ length (background_tasks r') = 1%nat).
Proof.
  split; [reflexivity |]. split; [reflexivity |]. split.
  - eexists _, _. repeat split.
  - eexists _, _. repeat split.
Qed.

End Endpoints.

(** ** Exceptions never reach the client *)

Section Errors.

Import Models Api.

(** C4.  Whatever is raised inside [transcribe_audio] or
    [upload_and_transcribe], the endpoint returns a response object: its
    status is "error", "skipped" or "pending", and when the [try] block
    raised [e] it is "error" with [str(e)] as [error_details] (no details
    for a JSON decoding error).  An exception that leaves a handler is
    answered by [global_exception_handler] with status code 500 and a
    fixed JSON body, unless it is an [HTTPException], which the framework
    answers with its code and detail. *)
Theorem exceptions_become_responses :
  (forall (E : External) (envelope : PubSubEnvelope) (r : Request),
      exists (resp : AudioProcessingResponse) (r' : Request),
        transcribe_audio E envelope r = (inr resp, r') /\
        (status resp = ERROR \/ status resp = SKIPPED \/ status resp = PENDING) /\
        forall (e : exn) (r1 : Request),
          transcribe_audio_try E envelope r = (inl e, r1) ->
          status resp = ERROR /\
          background_tasks r' = background_tasks r1 /\
          error_details resp
          = match e with
            | JSONDecodeError _ => None
            | _ => Some (str_exn e)
            end) /\
  (forall (E : External) (file : UploadFile) (language : option string)
          (beam_size : Z) (r : Request),
      exists (resp : AudioProcessingResponse) (r' : Request),
        upload_and_transcribe E file language beam_size r = (inr resp, r') /\
        (status resp = ERROR \/ status resp = SKIPPED \/ status resp = PENDING) /\
        forall (e : exn) (r1 : Request),
          upload_and_transcribe_try E file language beam_size r = (inl e, r1) ->
          status resp = ERROR /\
          background_tasks r' = background_tasks r1 /\
          error_details resp = Some (str_exn e)) /\
  (forall exc : exn,
      Main.global_exception_handler exc
      = {| status_code := 500; content := internal_error_body |}) /\
  (forall exc : exn,
      Main.app_response (inl exc) = Main.global_exception_handler exc \/
      exists (code : Z) (detail : string),
        exc = HTTPException code detail /\
        Main.app_response (inl exc)
        = {| status_code := code;
             content := VDict [("detail", VStr detail)] |}).
Proof.
  split; [| split; [| split]].
  - intros E envelope r. unfold transcribe_audio. unfold_monad.
    destruct (transcribe_audio_try E envelope r) as [[e | resp] r1] eqn:Htry.
    + unfold transcribe_audio_except, uuid4. unfold_monad.
      destruct e; simpl; eexists _, _;
        (split; [reflexivity |]); (split; [left; reflexivity |]);
        intros e' r1' Heq; simplify_eq; repeat split.
    + exists resp, r1. split; [reflexivity |]. split; [| intros; discriminate].
      revert Htry. unfold transcribe_audio_try, uuid4, add_task.
      unfold_monad. intros Htry.
      repeat (case_match; simpl in *; simplify_eq); simpl; auto.
  - intros E file language beam_size r. unfold upload_and_transcribe.
    unfold_monad.
    destruct (upload_and_transcribe_try E file language beam_size r)
      as [[e | resp] r1] eqn:Htry.
    + unfold upload_and_transcribe_except, uuid4. unfold_monad. simpl.
      eexists _, _. split; [reflexivity |]. split; [left; reflexivity |].
      intros e' r1' Heq. simplify_eq. repeat split.
    + exists resp, r1. split; [reflexivity |]. split; [| intros; discriminate].
      revert Htry.
      unfold upload_and_transcribe_try, uuid4, add_task, write_file,
        named_temporary_file.
      unfold_monad. intros Htry.
      repeat (case_match; simpl in *; simplify_eq); simpl; auto.
  - intros exc. reflexivity.
  - intros exc. destruct exc; simpl; eauto.
Qed.

Lemma exceptions_become_responses_witness :
  (exists (resp : AudioProcessingResponse) (r' : Request),
      fst (transcribe_audio_try undecodable (envelope_of "bm90IGpzb24=")
             new_request) = inl (JSONDecodeError "Expecting value") /\
      transcribe_audio undecodable (envelope_of "bm90IGpzb24=") new_request
        = (inr resp, r') /\
      status resp = ERROR /\ error_details resp = None /\
      background_tasks r' = []) /\
  (exists (resp : AudioProcessingResponse) (r' : Request),
      fst (upload_and_transcribe_try (decoding_to VNone) unreadable_upload
             None 5 new_request) = inl (ExternalError "connection reset") /\
      upload_and_transcribe (decoding_to VNone) unreadable_upload None 5
        new_request = (inr resp, r') /\
      status resp = ERROR /\
      error_details resp = Some "connection reset" /\
      background_tasks r' = []).
Proof.
  split.
  - destruct (proj1 exceptions_become_responses undecodable
                (envelope_of "bm90IGpzb24=") new_request)
      as (resp & r' & Hrun & _ & Hexc).
    destruct (Hexc (JSONDecodeError "Expecting value") _ eq_refl)
      as (Hst & Hbg & Hdet).
    exists resp, r'. repeat split; assumption.
  - destruct (proj1 (proj2 exceptions_become_responses) (decoding_to VNone)
                unreadable_upload None 5%Z new_request)
      as (resp & r' & Hrun & _ & Hexc).
    destruct (Hexc (ExternalError "connection reset") _ eq_refl)
      as (Hst & Hbg & Hdet).
    exists resp, r'. repeat split; assumption.
Defined.

End Errors.

(** ** The streaming endpoint *)

Section Streaming.

Import Main.

Variable Manager : Type.
Variable register : Manager -> fallible string * Manager.
Variable process_audio :
  string -> string -> Manager -> (list value * option exn) * Manager.
Variable unregister : string -> Manager -> Manager.

(** The frames sent by the loop come after those sent before it. *)
Lemma receive_loop_appends (session_id : string)
    (incoming : list (fallible string)) :
  forall (m : Manager) (sent : list value),
    snd (receive_loop Manager process_audio session_id incoming m sent)
    = sent ++ snd (receive_loop Manager process_audio session_id incoming m []).
Proof.
  induction incoming as [| [e | data] rest IH]; intros m sent; simpl.
  - now rewrite app_nil_r.
  - now rewrite app_nil_r.
  - destruct (negb (str_truthy data)); [apply IH |].
    destruct (process_audio session_id data m) as [[frames [e |]] m'].
    + reflexivity.
    + rewrite (IH m' (sent ++ frames)), (IH m' frames).
      now rewrite app_assoc.
Qed.

(** When the connection is not accepted, or [register] raises, nothing is
    sent at all. *)
Lemma no_frame_without_session (accept : option exn)
    (incoming : list (fallible string)) (m : Manager) :
  is_Some accept \/ (exists e m1, register m = (inl e, m1)) ->
  snd (websocket_endpoint Manager register process_audio unregister accept
         incoming m) = [].
Proof.
  unfold websocket_endpoint. intros [[e ->] | (e & m1 & Hreg)].
  - reflexivity.
  - rewrite Hreg. now destruct accept.
Qed.

(** C6.  On an accepted connection for which [register] returned
    [session_id], the frames sent to the client are the "connected"
    frame that carries [session_id], then the frames that
    [process_audio] sent while the audio came in: the first frame is the
    "connected" frame and every result frame comes after it. *)
Theorem connected_frame_comes_first (incoming : list (fallible string))
    (m m1 : Manager) (session_id : string) :
  register m = (inr session_id, m1) ->
  snd (websocket_endpoint Manager register process_audio unregister None
         incoming m)
  = connected_frame session_id
      :: snd (receive_loop Manager process_audio session_id incoming m1 []) /\
  head (snd (websocket_endpoint Manager register process_audio unregister None
               incoming m))
  = Some (VDict [("event", VStr "connected");
                 ("session_id", VStr session_id)]).
Proof.
  intros Hreg. unfold websocket_endpoint. rewrite Hreg.
  pose proof (receive_loop_appends session_id incoming m1
                [connected_frame session_id]) as Happ.
  destruct (receive_loop Manager process_audio session_id incoming m1
              [connected_frame session_id]) as [[e m2] sent].
  simpl in *. rewrite Happ. split; reflexivity.
Qed.

End Streaming.

Section Registry.

(** A connection that sends two audio frames and closes. *)
Lemma connected_frame_comes_first_witness :
  exists (session_id : string) (result1 result2 : value),
    fst (registry_register ∅) = inr session_id /\
    snd (Main.websocket_endpoint _ registry_register echo_process_audio
           registry_unregister None [inr "pcm-1"; inr ""; inr "pcm-2"] ∅)
    = [Main.connected_frame session_id; result1; result2].
Proof.
  destruct (registry_register ∅) as [[e | sid] m1] eqn:Hreg;
    [vm_compute in Hreg; discriminate |].
  destruct (connected_frame_comes_first _ registry_register echo_process_audio
              registry_unregister [inr "pcm-1"; inr ""; inr "pcm-2"] ∅ m1 sid
              Hreg) as [Hall _].
  exists sid. eexists _, _. split; [reflexivity |].
  rewrite Hall. reflexivity.
Defined.

(** C7.  [remove] is idempotent: a second [remove] of the same id gives
    the output and the registry that the first one gave; it never
    raises; and on an id that is not registered it changes nothing. *)
Theorem remove_idempotent (i : string)
    (reg : gmap string SessionRegistry.Session) :
  SessionRegistry.remove i (snd (SessionRegistry.remove i reg))
  = SessionRegistry.remove i reg /\
  fst (SessionRegistry.remove i reg) = inr tt /\
  (forall j : string,
      fst (SessionRegistry.get j (snd (SessionRegistry.remove i
             (snd (SessionRegistry.remove i reg)))))
      = fst (SessionRegistry.get j (snd (SessionRegistry.remove i reg)))) /\
  (reg !! i = None -> SessionRegistry.remove i reg = (inr tt, reg)).
Proof.
  unfold SessionRegistry.remove, SessionRegistry.get. unfold_monad. simpl.
  assert (Hdd : delete i (delete i reg) = delete i reg).
  { apply delete_id. apply lookup_delete_eq. }
  rewrite Hdd. repeat split.
  intros Hnone. now rewrite delete_id.
Qed.

(** Removing a session that was created, twice, and one that never was. *)
Lemma remove_idempotent_witness :
  exists (session : SessionRegistry.Session)
         (reg : gmap string SessionRegistry.Session),
    SessionRegistry.create ∅ = (inr session, reg) /\
    reg !! SessionRegistry.id session = Some session /\
    SessionRegistry.remove (SessionRegistry.id session)
      (snd (SessionRegistry.remove (SessionRegistry.id session) reg))
    = (inr tt, ∅) /\
    reg !! "no-such-session" = None /\
    SessionRegistry.remove "no-such-session" reg = (inr tt, reg).
Proof.
  destruct (SessionRegistry.create ∅) as [[e | session] reg] eqn:Hc;
    [vm_compute in Hc; discriminate |].
  vm_compute in Hc. injection Hc as <- <-.
  eexists _, _. split; [reflexivity |]. split; [reflexivity |].
  split; [reflexivity |]. split; [reflexivity |].
  apply (proj2 (proj2 (proj2 (remove_idempotent "no-such-session" _)))).
  reflexivity.
Defined.

End Registry.

(** ** The model global: loaded once, retried after a failure *)

Section ModelLifecycle.

Import WhisperLive.

(** With the model and the audio processor in place, [process_audio] is
    the pipeline and leaves the state alone. *)
Lemma process_audio_ready (C : Config) (E : External) (path : string)
    (s : State) :
  model s = true -> audio_processor s = true ->
  process_audio C E path s = (transcribe_pipeline C E path, s).
Proof.
  intros Hm Ha. unfold process_audio, load_model, transcribe_pipeline, rbind.
  unfold_monad. rewrite Hm, Ha.
  destruct (ext_load_audio_file E path) as [e | a]; [reflexivity |].
  destruct (ext_inference E a) as [e | r]; [reflexivity |].
  destruct (build_transcript C r); reflexivity.
Qed.

(** A [process_audio] that succeeded leaves both globals set. *)
Lemma process_audio_success_loaded (C : Config) (E : External)
    (path : string) (s s' : State) (t : dict) :
  process_audio C E path s = (inr t, s') ->
  model s' = true /\ audio_processor s' = true.
Proof.
  unfold process_audio, load_model. unfold_monad. intros H.
  repeat (case_match; simpl in *; simplify_eq); auto.
Qed.

(** X1.  Once [process_audio] has succeeded, the model is never
    constructed again: every later call, on any file, is the pipeline of
    loading the audio, running the model and building the transcript,
    and it leaves the module globals and the rest of the state as they
    are. *)
Theorem model_is_loaded_once (C : Config) (E : External)
    (path path' : string) (s s1 : State) (t : dict) :
  process_audio C E path s = (inr t, s1) ->
  process_audio C E path' s1 = (transcribe_pipeline C E path', s1).
Proof.
  intros H. apply process_audio_success_loaded in H as [Hm Ha].
  now apply process_audio_ready.
Qed.

Lemma model_is_loaded_once_witness :
  exists (t : dict) (s1 : State),
    process_audio local_config working "a.wav" initial_state = (inr t, s1) /\
    load_attempts s1 = 1%nat /\
    process_audio local_config working "b.wav" s1 = (inr t, s1).
Proof.
  destruct (process_audio local_config working "a.wav" initial_state)
    as [[e | t] s1] eqn:Hrun; [vm_compute in Hrun; discriminate |].
  pose proof (model_is_loaded_once local_config working "a.wav" "b.wav"
                initial_state s1 t Hrun) as Hnext.
  vm_compute in Hrun. injection Hrun as <- <-.
  eexists _, _. split; [reflexivity |]. split; [reflexivity |].
  rewrite Hnext. reflexivity.
Defined.

(** X2.  A model that could not be constructed is tried again by the
    next call: the failed call raises the constructor's exception and
    changes nothing but the count of attempts, and when the next attempt
    succeeds the next call is the pipeline. *)
Theorem failed_model_load_is_retried (C : Config) (E : External)
    (path path' : string) (s : State) (e : exn) :
  model s = false ->
  ext_load E (load_attempts s) = ModelInitFails e ->
  process_audio C E path s
    = (inl e, set_load_attempts (S (load_attempts s)) s) /\
  (ext_load E (S (load_attempts s)) = LoadOk ->
   fst (process_audio C E path'
          (set_load_attempts (S (load_attempts s)) s))
   = transcribe_pipeline C E path').
Proof.
  intros Hm He. split.
  - unfold process_audio, load_model. unfold_monad. rewrite Hm, He.
    reflexivity.
  - intros Hok. unfold process_audio, load_model, transcribe_pipeline, rbind.
    unfold_monad. cbn. rewrite Hm. cbn. rewrite Hok. cbn.
    destruct (ext_load_audio_file E path') as [e' | a]; [reflexivity |].
    destruct (ext_inference E a) as [e' | r]; [reflexivity |].
    destruct (build_transcript C r); reflexivity.
Qed.

Lemma failed_model_load_is_retried_witness :
  exists t : dict,
    process_audio local_config loads_at_second_attempt "a.wav" initial_state
      = (inl (ExternalError "CUDA out of memory"),
         set_load_attempts 1 initial_state) /\
    fst (process_audio local_config loads_at_second_attempt "b.wav"
           (set_load_attempts 1 initial_state)) = inr t.
Proof.
  destruct (failed_model_load_is_retried local_config loads_at_second_attempt
              "a.wav" "b.wav" initial_state
              (ExternalError "CUDA out of memory") eq_refl eq_refl)
    as [Hfirst Hnext].
  eexists. split; [exact Hfirst |].
  etransitivity; [exact (Hnext eq_refl) | reflexivity].
Defined.

(** X3.  When the model is constructed and the audio processor is not,
    the globals are left half set: [model] is assigned, so no later call
    constructs anything, and [audio_processor] stays [None].  The failed
    call raises the constructor's exception; every call after it, with
    whatever collaborators, raises [AttributeError] and changes nothing. *)
Theorem failed_audio_processor_is_never_retried (C : Config) (E E' : External)
    (path path' : string) (s : State) (e : exn) :
  model s = false ->
  audio_processor s = false ->
  ext_load E (load_attempts s) = AudioProcessorInitFails e ->
  fst (process_audio C E path s) = inl e /\
  process_audio C E' path' (snd (process_audio C E path s))
  = (inl no_audio_processor, snd (process_audio C E path s)).
Proof.
  intros Hm Ha He. unfold process_audio, load_model. unfold_monad.
  rewrite Hm, He. simpl. rewrite Ha. split; reflexivity.
Qed.

Lemma failed_audio_processor_is_never_retried_witness :
  fst (process_audio local_config audio_processor_unavailable "a.wav"
         initial_state) = inl (ExternalError "no resampler") /\
  fst (process_audio local_config working "b.wav"
         (snd (process_audio local_config audio_processor_unavailable "a.wav"
                 initial_state)))
  = inl no_audio_processor.
Proof.
  destruct (failed_audio_processor_is_never_retried local_config
              audio_processor_unavailable working "a.wav" "b.wav"
              initial_state (ExternalError "no resampler")
              eq_refl eq_refl eq_refl) as [Hfirst Hnext].
  split; [exact Hfirst |]. rewrite Hnext. reflexivity.
Defined.

End ModelLifecycle.

(** ** Temporary files of the background tasks *)

Section TemporaryFiles.

Import WhisperLive.

Lemma remove_if_exists_absent (p : string) (s : State) :
  unremovable s !! p = None ->
  fs (snd (remove_if_exists p s)) !! p = None.
Proof.
  intros Hu. rewrite remove_if_exists_outcome, Hu.
  destruct (fs s !! p) as [c |] eqn:Hp; simpl.
  - apply lookup_delete_eq.
  - exact Hp.
Qed.

(** Whatever the [try] block did, after [finally: remove_if_exists p]
    the file [p] is gone, or [os.remove] has refused it and its
    exception is the outcome of the whole statement. *)
Lemma try_finally_removes {A : Type} (m : M State A) (p : string) (s : State) :
  unremovable (snd (try_finally m (remove_if_exists p) s))
  = unremovable (snd (m s)) /\
  (fs (snd (try_finally m (remove_if_exists p) s)) !! p = None \/
   exists e : exn,
     unremovable (snd (m s)) !! p = Some e /\
     fst (try_finally m (remove_if_exists p) s) = inl e).
Proof.
  unfold try_finally. destruct (m s) as [r s1]. simpl.
  rewrite remove_if_exists_outcome.
  destruct (fs s1 !! p) as [c |] eqn:Hp; simpl.
  - destruct (unremovable s1 !! p) as [e |] eqn:Hu; simpl.
    + split; [reflexivity |]. right. exists e. split; reflexivity.
    + split; [reflexivity |]. left. apply lookup_delete_eq.
  - split; [reflexivity |]. left. exact Hp.
Qed.

(** X4.  The audio file a task worked on is gone when the task ends, on
    success and on every failure, unless [os.remove] refuses it.  After
    [process_uploaded_file] the path [file_path] is not on disk, or it
    is a path that [os.remove] refuses and the task has raised the
    exception of [os.remove]; so a file that [os.remove] does not refuse
    is always removed.  [process_audio_file] always removes the
    temporary file that [download_audio] returned, which is a file of
    the process. *)
Theorem task_removes_its_audio_file :
  (forall (C : Config) (E : External) (file_path request_id : string)
          (language : option string) (beam_size : Z) (s : State),
      fs (snd (process_uploaded_file C E file_path request_id language
                 beam_size s)) !! file_path = None \/
      exists e : exn,
        unremovable s !! file_path = Some e /\
        fst (process_uploaded_file C E file_path request_id language
               beam_size s) = inl e) /\
  (forall (C : Config) (E : External) (file_path request_id : string)
          (language : option string) (beam_size : Z) (s : State),
      unremovable s !! file_path = None ->
      fs (snd (process_uploaded_file C E file_path request_id language
                 beam_size s)) !! file_path = None) /\
  (forall (C : Config) (E : External) (bucket_name object_name : string)
          (session_id request_id : option string) (s s2 : State)
          (path : string),
      download_audio C E bucket_name object_name (snd (time_time E s))
        = (inr path, s2) ->
      str_truthy path = true ->
      fs (snd (process_audio_file C E bucket_name object_name session_id
                 request_id s)) !! path = None).
Proof.
  assert (Hup : forall (C : Config) (E : External)
                       (file_path request_id : string)
                       (language : option string) (beam_size : Z) (s : State),
             fs (snd (process_uploaded_file C E file_path request_id language
                        beam_size s)) !! file_path = None \/
             exists e : exn,
               unremovable s !! file_path = Some e /\
               fst (process_uploaded_file C E file_path request_id language
                      beam_size s) = inl e).
  { intros C E fp rid lang beam s.
    destruct (process_uploaded_file_spec C E fp rid lang beam s)
      as (d & s' & Hrun & _ & Hun & _).
    assert (Hs' : snd (process_uploaded_file C E fp rid lang beam s) = s')
      by (rewrite Hrun; reflexivity).
    revert Hs'.
    unfold process_uploaded_file, time_time, bind. simpl.
    match goal with |- context [try_finally ?m (remove_if_exists fp) ?q] =>
      destruct (try_finally_removes m fp q) as [Hk [Hgone | (e & Hu & Hr)]]
    end.
    - intros _. left. exact Hgone.
    - intros Hs'. right. exists e. split; [| exact Hr].
      rewrite <- Hun, <- Hs', Hk. exact Hu. }
  split; [exact Hup | split].
  - intros C E fp rid lang beam s Hu.
    destruct (Hup C E fp rid lang beam s) as [H | (e & He & _)];
      [exact H | congruence].
  - intros C E b o sid rid s s2 p Hd Hp.
    pose proof (download_audio_removable C E b o _ _ _ Hd) as R1.
    unfold process_audio_file, time_time in *. unfold_monad. simpl in *.
    rewrite Hd. simpl.
    pose proof (process_audio_keeps_unremovable C E p s2) as R2.
    destruct (process_audio C E p s2) as [[e | t] s3]; simpl in *.
    { rewrite Hp. simpl.
      match goal with |- context [remove_if_exists p ?q] =>
        pose proof (remove_if_exists_absent p q) as H;
        destruct (remove_if_exists p q) as [[e' | u] s4];
        apply H; simpl; congruence end. }
    pose proof (upload_transcript_keeps_unremovable C E t o sid rid s3) as R3.
    destruct (upload_transcript C E t o sid rid s3) as [[e | n] s4];
      simpl in *; rewrite Hp; simpl;
      match goal with |- context [remove_if_exists p ?q] =>
        pose proof (remove_if_exists_absent p q) as H;
        destruct (remove_if_exists p q) as [[e' | u] s5];
        apply H; simpl; congruence end.
Qed.

(** An upload that can be removed is removed; one that cannot stays, and
    the task raises; the file downloaded for "r1" is removed. *)
Lemma task_removes_its_audio_file_witness :
  (fs (snd (process_uploaded_file local_config working "/tmp/upload.wav" "r1"
              None 5 (set_fs {[ "/tmp/upload.wav" := Binary ]} initial_state)))
     !! "/tmp/upload.wav" = None) /\
  (fst (process_uploaded_file local_config working "/tmp/upload.wav" "r1"
          None 5 protected_upload)
   = inl (ExternalError "[Errno 13] Permission denied: '/tmp/upload.wav'") /\
   fs (snd (process_uploaded_file local_config working "/tmp/upload.wav" "r1"
              None 5 protected_upload))
     !! "/tmp/upload.wav" = Some Binary) /\
  exists s2 : State,
    download_audio cloud_config working "lectures" "week1/intro.mp3"
      (snd (time_time working initial_state))
    = (inr "/tmp/tmpaudio.mp3", s2) /\
    fs s2 !! "/tmp/tmpaudio.mp3" = Some Binary /\
    fs (snd (process_audio_file cloud_config working "lectures"
               "week1/intro.mp3" None (Some "r1") initial_state))
      !! "/tmp/tmpaudio.mp3" = None.
Proof.
  split; [| split].
  - exact (proj1 (proj2 task_removes_its_audio_file) local_config working
             "/tmp/upload.wav" "r1" None 5%Z
             (set_fs {[ "/tmp/upload.wav" := Binary ]} initial_state)
             eq_refl).
  - destruct (proj1 task_removes_its_audio_file local_config working
                "/tmp/upload.wav" "r1" None 5%Z protected_upload)
      as [Hgone | (e & Hu & Hr)].
    + vm_compute in Hgone. discriminate Hgone.
    + split; [| vm_compute; reflexivity].
      rewrite Hr. vm_compute in Hu. injection Hu as <-. reflexivity.
  - eexists. split; [reflexivity |]. split; [reflexivity |].
    exact (proj2 (proj2 task_removes_its_audio_file) cloud_config working
             "lectures" "week1/intro.mp3" None (Some "r1") initial_state _
             "/tmp/tmpaudio.mp3" eq_refl eq_refl).
Defined.

(** X5.  [download_audio] creates its temporary file before it
    downloads.  When the download raises, [process_audio_file] has not
    yet a path to remove, and removes nothing: the temporary file stays
    on disk unless the storage library itself has removed it, and that
    is the only change to the disk.  Without a storage client, or when
    building the handles of the bucket and the object raises, the task
    fails before any file is created and the disk is untouched. *)
Theorem failed_download_leaves_temporary_file (C : Config) (E : External)
    (bucket_name object_name : string) (session_id request_id : option string)
    (s : State) :
  (storage_client C = false ->
   fs (snd (process_audio_file C E bucket_name object_name session_id
              request_id s)) = fs s) /\
  (forall e : exn,
      storage_client C = true ->
      ext_blob E bucket_name object_name = Some e ->
      fs (snd (process_audio_file C E bucket_name object_name session_id
                 request_id s)) = fs s) /\
  (forall (e : exn) (file_removed : bool),
      storage_client C = true ->
      ext_blob E bucket_name object_name = None ->
      ext_download E bucket_name object_name = DownloadFails e file_removed ->
      fs (snd (process_audio_file C E bucket_name object_name session_id
                 request_id s))
      = if file_removed
        then delete (ext_tmpname E (tmp_counter s) (path_suffix object_name))
               (fs s)
        else <[ext_tmpname E (tmp_counter s) (path_suffix object_name)
               := Binary]> (fs s)).
Proof.
  split; [| split].
  - intros Hc. unfold process_audio_file, download_audio, time_time.
    unfold_monad. simpl. rewrite Hc. reflexivity.
  - intros e Hc He.
    unfold process_audio_file, download_audio, outcome, time_time.
    unfold_monad. simpl. rewrite Hc. simpl. rewrite He. reflexivity.
  - intros e file_removed Hc Hb He.
    unfold process_audio_file, download_audio, mkstemp, download_to_filename,
      outcome, time_time.
    unfold_monad. simpl. rewrite Hc. simpl. rewrite Hb. simpl. rewrite He.
    destruct file_removed; simpl; [apply delete_insert_eq | reflexivity].
Qed.

(** The four failures on concrete collaborators: no storage client, a
    rejected bucket name, a download cut off, a missing object. *)
Lemma failed_download_leaves_temporary_file_witness :
  fs (snd (process_audio_file local_config working "lectures"
             "week1/intro.mp3" None (Some "r1") initial_state)) = ∅ /\
  fs (snd (process_audio_file cloud_config bucket_rejected "-lectures"
             "week1/intro.mp3" None (Some "r1") initial_state)) = ∅ /\
  fs (snd (process_audio_file cloud_config download_refused "lectures"
             "week1/intro.mp3" None (Some "r1") initial_state))
  = {[ "/tmp/tmpaudio.mp3" := Binary ]} /\
  fs (snd (process_audio_file cloud_config object_missing "lectures"
             "week1/intro.mp3" None (Some "r1") initial_state)) = ∅.
Proof.
  split; [| split; [| split]].
  - exact (proj1 (failed_download_leaves_temporary_file local_config working
                    "lectures" "week1/intro.mp3" None (Some "r1")
                    initial_state) eq_refl).
  - exact (proj1 (proj2 (failed_download_leaves_temporary_file cloud_config
                           bucket_rejected "-lectures" "week1/intro.mp3" None
                           (Some "r1") initial_state))
             (ValueError
                "Bucket names must start and end with a number or letter.")
             eq_refl eq_refl).
  - exact (proj2 (proj2 (failed_download_leaves_temporary_file cloud_config
                           download_refused "lectures" "week1/intro.mp3" None
                           (Some "r1") initial_state))
             (ExternalError "503 Service Unavailable") false
             eq_refl eq_refl eq_refl).
  - exact (proj2 (proj2 (failed_download_leaves_temporary_file cloud_config
                           object_missing "lectures" "week1/intro.mp3" None
                           (Some "r1") initial_state))
             (ExternalError "404 Not Found") true eq_refl eq_refl eq_refl).
Defined.

End TemporaryFiles.

(** ** From the task to the result endpoint *)

(** Runs the [finally] block [remove_if_exists p] of a task and names
    the dict, the outcome and the store it ends with. *)
Ltac run_cleanup p :=
  match goal with
  | |- context [WhisperLive.remove_if_exists p ?q] =>
      rewrite (cleanup_outcome p q);
      eexists _, _; split; [reflexivity |];
      split; [rewrite (remove_if_exists_keeps p q); simpl;
              apply lookup_insert_eq |]
  end.

Section TaskThenLookup.

Import WhisperLive Models.

(** A transcript returned by [process_audio] is not an empty dict. *)
Lemma process_audio_transcript_truthy (C : Config) (E : External)
    (path : string) (s s' : State) (t : dict) :
  process_audio C E path s = (inr t, s') -> truthy (VDict t) = true.
Proof.
  intros H.
  apply process_audio_inv in H as (audio_data & result & _ & _ & Hb).
  apply build_transcript_inv in Hb as (d & segs & sl & _ & _ & _ & ->).
  reflexivity.
Qed.

(** The two dicts [process_uploaded_file] can store and return. *)
Lemma process_uploaded_file_form (C : Config) (E : External)
    (file_path rid : string) (language : option string) (beam_size : Z)
    (s : State) :
  exists (d : dict) (s' : State),
    process_uploaded_file C E file_path rid language beam_size s
      = (after_cleanup file_path s' d, s') /\
    transcription_results s' !! Some rid = Some d /\
    ((exists (t : dict) (s2 : State) (location : value) (elapsed : float),
         process_audio C E file_path (snd (time_time E s)) = (inr t, s2) /\
         d = [("status", VStr "success");
              ("message", VStr "오디오 처리 완료");
              ("request_id", VStr rid);
              ("transcript_location", location);
              ("processing_time_seconds", VFloat elapsed);
              ("result", VDict t)]) \/
     (exists (e : exn) (elapsed : float),
         d = [("status", VStr "error");
              ("message", VStr "오디오 처리 중 오류 발생");
              ("request_id", VStr rid);
              ("error_details", VStr (str_exn e));
              ("processing_time_seconds", VFloat elapsed)])).
Proof.
  unfold process_uploaded_file, time_time. unfold_monad. simpl.
  destruct (process_audio C E file_path (set_clock_reads _ s))
    as [[e | t] s2]; simpl.
  { run_cleanup file_path. right. eauto. }
  destruct (storage_client C && opt_truthy (TRANSCRIPT_BUCKET C)).
  - unfold upload_from_string, outcome. unfold_monad.
    destruct (ext_upload E _ _) as [e |]; simpl; run_cleanup file_path;
      left; eauto 10.
  - unfold write_json, outcome. unfold_monad.
    destruct (ext_write E _) as [e |]; simpl; run_cleanup file_path;
      [right | left]; eauto 10.
Qed.

(** X6.  What [process_uploaded_file] stored is what
    [get_transcription_result] serves for the same id: after the task,
    also when the removal of the uploaded file has made it raise, the
    endpoint never answers 404; it answers 200 with the transcript of
    [process_audio] as the whole body when the task succeeded, and 500
    with the task's message and the text of the exception when it
    failed.  The lookup does not change the store. *)
Theorem uploaded_task_result_is_served (C : Config) (E : External)
    (file_path request_id : string) (language : option string)
    (beam_size : Z) (s : State) :
  exists (d : dict) (s' : State),
    process_uploaded_file C E file_path request_id language beam_size s
      = (after_cleanup file_path s' d, s') /\
    ((exists (t : dict) (s2 : State),
         process_audio C E file_path (snd (time_time E s)) = (inr t, s2) /\
         is_success d t /\
         Api.get_transcription_result request_id s'
         = (inr {| status_code := 200; content := VDict t |}, s')) \/
     (exists e : exn,
         is_error d e /\
         Api.get_transcription_result request_id s'
         = (inr {| status_code := 500;
                   content := task_error_body request_id (str_exn e) |},
            s'))).
Proof.
  destruct (process_uploaded_file_form C E file_path request_id language
              beam_size s) as (d & s' & Hrun & Hlook & Hform).
  exists d, s'. split; [assumption |].
  unfold Api.get_transcription_result. unfold_monad. rewrite Hlook.
  destruct Hform as [(t & s2 & loc & el & Hp & ->) | (e & el & ->)].
  - left. exists t, s2. split; [assumption |]. split; [split; reflexivity |].
    pose proof (process_audio_transcript_truthy C E _ _ _ _ Hp) as Ht.
    cbn -[truthy]. rewrite Ht. reflexivity.
  - right. exists e. split; [split; reflexivity |]. reflexivity.
Qed.

End TaskThenLookup.

(** ** From the endpoint to the stored result *)

Section EndpointToStore.

Import Models Api.

Lemma error_result_is_served_as_500 (request_id : string)
    (s : WhisperLive.State) (d : dict) (e : exn) :
  WhisperLive.transcription_results s !! Some request_id = Some d ->
  is_error d e ->
  result_status_code request_id s = 500%Z.
Proof.
  intros Hl [Hs _]. unfold result_status_code, get_transcription_result.
  unfold_monad. rewrite Hl. unfold dict_get. rewrite Hs. reflexivity.
Qed.

Lemma success_result_is_served_as_200 (request_id : string)
    (s : WhisperLive.State) (d t : dict) :
  WhisperLive.transcription_results s !! Some request_id = Some d ->
  is_success d t -> truthy (VDict t) = true ->
  result_status_code request_id s = 200%Z.
Proof.
  intros Hl [Hs Hr] Ht. unfold result_status_code, get_transcription_result.
  unfold_monad. rewrite Hl. unfold dict_get, contains. rewrite Hs, Hr.
  cbn -[truthy]. rewrite Ht. reflexivity.
Qed.

(** After [process_audio_file] under the id [rid], the result endpoint
    answers 200 or 500 for [rid]. *)
Lemma audio_file_task_result_is_served (C : WhisperLive.Config)
    (E : WhisperLive.External) (b o : string) (sid : option string)
    (rid : string) (s : WhisperLive.State) :
  exists (d : dict) (s' : WhisperLive.State),
    WhisperLive.process_audio_file C E b o sid (Some rid) s = (inr d, s') /\
    WhisperLive.transcription_results s' !! Some rid = Some d /\
    (result_status_code rid s' = 200%Z \/ result_status_code rid s' = 500%Z).
Proof.
  destruct (process_audio_file_spec C E b o sid (Some rid) s)
    as (d & s' & Hrun & Hstore & Hout).
  assert (Hl : WhisperLive.transcription_results s' !! Some rid = Some d).
  { rewrite Hstore. apply lookup_insert_eq. }
  exists d, s'. split; [assumption |]. split; [assumption |].
  destruct (WhisperLive.download_audio C E b o _) as [[e | p] s2];
    [right; eapply error_result_is_served_as_500; eassumption |].
  destruct (WhisperLive.process_audio C E p s2) as [[e | t] s3] eqn:Hp;
    [right; eapply error_result_is_served_as_500; eassumption |].
  destruct (WhisperLive.upload_transcript C E t o sid (Some rid) s3)
    as [[e | n] s4];
    [right; eapply error_result_is_served_as_500; eassumption |].
  left. eapply success_result_is_served_as_200; try eassumption.
  eapply process_audio_transcript_truthy; eassumption.
Qed.

(** X7.  A [/transcribe] request with a bucket and a file name in a
    supported format is answered "pending" with a fresh request id, and
    one call of [process_audio_file] is registered with the request's
    bucket, name and session and with that same id.  When that call is
    made, its result is stored under the id the client was given, and
    the result endpoint answers 200 or 500 for it, no longer 404. *)
Theorem accepted_request_is_processed_under_its_id (A : External)
    (envelope : PubSubEnvelope) (r : Request)
    (request : AudioProcessingRequest) :
  decoded_request A envelope = inr request ->
  str_truthy (bucket request) = true ->
  str_truthy (name request) = true ->
  supported (name request) = true ->
  exists r' : Request,
    transcribe_audio A envelope r
    = (inr (response PENDING "오디오 처리가 시작되었습니다"
              (ext_uuid4 A (uuid_calls r)) None), r') /\
    background_tasks r'
    = background_tasks r
        ++ [ProcessAudioFile (bucket request) (name request)
              (session_id request) (ext_uuid4 A (uuid_calls r))] /\
    forall (C : WhisperLive.Config) (E : WhisperLive.External)
           (s : WhisperLive.State),
    exists (d : dict) (s' : WhisperLive.State),
      Background.run_task C E
        (ProcessAudioFile (bucket request) (name request)
           (session_id request) (ext_uuid4 A (uuid_calls r))) s
      = (inr d, s') /\
      WhisperLive.transcription_results s'
        !! Some (ext_uuid4 A (uuid_calls r)) = Some d /\
      (result_status_code (ext_uuid4 A (uuid_calls r)) s' = 200%Z \/
       result_status_code (ext_uuid4 A (uuid_calls r)) s' = 500%Z).
Proof.
  unfold decoded_request, supported, rbind. intros Hd Hb Hn Hs.
  unfold transcribe_audio, transcribe_audio_try, uuid4, add_task.
  unfold_monad.
  destruct (ext_b64decode_utf8 A _) as [e | md]; [discriminate |].
  destruct (ext_json_loads A md) as [e | data]; [discriminate |].
  cbn -[any].
  destruct (get "bucket" VNone data) as [e | b]; [discriminate |].
  destruct (get "name" VNone data) as [e | n]; [discriminate |].
  destruct (get "session_id" VNone data) as [e | sid]; [discriminate |].
  rewrite Hd, Hb, Hn, Hs. simpl.
  eexists. split; [reflexivity |]. split; [reflexivity |].
  intros C E s. apply audio_file_task_result_is_served.
Qed.

Lemma accepted_request_is_processed_under_its_id_witness :
  exists (r' : Request) (d : dict) (s' : WhisperLive.State),
    transcribe_audio (decoding_to lecture_in_bucket) (envelope_of "e30=")
      new_request
    = (inr (response PENDING "오디오 처리가 시작되었습니다" "uuid-0" None), r') /\
    background_tasks r'
    = [ProcessAudioFile "lectures" "week1/Intro.MP3" (Some "s1") "uuid-0"] /\
    Background.run_task cloud_config working
      (ProcessAudioFile "lectures" "week1/Intro.MP3" (Some "s1") "uuid-0")
      WhisperLive.initial_state = (inr d, s') /\
    WhisperLive.transcription_results s' !! Some "uuid-0" = Some d.
Proof.
  destruct (accepted_request_is_processed_under_its_id
              (decoding_to lecture_in_bucket) (envelope_of "e30=") new_request
              _ eq_refl eq_refl eq_refl eq_refl) as (r' & Hrun & Hbg & Htask).
  destruct (Htask cloud_config working WhisperLive.initial_state)
    as (d & s' & Hd & Hl & _).
  exists r', d, s'. repeat split; assumption.
Defined.

(** X8.  An upload whose name has a supported suffix, whose content can
    be read and written, is answered "pending"; the content is in a
    temporary file whose name ends in the lower-cased suffix, and one
    call of [process_uploaded_file] is registered with that file, the
    request id of the response, and the [language] and [beam_size] of
    the form. *)
Theorem accepted_upload_is_saved_and_enqueued (A : External)
    (file : UploadFile) (language : option string) (beam_size : Z)
    (r : Request) (content : string) :
  supported (path_suffix (filename file)) = true ->
  read file = inr content ->
  ext_write A (ext_temp_name A (temp_names r)
                 (lower (path_suffix (filename file)))) = None ->
  exists r' : Request,
    upload_and_transcribe A file language beam_size r
    = (inr (response PENDING "오디오 처리가 시작되었습니다"
              (ext_uuid4 A (uuid_calls r)) None), r') /\
    temp_files r'
      !! ext_temp_name A (temp_names r) (lower (path_suffix (filename file)))
    = Some content /\
    background_tasks r'
    = background_tasks r
        ++ [ProcessUploadedFile
              (ext_temp_name A (temp_names r)
                 (lower (path_suffix (filename file))))
              (ext_uuid4 A (uuid_calls r)) language beam_size].
Proof.
  unfold supported. intros Hs Hr Hw.
  unfold upload_and_transcribe, upload_and_transcribe_try, uuid4, add_task,
    write_file, named_temporary_file.
  unfold_monad. cbn -[any]. rewrite Hs, Hr. cbn -[any]. rewrite Hw. simpl.
  eexists. split; [reflexivity |]. split; [| reflexivity].
  simpl. apply lookup_insert_eq.
Qed.

Lemma accepted_upload_is_saved_and_enqueued_witness :
  exists r' : Request,
    upload_and_transcribe (decoding_to VNone) uploaded_lecture (Some "en") 3
      new_request
    = (inr (response PENDING "오디오 처리가 시작되었습니다" "uuid-0" None), r') /\
    temp_files r' !! "/tmp/tmpupload.mp3" = Some "ID3-audio-bytes" /\
    background_tasks r'
    = [ProcessUploadedFile "/tmp/tmpupload.mp3" "uuid-0" (Some "en") 3].
Proof.
  exact (accepted_upload_is_saved_and_enqueued (decoding_to VNone)
           uploaded_lecture (Some "en") 3%Z new_request "ID3-audio-bytes"
           eq_refl eq_refl eq_refl).
Defined.



(** X10.  For an id that is in the store, [get_transcription_result]
    answers 500 exactly when the stored status is "error", and 200
    otherwise.  A stored record whose status is neither "error" nor
    "success" is reported with that status ("unknown" when it has none)
    and its message; a "success" record without a non-empty [result] is
    reported with a note and its [transcript_location]. *)
Theorem stored_result_answers (request_id : string) (s : WhisperLive.State)
    (result : dict) :
  WhisperLive.transcription_results s !! Some request_id = Some result ->
  (result_status_code request_id s
   = if eq_str (dict_get "status" VNone result) "error" then 500%Z else 200%Z) /\
  (eq_str (dict_get "status" VNone result) "error" = false ->
   eq_str (dict_get "status" VNone result) "success" = false ->
   fst (get_transcription_result request_id s)
   = inr {| status_code := 200;
            content := VDict
              [("status", dict_get "status" (VStr "unknown") result);
               ("message", dict_get "message" (VStr "처리 중") result);
               ("request_id", VStr request_id)] |}) /\
  (eq_str (dict_get "status" VNone result) "success" = true ->
   contains "result" result && truthy (dict_get "result" VNone result) = false ->
   fst (get_transcription_result request_id s)
   = inr {| status_code := 200;
            content := VDict
              [("status", VStr "success");
               ("message",
                  VStr "처리 완료되었으나 트랜스크립션 데이터를 찾을 수 없습니다");
               ("request_id", VStr request_id);
               ("transcript_location",
                  dict_get "transcript_location" VNone result)] |}).
Proof.
  intros Hl. unfold result_status_code, get_transcription_result.
  unfold_monad. rewrite Hl. split; [| split].
  - repeat case_match; reflexivity.
  - intros He Hs. rewrite He, Hs. reflexivity.
  - intros Hs Hr.
    destruct (dict_get "status" VNone result) as [| | | | st | |] eqn:Hst;
      try discriminate.
    simpl in Hs. apply String.eqb_eq in Hs. subst st. simpl.
    rewrite Hr. reflexivity.
Qed.

Lemma stored_result_answers_witness :
  fst (get_transcription_result "queued" odd_store)
  = inr {| status_code := 200;
           content := VDict [("status", VStr "unknown");
                             ("message", VStr "in the queue");
                             ("request_id", VStr "queued")] |} /\
  fst (get_transcription_result "hollow" odd_store)
  = inr {| status_code := 200;
           content := VDict
             [("status", VStr "success");
              ("message",
                 VStr "처리 완료되었으나 트랜스크립션 데이터를 찾을 수 없습니다");
              ("request_id", VStr "hollow");
              ("transcript_location", VStr "gs://b/x.json")] |}.
Proof.
  split.
  - exact (proj1 (proj2 (stored_result_answers "queued" odd_store _ eq_refl))
             eq_refl eq_refl).
  - exact (proj2 (proj2 (stored_result_answers "hollow" odd_store _ eq_refl))
             eq_refl eq_refl).
Defined.

End EndpointToStore.

(** ** What [build_transcript] keeps of the model's result *)

Section Rebuild.

Import WhisperLive.

Lemma segment_dict_inv (i : nat) (segment : value) (out : dict) :
  segment_dict i segment = inr out ->
  exists (d : dict) (txt : string),
    segment = VDict d /\
    dict_get "text" (VStr "") d = VStr txt /\
    VDict out = rebuilt_segment i d txt.
Proof.
  unfold segment_dict, rbind, get, value_strip. intros H.
  destruct segment as [| | | | | | d]; try discriminate.
  destruct (dict_get "text" (VStr "") d) as [| | | | txt | |] eqn:Ht;
    try discriminate.
  injection H as <-. exists d, txt. repeat split. exact Ht.
Qed.

Lemma segment_dict_usable (i : nat) (segment : value) :
  usable_segment segment = true <-> exists out, segment_dict i segment = inr out.
Proof.
  unfold usable_segment, segment_dict, rbind, get, value_strip. split.
  - intros H. destruct segment as [| | | | | | d]; try discriminate.
    destruct (dict_get "text" (VStr "") d); try discriminate. eauto.
  - intros [out H]. destruct segment as [| | | | | | d]; try discriminate.
    destruct (dict_get "text" (VStr "") d); try discriminate. reflexivity.
Qed.

(** The loop appends one rebuilt segment per segment of the model. *)
Lemma segments_loop_rebuilds (rest : list value) :
  forall (i : nat) (acc out : list value),
    segments_loop i rest acc = inr out ->
    exists new : list value,
      out = acc ++ new /\
      length new = length rest /\
      forall (k : nat) (seg : value),
        rest !! k = Some seg ->
        exists (d : dict) (txt : string),
          seg = VDict d /\
          dict_get "text" (VStr "") d = VStr txt /\
          new !! k = Some (rebuilt_segment (i + k) d txt).
Proof.
  induction rest as [| segment rest IH]; intros i acc out H; simpl in H.
  - injection H as <-. exists []. rewrite app_nil_r. repeat split.
    intros k seg Hk. rewrite lookup_nil in Hk. discriminate.
  - unfold rbind in H. destruct (segment_dict i segment) as [e | sd] eqn:Hsd;
      [discriminate |].
    apply IH in H as (new & -> & Hlen & Hnew).
    apply segment_dict_inv in Hsd as (d & txt & -> & Ht & Hsd).
    exists (VDict sd :: new). split; [now rewrite <- app_assoc |].
    split; [simpl; now rewrite Hlen |].
    intros [| k] seg Hk; simpl in Hk.
    + injection Hk as <-. exists d, txt. rewrite Nat.add_0_r.
      repeat split; [assumption |]. simpl. now rewrite Hsd.
    + destruct (Hnew k seg Hk) as (d' & txt' & -> & Ht' & Hk').
      exists d', txt'. repeat split; [assumption |].
      simpl. rewrite Hk'. do 2 f_equal. lia.
Qed.

(** X11.  The transcript has one segment per segment of the model's
    result, in the same order.  Each is rebuilt with exactly the keys
    [id], [start], [end] and [text]: the position, the model's [start]
    and [end] (0 for a missing one) and the model's text with the white
    space around it removed.  Anything else the model put in a segment,
    such as a speaker or words, is not carried over. *)
Theorem transcript_segments_are_rebuilt (C : Config) (result : dict)
    (segs : list value) (t : dict) :
  build_transcript C (VDict result) = inr t ->
  dict_get "segments" (VList []) result = VList segs ->
  exists out : list value,
    segments_of t = Some out /\
    length out = length segs /\
    forall (i : nat) (seg : value),
      segs !! i = Some seg ->
      exists (d : dict) (txt : string),
        seg = VDict d /\
        dict_get "text" (VStr "") d = VStr txt /\
        out !! i = Some (rebuilt_segment i d txt).
Proof.
  intros H Hsegs.
  apply build_transcript_inv in H as (d & segs' & sl & Hd & Hit & Hloop & ->).
  injection Hd as <-. rewrite Hsegs in Hit. injection Hit as <-.
  apply segments_loop_rebuilds in Hloop as (new & -> & Hlen & Hnew).
  exists new. repeat split; assumption.
Qed.

Lemma transcript_segments_are_rebuilt_witness :
  exists t : dict,
    build_transcript local_config diarized_result = inr t /\
    segments_of t
    = Some [VDict [("id", VInt 0); ("start", VInt 0); ("end", VFloat 2);
                   ("text", VStr "first")]].
Proof.
  destruct (build_transcript local_config diarized_result) as [e | t] eqn:Hb;
    [vm_compute in Hb; discriminate |].
  destruct (transcript_segments_are_rebuilt local_config _ _ t Hb eq_refl)
    as (out & Hout & Hlen & Hseg).
  destruct (Hseg 0%nat _ eq_refl) as (d & txt & Hd & Htxt & Hi).
  injection Hd as <-. vm_compute in Htxt. injection Htxt as <-.
  exists t. split; [reflexivity |]. rewrite Hout.
  destruct out as [| o [| o' out]]; try discriminate.
  simpl in Hi. injection Hi as ->. reflexivity.
Defined.

Lemma segments_loop_succeeds_iff (rest : list value) :
  forall (i : nat) (acc : list value),
    (exists out, segments_loop i rest acc = inr out)
    <-> forallb usable_segment rest = true.
Proof.
  induction rest as [| segment rest IH]; intros i acc; simpl.
  - split; eauto.
  - unfold rbind. rewrite andb_true_iff, (segment_dict_usable i).
    destruct (segment_dict i segment) as [e | sd].
    + split; [intros [out H]; discriminate | intros [[out H] _]; discriminate].
    + rewrite IH. split; [intros H; split; eauto | intros [_ H]; exact H].
Qed.

(** X12.  [build_transcript] returns a transcript exactly when every
    element of the model's segments is a dict whose text, if it has one,
    is a string: then nothing in the result can make it raise.  A result
    without a [segments] key counts as one with no segments. *)
Theorem build_transcript_succeeds_iff (C : Config) (result : dict)
    (segs : list value) :
  iterate (dict_get "segments" (VList []) result) = inr segs ->
  ((exists t, build_transcript C (VDict result) = inr t)
   <-> forallb usable_segment segs = true) /\
  (lookup_key "segments" result = None ->
   build_transcript C (VDict result)
   = inr [("segments", VList []); ("language", VStr (LANGUAGE C));
          ("text", dict_get "text" (VStr "") result)]).
Proof.
  intros Hit. split.
  - unfold build_transcript, rbind, get. rewrite Hit.
    rewrite <- (segments_loop_succeeds_iff segs 0 []).
    destruct (segments_loop 0 segs []) as [e | sl].
    + split; intros [x H]; discriminate.
    + split; eauto.
  - intros Hnone. unfold build_transcript, rbind, get, dict_get in *.
    rewrite Hnone in *. simpl in *. injection Hit as <-. reflexivity.
Qed.

Lemma build_transcript_succeeds_iff_witness :
  (exists t, build_transcript local_config diarized_result = inr t) /\
  build_transcript local_config (VDict [("text", VStr "no segments")])
  = inr [("segments", VList []); ("language", VStr "ko");
         ("text", VStr "no segments")] /\
  build_transcript local_config broken_result
  = inl (AttributeError "object has no attribute 'get'").
Proof.
  split; [| split].
  - apply (proj1 (build_transcript_succeeds_iff local_config diarized_dict
                     _ eq_refl)).
    reflexivity.
  - exact (proj2 (build_transcript_succeeds_iff local_config
                    [("text", VStr "no segments")] [] eq_refl) eq_refl).
  - reflexivity.
Defined.

End Rebuild.

(** ** The session endpoint *)

Section SessionLookup.

Import WhisperLive Models SessionResult.



End SessionLookup.

(** ** Frames the streaming endpoint ignores *)

Section Frames.

Import Main.

Variable Manager : Type.
Variable register : Manager -> fallible string * Manager.
Variable process_audio :
  string -> string -> Manager -> (list value * option exn) * Manager.
Variable unregister : string -> Manager -> Manager.

Lemma receive_loop_skips_empty (session_id : string)
    (incoming : list (fallible string)) :
  forall (m : Manager) (sent : list value),
    receive_loop Manager process_audio session_id
      (without_empty_frames incoming) m sent
    = receive_loop Manager process_audio session_id incoming m sent.
Proof.
  induction incoming as [| [e | data] rest IH]; intros m sent; simpl.
  - reflexivity.
  - reflexivity.
  - destruct (str_truthy data) eqn:Hd; simpl.
    + rewrite Hd. simpl.
      destruct (process_audio session_id data m) as [[frames [e |]] m'];
        [reflexivity | apply IH].
    + apply IH.
Qed.

(** X14.  The streaming endpoint does not hand empty frames to
    [process_audio]: a connection behaves as if the client had never
    sent them.  And it stops at the first failure: once receiving a
    frame has raised, what the client sends afterwards changes neither
    the frames sent back nor the manager. *)
Theorem empty_frames_and_late_frames_are_ignored (accept : option exn)
    (incoming late : list (fallible string)) (e : exn) (m : Manager) :
  websocket_endpoint Manager register process_audio unregister accept
    (without_empty_frames incoming) m
  = websocket_endpoint Manager register process_audio unregister accept
      incoming m /\
  websocket_endpoint Manager register process_audio unregister accept
    (incoming ++ inl e :: late) m
  = websocket_endpoint Manager register process_audio unregister accept
      (incoming ++ [inl e]) m.
Proof.
  unfold websocket_endpoint. split.
  - destruct accept; [reflexivity |].
    destruct (register m) as [[e' | sid] m1]; [reflexivity |].
    now rewrite receive_loop_skips_empty.
  - destruct accept; [reflexivity |].
    destruct (register m) as [[e' | sid] m1]; [reflexivity |].
    assert (H : forall m0 sent,
               receive_loop Manager process_audio sid
                 (incoming ++ inl e :: late) m0 sent
               = receive_loop Manager process_audio sid
                   (incoming ++ [inl e]) m0 sent).
    { induction incoming as [| [e0 | data] rest IH]; intros m0 sent; simpl;
        try reflexivity.
      destruct (negb (str_truthy data)); [apply IH |].
      destruct (process_audio sid data m0) as [[frames [e0 |]] m'];
        [reflexivity | apply IH]. }
    now rewrite H.
Qed.

End Frames.

(** ** Speaker assignment in the WhisperX container *)

Section Diarization.

(** X15.  In the WhisperX [process_audio] a failure of the speaker
    assignment never fails the transcription: once the model is loaded
    (or loads) and [transcribe] has returned, [process_audio] returns,
    with the result of the speaker assignment when that worked and with
    the plain transcription when it raised. *)
Theorem diarization_failure_is_tolerated (E : WhisperX.External)
    (path : string) (s : WhisperX.State) (r : value) :
  s = true \/ WhisperX.ext_load E = None ->
  WhisperX.ext_transcribe E path = inr r ->
  WhisperX.process_audio E path s
  = (inr (match WhisperX.ext_diarize E path r with
          | inr v => v
          | inl _ => r
          end), true).
Proof.
  intros Hload Ht. unfold WhisperX.process_audio, WhisperX.load_model.
  unfold_monad. simpl.
  destruct s; simpl.
  - rewrite Ht. destruct (WhisperX.ext_diarize E path r); reflexivity.
  - destruct Hload as [Hs | Hl]; [discriminate |]. rewrite Hl. simpl.
    rewrite Ht. destruct (WhisperX.ext_diarize E path r); reflexivity.
Qed.

Lemma diarization_failure_is_tolerated_witness :
  WhisperX.process_audio bare_list "lecture.wav" false
  = (inr (VList []), true) /\
  WhisperX.process_audio with_speakers "lecture.wav" true
  = (inr (VDict [("segments", VList []); ("speakers", VInt 2)]), true).
Proof.
  split.
  - exact (diarization_failure_is_tolerated bare_list "lecture.wav" false _
             (or_intror eq_refl) eq_refl).
  - exact (diarization_failure_is_tolerated with_speakers "lecture.wav" true _
             (or_introl eq_refl) eq_refl).
Defined.

End Diarization.

(** ** The tasks of the Faster-Whisper container *)

(** A file is not on a disk from which it was removed, or on which it
    was not found. *)
Ltac absent :=
  first [ assumption
        | rewrite elem_of_difference, elem_of_singleton; tauto ].

Section FasterWhisperTaskProperties.

Import FasterWhisperTasks.

(** X16.  The Faster-Whisper [process_audio_file] checks
    [TRANSCRIPT_BUCKET] before its [try] block: without a bucket it
    raises [ValueError] to its caller and does nothing else.  With a
    bucket it never raises and returns a dict with status "success" or
    "error"; that dict is the only trace of the outcome, for nothing is
    written to [transcription_results] and the dict does not carry the
    transcript. *)
Theorem faster_whisper_audio_task_outcome (B : option string) (E : External)
    (bucket_name object_name : string) (session_id request_id : option string)
    (s : State) :
  (opt_truthy B = false ->
   process_audio_file B E bucket_name object_name session_id request_id s
   = (inl (ValueError "환경 변수 TRANSCRIPT_BUCKET이 설정되지 않았습니다"), s)) /\
  (opt_truthy B = true ->
   exists (d : dict) (s' : State),
     process_audio_file B E bucket_name object_name session_id request_id s
       = (inr d, s') /\
     transcription_results s' = transcription_results s /\
     lookup_key "result" d = None /\
     (lookup_key "status" d = Some (VStr "success") \/
      exists e : exn, is_error d e)).
Proof.
  split; intros HB; unfold process_audio_file; rewrite HB; simpl.
  - reflexivity.
  - unfold download_audio, upload_transcript, upload_from_string, mkstemp,
      download_to_filename, outcome, time_time, on_model, remove_if_exists,
      os_path_exists, os_remove.
    unfold_monad. simpl.
    repeat (case_match; simpl in *; simplify_eq);
      try match goal with
          | H : delete _ _ !! _ = Some _ |- _ =>
              rewrite lookup_delete_eq in H; discriminate H
          end;
      eexists _, _; (split; [reflexivity |]); simpl;
      (split; [reflexivity |]); (split; [reflexivity |]);
      first [left; reflexivity | right; eexists; split; reflexivity].
Qed.

Lemma faster_whisper_audio_task_outcome_witness :
  process_audio_file None faster_working "lectures" "week1/intro.mp3" None
    (Some "r1") initial_state
  = (inl (ValueError "환경 변수 TRANSCRIPT_BUCKET이 설정되지 않았습니다"),
     initial_state) /\
  exists (d : dict) (s' : State),
    process_audio_file (Some "transcripts-bucket") faster_working "lectures"
      "week1/intro.mp3" None (Some "r1") initial_state = (inr d, s') /\
    transcription_results s' = ∅ /\
    lookup_key "status" d = Some (VStr "success") /\
    keys d = ["status"; "message"; "request_id"; "transcript_location";
              "processing_time_seconds"].
Proof.
  split.
  - exact (proj1 (faster_whisper_audio_task_outcome None faster_working
                    "lectures" "week1/intro.mp3" None (Some "r1")
                    initial_state) eq_refl).
  - destruct (proj2 (faster_whisper_audio_task_outcome
                       (Some "transcripts-bucket") faster_working "lectures"
                       "week1/intro.mp3" None (Some "r1") initial_state)
                eq_refl) as (d & s' & Hrun & Hres & _ & _).
    exists d, s'. split; [assumption |]. split; [assumption |].
    vm_compute in Hrun. injection Hrun as <- <-. split; reflexivity.
Defined.

(** What a successful [transcribe_upload] has computed. *)
Lemma transcribe_upload_inv (E : External) (file_path : string)
    (language : option string) (beam_size : Z) (s s' : State) (t : dict) :
  transcribe_upload E file_path language beam_size s = (inr t, s') ->
  exists (segs : list FasterWhisper.Segment)
         (info : FasterWhisper.TranscriptionInfo),
    ext_transcribe_with E file_path
      (if opt_truthy language then default "" language else "ko") beam_size
    = inr (segs, None, info) /\
    t = [("segments", VList (fst (FasterWhisper.segments_loop segs [] "")));
         ("language", VStr (FasterWhisper.language info));
         ("text", VStr (strip (snd (FasterWhisper.segments_loop segs [] ""))));
         ("language_probability",
            VFloat (FasterWhisper.language_probability info))].
Proof.
  unfold transcribe_upload, on_model, FasterWhisper.load_model.
  unfold_monad. intros H.
  repeat (case_match; simpl in *; simplify_eq); eexists _, _;
    (split; [reflexivity |]);
    match goal with Hl : FasterWhisper.segments_loop _ _ _ = _ |- _ =>
      rewrite Hl end;
    reflexivity.
Qed.

Lemma transcribe_upload_keeps (E : External) (file_path : string)
    (language : option string) (beam_size : Z) (s : State) :
  transcription_results
    (snd (transcribe_upload E file_path language beam_size s))
  = transcription_results s /\
  blobs (snd (transcribe_upload E file_path language beam_size s)) = blobs s /\
  fs (snd (transcribe_upload E file_path language beam_size s)) = fs s /\
  unremovable (snd (transcribe_upload E file_path language beam_size s))
  = unremovable s.
Proof.
  unfold transcribe_upload, on_model, FasterWhisper.load_model.
  unfold_monad. simpl.
  repeat (case_match; simpl in *; simplify_eq); repeat split.
Qed.

(** The three ways in which [if os.path.exists(p): os.remove(p)] ends. *)
Lemma faster_remove_if_exists_outcome (p : string) (s : State) :
  remove_if_exists p s
  = if bool_decide (p ∈ fs s)
    then match unremovable s !! p with
         | Some e => (inl e, s)
         | None => (inr tt, set_fs (fs s ∖ {[p]}) s)
         end
    else (inr tt, s).
Proof.
  unfold remove_if_exists, os_path_exists, os_remove. unfold_monad. simpl.
  case_bool_decide as Hin; [| reflexivity].
  rewrite bool_decide_eq_true_2 by assumption. reflexivity.
Qed.

(** The end of a task whose [try] block has produced [d] in the state
    [s1] and whose [finally] block is [remove_if_exists p]: what it
    hands to its caller. *)
Lemma faster_cleanup_outcome (p : string) (s1 : State) (d : dict) :
  match remove_if_exists p s1 with
  | (inl e, s') => (inl e, s')
  | (inr _, s') => (inr d, s')
  end
  = (faster_after_cleanup p (snd (remove_if_exists p s1)) d,
     snd (remove_if_exists p s1)).
Proof.
  rewrite faster_remove_if_exists_outcome. unfold faster_after_cleanup.
  case_bool_decide as Hin.
  - destruct (unremovable s1 !! p) as [e |] eqn:Hu; simpl.
    + rewrite bool_decide_eq_true_2 by assumption. rewrite Hu. reflexivity.
    + rewrite bool_decide_eq_false_2 by absent. reflexivity.
  - simpl. rewrite bool_decide_eq_false_2 by assumption. reflexivity.
Qed.

(** What the cleanup leaves as it is, and the file it removes. *)
Lemma faster_cleanup_frame (p : string) (s1 : State) :
  transcription_results (snd (remove_if_exists p s1))
  = transcription_results s1 /\
  blobs (snd (remove_if_exists p s1)) = blobs s1 /\
  unremovable (snd (remove_if_exists p s1)) = unremovable s1 /\
  (unremovable s1 !! p = None -> p ∉ fs (snd (remove_if_exists p s1))).
Proof.
  rewrite faster_remove_if_exists_outcome.
  case_bool_decide as Hin.
  - destruct (unremovable s1 !! p) as [e |] eqn:Hu; simpl.
    + repeat split. intros H. discriminate H.
    + repeat split. intros _. absent.
  - simpl. repeat split. intros _. assumption.
Qed.

(** Runs the [finally] block of [process_uploaded_file]. *)
Ltac faster_cleanup p :=
  match goal with
  | |- context [remove_if_exists p ?q] =>
      let F1 := fresh "F1" in
      let F2 := fresh "F2" in
      let F3 := fresh "F3" in
      let F4 := fresh "F4" in
      destruct (faster_cleanup_frame p q) as (F1 & F2 & F3 & F4);
      rewrite (faster_cleanup_outcome p q); simpl in F1, F2, F3, F4;
      eexists _, _; split; [reflexivity |];
      split; [rewrite F1; congruence |];
      split; [rewrite F3; congruence |];
      split; [intros Hu; apply F4; congruence |]
  end.

(** X17.  The Faster-Whisper [process_uploaded_file] always stores a
    dict under [request_id], and returns it unless the
    [os.remove(file_path)] of its [finally] block raises, which it does
    when [file_path] is a directory or a file that may not be deleted:
    then that exception reaches the caller.  A file that [os.remove]
    does not refuse is gone afterwards.  When the transcription raised
    the dict reports the exception; otherwise it reports success with
    the transcript, whose segments are numbered by position, also when
    the upload to the bucket failed.  Without [TRANSCRIPT_BUCKET] the
    transcript is saved nowhere: no blob is written and the location is
    null.  A request without a language, or with an empty one, is
    transcribed as "ko". *)
Theorem faster_whisper_upload_task_outcome (B : option string) (E : External)
    (file_path request_id : string) (language : option string)
    (beam_size : Z) (s : State) :
  (exists (d : dict) (s' : State),
      process_uploaded_file B E file_path request_id language beam_size s
        = (faster_after_cleanup file_path s' d, s') /\
      transcription_results s'
        = <[request_id := d]> (transcription_results s) /\
      unremovable s' = unremovable s /\
      (unremovable s !! file_path = None -> file_path ∉ fs s') /\
      match transcribe_upload E file_path language beam_size
              (snd (time_time E s)) with
      | (inl e, _) => is_error d e
      | (inr t, _) =>
          is_success d t /\
          (exists segs : list value,
              segments_of t = Some segs /\ ids_sequential segs) /\
          (opt_truthy B = false ->
           blobs s' = blobs s /\
           lookup_key "transcript_location" d = Some VNone)
      end) /\
  (opt_truthy language = false ->
   process_uploaded_file B E file_path request_id language beam_size s
   = process_uploaded_file B E file_path request_id (Some "ko") beam_size s).
Proof.
  split.
  - unfold process_uploaded_file, time_time. unfold_monad. simpl.
    set (s1 := set_clock_reads _ s).
    assert (K0 : transcription_results s1 = transcription_results s)
      by reflexivity.
    assert (U0 : unremovable s1 = unremovable s) by reflexivity.
    assert (B0 : blobs s1 = blobs s) by reflexivity.
    pose proof (transcribe_upload_keeps E file_path language beam_size s1)
      as (K1 & K2 & K3 & K4).
    clearbody s1.
    destruct (transcribe_upload E file_path language beam_size s1)
      as [[e | t] s2] eqn:Ht; simpl in *.
    + faster_cleanup file_path. split; reflexivity.
    + apply transcribe_upload_inv in Ht as (segs & info & _ & ->).
      unfold upload_from_string, outcome. unfold_monad.
      destruct (opt_truthy B); simpl;
        [destruct (ext_upload E _ _) as [e |]; simpl |];
        faster_cleanup file_path;
        (split; [split; reflexivity |]);
        (split; [eexists; split;
                 [reflexivity
                 | apply faster_segments_loop_ids, ids_sequential_nil] |]);
        try (intros; discriminate).
      intros _. split; [rewrite F2; simpl; congruence | reflexivity].
  - intros Hl. unfold process_uploaded_file, transcribe_upload.
    rewrite Hl. reflexivity.
Qed.

(** An upload with an empty language, transcribed as "ko"; and a path
    that is a directory, on which the task raises after it has stored
    its result. *)
Lemma faster_whisper_upload_task_outcome_witness :
  (exists (d t : dict) (s' : State),
      process_uploaded_file None faster_working "/tmp/upload.wav" "r1"
        (Some "") 5 initial_state = (inr d, s') /\
      lookup_key "result" d = Some (VDict t) /\
      lookup_key "language" t = Some (VStr "ko") /\
      lookup_key "transcript_location" d = Some VNone /\
      blobs s' = ∅) /\
  (exists s' : State,
      process_uploaded_file None faster_working "/tmp/upload.wav" "r1"
        None 5 upload_is_directory
      = (inl (ExternalError "[Errno 21] Is a directory: '/tmp/upload.wav'"),
         s') /\
      is_Some (transcription_results s' !! "r1") /\
      "/tmp/upload.wav" ∈ fs s').
Proof.
  split.
  - pose proof (proj2 (faster_whisper_upload_task_outcome None faster_working
                         "/tmp/upload.wav" "r1" (Some "") 5%Z initial_state)
                  eq_refl) as Hko.
    destruct (process_uploaded_file None faster_working "/tmp/upload.wav" "r1"
                (Some "") 5 initial_state) as [r s'] eqn:Hrun.
    vm_compute in Hrun. injection Hrun as <- <-.
    eexists _, _, _. repeat split.
  - destruct (proj1 (faster_whisper_upload_task_outcome None faster_working
                       "/tmp/upload.wav" "r1" None 5%Z upload_is_directory))
      as (d & s' & Hrun & Hstore & _).
    assert (Hs' : s' = snd (process_uploaded_file None faster_working
                              "/tmp/upload.wav" "r1" None 5
                              upload_is_directory))
      by (rewrite Hrun; reflexivity).
    assert (Hin : "/tmp/upload.wav" ∈ fs s')
      by (rewrite Hs'; refine (bool_decide_unpack _ _); vm_compute; exact I).
    assert (Hu : unremovable s' !! "/tmp/upload.wav"
                 = Some (ExternalError
                           "[Errno 21] Is a directory: '/tmp/upload.wav'"))
      by (rewrite Hs'; vm_compute; reflexivity).
    exists s'. split; [| split; [| exact Hin]].
    + rewrite Hrun. unfold faster_after_cleanup.
      rewrite bool_decide_eq_true_2 by exact Hin. rewrite Hu. reflexivity.
    + rewrite Hstore, lookup_insert_eq. eauto.
Defined.

End FasterWhisperTaskProperties.

(** ** Batches and sliding windows: [parse_data.py] and [embedding.py] *)

Section Batches.

Import ParseData.

Context {A : Type}.




End Batches.


Section Sliding.

Import PySeq.

Context {A : Type}.

(** A slice that starts inside the list and runs forward. *)
Lemma slice_forward (l : list A) (i size : Z) :
  (0 <= i <= Z.of_nat (length l))%Z -> (0 <= size)%Z ->
  slice l i (i + size) = take (Z.to_nat size) (drop (Z.to_nat i) l).
Proof.
  intros Hi Hs. unfold slice, clamp_index.
  destruct (i <? 0)%Z eqn:H1; [lia |].
  destruct (i + size <? 0)%Z eqn:H2; [lia |].
  rewrite (Z.min_l i) by lia.
  destruct (Z.le_gt_cases (i + size) (Z.of_nat (length l))) as [Hle | Hgt].
  - rewrite Z.min_l by lia. f_equal. lia.
  - rewrite Z.min_r by lia.
    rewrite (take_ge (drop (Z.to_nat i) l) (Z.to_nat size))
      by (rewrite length_drop; lia).
    apply take_ge. rewrite length_drop. lia.
Qed.

(** Every slice is a run of consecutive elements of the list. *)
Lemma slice_contiguous (l : list A) (a b : Z) :
  exists start : nat,
    slice l a b = take (length (slice l a b)) (drop start l).
Proof.
  unfold slice. eexists. rewrite length_take.
  set (x := drop _ l). set (k := Z.to_nat _).
  destruct (Nat.le_gt_cases k (length x)) as [Hle | Hgt].
  - now rewrite Nat.min_l.
  - rewrite Nat.min_r by lia. rewrite take_ge by lia.
    symmetry. apply take_ge. lia.
Qed.

(** The pieces that [sliding] keeps are long enough and contiguous. *)
Lemma sliding_pieces (m : nat) (l : list A) (size overlap : Z)
    (ws : list (list A)) (w : list A) :
  sliding m l size overlap = inr ws -> In w ws ->
  (m <= length w)%nat /\
  exists start : nat, w = take (length w) (drop start l).
Proof.
  unfold sliding, rbind. destruct (range _ _ _) as [e | starts];
    [discriminate |].
  intros H Hw. injection H as <-.
  apply filter_In in Hw as [Hin Hlen].
  apply Nat.leb_le in Hlen. split; [assumption |].
  apply in_map_iff in Hin as (i & <- & _). apply slice_contiguous.
Qed.

(** When consecutive pieces share at least [m - 1] elements, leaving out
    the pieces shorter than [m] loses nothing: every position of a list
    of at least [m] elements lies in a piece that is kept. *)
Lemma sliding_covers (m : nat) (l : list A) (size overlap : Z) :
  (1 <= m)%nat ->
  (Z.of_nat m - 1 <= overlap)%Z -> (overlap < size)%Z ->
  (m <= length l)%nat ->
  exists ws : list (list A),
    sliding m l size overlap = inr ws /\
    forall j : nat,
      (j < length l)%nat ->
      exists (start : nat) (w : list A), In w ws /\ covers l start w j.
Proof.
  intros Hm Hov Hsize Hlen. unfold sliding, range, rbind.
  set (step := (size - overlap)%Z).
  assert (Hstep : (0 < step)%Z) by (unfold step; lia).
  destruct (step =? 0)%Z eqn:Hz; [lia |].
  eexists. split; [reflexivity |]. intros j Hj.
  set (n := Z.of_nat (length l)) in *.
  set (jz := Z.of_nat j). set (mz := Z.of_nat m) in *.
  set (k := Z.min (jz / step) ((n - mz) / step)).
  pose proof (Z.mul_div_le jz step Hstep) as Hj1.
  pose proof (Z.mul_succ_div_gt jz step Hstep) as Hj2.
  pose proof (Z.mul_div_le (n - mz) step Hstep) as Hn1.
  pose proof (Z.mul_succ_div_gt (n - mz) step Hstep) as Hn2.
  assert (Hq1 : (0 <= jz / step)%Z) by (apply Z.div_pos; lia).
  assert (Hq2 : (0 <= (n - mz) / step)%Z) by (apply Z.div_pos; lia).
  assert (Hk0 : (0 <= k)%Z) by (unfold k; lia).
  assert (Hkj : (k * step <= jz)%Z) by (unfold k; nia).
  assert (Hkn : (k * step <= n - mz)%Z) by (unfold k; nia).
  assert (Hks : (jz < k * step + size)%Z).
  { unfold k. destruct (Z.min_spec (jz / step) ((n - mz) / step))
      as [[_ ->] | [_ ->]]; unfold step in *; nia. }
  assert (Hcount : (k < (n - 0 + step - 1) / step)%Z).
  { apply Z.lt_le_trans with (jz / step + 1)%Z; [unfold k; lia |].
    apply Z.div_le_lower_bound; [assumption |]. nia. }
  assert (Hslice : slice l (k * step) (k * step + size)
                   = take (Z.to_nat size) (drop (Z.to_nat (k * step)) l)).
  { apply slice_forward; unfold n in *; lia. }
  assert (Hwlen : length (slice l (k * step) (k * step + size))
                  = (Z.to_nat size `min` (length l - Z.to_nat (k * step)))%nat).
  { rewrite Hslice, length_take, length_drop. reflexivity. }
  exists (Z.to_nat (k * step)), (slice l (k * step) (k * step + size)).
  split.
  - apply filter_In. split.
    + apply in_map_iff. exists (k * step)%Z. split; [reflexivity |].
      apply in_map_iff. exists (Z.to_nat k). split; [lia |].
      apply in_seq. unfold range_count.
      destruct (0 <? step)%Z eqn:Hp; lia.
    + apply Nat.leb_le. rewrite Hwlen. unfold n, mz in *. lia.
  - unfold covers. rewrite Hwlen. repeat split.
    + rewrite Hslice at 1. set (x := drop _ l).
      assert (Hx : length x = (length l - Z.to_nat (k * step))%nat)
        by apply length_drop.
      rewrite <- Hx.
      destruct (Nat.le_gt_cases (Z.to_nat size) (length x)) as [Hle | Hgt].
      * now rewrite Nat.min_l.
      * rewrite Nat.min_r by lia. rewrite take_ge by lia.
        symmetry. apply take_ge. lia.
    + unfold jz in *. lia.
    + unfold jz, n, mz in *. lia.
Qed.

End Sliding.

Section Records.

Import PySeq ParseData.

Lemma windows_sliding (sentences : list string) (spc overlap : Z) :
  windows sentences spc overlap = sliding 2 sentences spc overlap.
Proof. reflexivity. Qed.

Lemma In_lookup {B : Type} (x : B) (l : list B) :
  In x l -> exists i : nat, l !! i = Some x.
Proof. intros H. apply list_elem_of_lookup, list_elem_of_In, H. Qed.

Lemma lookup_In {B : Type} (x : B) (l : list B) (i : nat) :
  l !! i = Some x -> In x l.
Proof. intros H. apply list_elem_of_In, list_elem_of_lookup. eauto. Qed.

(** X19.  The records of [txt_to_records] follow the windows that were
    kept, one record per window: the record at position [i] has the id
    made of the prefix and [i], so the ids count up from 0 without a
    gap, and it has the given category.  Its text joins, with single
    spaces, at least two sentences that follow one another in the file;
    no sentence is empty. *)
Theorem records_are_numbered_windows (lines : list string)
    (category id : string) (sentences_per_chunk overlap : Z)
    (records : list dict) :
  txt_to_records lines category id sentences_per_chunk overlap = inr records ->
  Forall (fun s => str_truthy s = true) (sentences_of lines) /\
  exists ws : list (list string),
    windows (sentences_of lines) sentences_per_chunk overlap = inr ws /\
    length records = length ws /\
    forall (i : nat) (w : list string),
      ws !! i = Some w ->
      records !! i
      = Some [("id", VStr (id +:+ str_nat i));
              ("text", VStr (join " " w));
              ("category", VStr category)] /\
      (2 <= length w)%nat /\
      exists start : nat, w = take (length w) (drop start (sentences_of lines)).
Proof.
  unfold txt_to_records, rbind. intros H. split.
  { unfold sentences_of. apply List.Forall_forall. intros s Hs.
    now apply filter_In in Hs as [_ Hs]. }
  destruct (windows (sentences_of lines) sentences_per_chunk overlap)
    as [e | ws] eqn:Hw; [discriminate |].
  injection H as <-. exists ws. split; [reflexivity |].
  split; [apply length_imap |].
  intros i w Hi. split; [rewrite list_lookup_imap, Hi; reflexivity |].
  rewrite windows_sliding in Hw.
  apply (sliding_pieces 2 _ _ _ ws w Hw). eapply lookup_In, Hi.
Qed.

Lemma records_are_numbered_windows_witness :
  exists records : list dict,
    txt_to_records lecture_lines "ai" "rec" 5 1 = inr records /\
    sentences_of lecture_lines
    = ["one"; "two"; "three"; "four"; "five"; "six"; "seven"] /\
    records
    = [[("id", VStr "rec0"); ("text", VStr "one two three four five");
        ("category", VStr "ai")];
       [("id", VStr "rec1"); ("text", VStr "five six seven");
        ("category", VStr "ai")]].
Proof.
  destruct (txt_to_records lecture_lines "ai" "rec" 5 1) as [e | records]
    eqn:Hrun; [vm_compute in Hrun; discriminate |].
  destruct (records_are_numbered_windows lecture_lines "ai" "rec" 5 1 records
              Hrun) as (_ & ws & Hws & Hlen & Hrec).
  exists records. split; [reflexivity |]. split; [reflexivity |].
  vm_compute in Hrun. now injection Hrun as <-.
Defined.

(** X20.  When consecutive windows share at least one sentence
    ([1 <= overlap < sentences_per_chunk], as with the defaults 5 and 1)
    and the file has at least two sentences, no sentence is lost: every
    sentence of the file, at its position, lies in the window of some
    record. *)
Theorem every_sentence_is_in_a_record (lines : list string)
    (category id : string) (sentences_per_chunk overlap : Z) :
  (1 <= overlap)%Z -> (overlap < sentences_per_chunk)%Z ->
  (2 <= length (sentences_of lines))%nat ->
  exists records : list dict,
    txt_to_records lines category id sentences_per_chunk overlap = inr records /\
    forall j : nat,
      (j < length (sentences_of lines))%nat ->
      exists (i start : nat) (w : list string),
        records !! i = Some (record id category i w) /\
        covers (sentences_of lines) start w j.
Proof.
  intros Hov Hspc Hlen.
  destruct (sliding_covers 2 (sentences_of lines) sentences_per_chunk overlap)
    as (ws & Hws & Hcov); try lia.
  unfold txt_to_records, rbind. rewrite windows_sliding, Hws.
  eexists. split; [reflexivity |]. intros j Hj.
  destruct (Hcov j Hj) as (start & w & Hin & Hc).
  apply In_lookup in Hin as [i Hi].
  exists i, start, w. split; [| assumption].
  rewrite list_lookup_imap, Hi. reflexivity.
Qed.

Lemma every_sentence_is_in_a_record_witness :
  exists (records : list dict) (i start : nat) (w : list string),
    txt_to_records lecture_lines "ai" "rec" 5 1 = inr records /\
    records !! i = Some (record "rec" "ai" i w) /\
    covers (sentences_of lecture_lines) start w 6.
Proof.
  destruct (every_sentence_is_in_a_record lecture_lines "ai" "rec" 5 1)
    as (records & Hrun & Hcov); [lia | lia | vm_compute; lia |].
  destruct (Hcov 6%nat) as (i & start & w & Hi & Hc); [vm_compute; lia |].
  exists records, i, start, w. repeat split; try assumption; apply Hc.
Defined.

Lemma filter_all_short {B : Type} (m : nat) (bound : nat)
    (pieces : list (list B)) :
  (bound < m)%nat ->
  Forall (fun w => (length w <= bound)%nat) pieces ->
  List.filter (fun w => (m <=? length w)%nat) pieces = [].
Proof.
  intros Hb. induction 1 as [| w pieces Hw _ IH]; [reflexivity |].
  simpl. destruct (Nat.leb_spec m (length w)); [lia | exact IH].
Qed.

Lemma slice_length_le {B : Type} (l : list B) (a b : Z) :
  (length (slice l a b) <= length l)%nat.
Proof. unfold slice. rewrite length_take, length_drop. lia. Qed.

(** A list shorter than [m] has no piece of [m] elements. *)
Lemma sliding_short {B : Type} (m : nat) (l : list B) (size overlap : Z) :
  (length l < m)%nat -> size <> overlap ->
  sliding m l size overlap = inr [].
Proof.
  intros Hl Hne. unfold sliding, range, rbind.
  destruct (size - overlap =? 0)%Z eqn:Hz; [lia |].
  f_equal. apply (filter_all_short m (length l)); [assumption |].
  apply List.Forall_forall. intros w Hw.
  apply in_map_iff in Hw as (i & <- & _). apply slice_length_le.
Qed.

(** X21.  The parameters at their edges.  With [overlap] equal to
    [sentences_per_chunk] the step is 0 and [txt_to_records] raises
    [ValueError], even for an empty file.  With a larger [overlap] the
    step is negative and there is no record.  A file with fewer than two
    sentences gives no record: its only sentence is dropped. *)
Theorem txt_to_records_edges (lines : list string) (category id : string)
    (sentences_per_chunk overlap : Z) :
  (overlap = sentences_per_chunk ->
   txt_to_records lines category id sentences_per_chunk overlap
   = inl (ValueError "range() arg 3 must not be zero")) /\
  ((sentences_per_chunk < overlap)%Z ->
   txt_to_records lines category id sentences_per_chunk overlap = inr []) /\
  (overlap <> sentences_per_chunk ->
   (length (sentences_of lines) <= 1)%nat ->
   txt_to_records lines category id sentences_per_chunk overlap = inr []).
Proof.
  unfold txt_to_records. split; [| split].
  - intros ->. unfold windows, range, rbind.
    rewrite Z.sub_diag. reflexivity.
  - intros Hlt. unfold windows, range, range_count, rbind.
    destruct (sentences_per_chunk - overlap =? 0)%Z eqn:Hz; [lia |].
    destruct (0 <? sentences_per_chunk - overlap)%Z eqn:Hp; [lia |].
    match goal with
    | |- context [Z.to_nat ?q] =>
        assert (Hq : (q < 1)%Z) by (apply Z.div_lt_upper_bound; lia);
        replace (Z.to_nat q) with 0%nat by lia
    end.
    reflexivity.
  - intros Hne Hlen. rewrite windows_sliding, sliding_short by (lia || congruence).
    reflexivity.
Qed.

Lemma txt_to_records_edges_witness :
  txt_to_records [] "ai" "rec" 3 3
  = inl (ValueError "range() arg 3 must not be zero") /\
  txt_to_records lecture_lines "ai" "rec" 2 5 = inr [] /\
  txt_to_records ["only one sentence"; "   "] "ai" "rec" 5 1 = inr [].
Proof.
  split; [| split].
  - exact (proj1 (txt_to_records_edges [] "ai" "rec" 3 3) eq_refl).
  - exact (proj1 (proj2 (txt_to_records_edges lecture_lines "ai" "rec" 2 5))
             ltac:(lia)).
  - apply (proj2 (proj2 (txt_to_records_edges ["only one sentence"; "   "]
                           "ai" "rec" 5 1))); [lia | vm_compute; lia].
Defined.

End Records.

Section Chunks.

Import PySeq Embedding.

Context {char : Type}.

Lemma chunks_sliding (document : list char) (chunk_size overlap : Z) :
  chunks_of char document chunk_size overlap
  = sliding 201 document chunk_size overlap.
Proof. reflexivity. Qed.

(** X22.  Every chunk of [embed_document] is a run of more than 200
    consecutive characters of the document.  When consecutive chunks
    share at least 200 characters ([200 <= overlap < chunk_size], as
    with the defaults 1000 and 200) and the document has more than 200
    characters, no character is lost: each position of the document lies
    in a chunk that is embedded. *)
Theorem chunks_cover_the_document (document : list char)
    (chunk_size overlap : Z) :
  (forall (cs : list (list char)) (c : list char),
      chunks_of char document chunk_size overlap = inr cs -> In c cs ->
      (200 < length c)%nat /\
      exists start : nat, c = take (length c) (drop start document)) /\
  ((200 <= overlap)%Z -> (overlap < chunk_size)%Z ->
   (200 < length document)%nat ->
   exists cs : list (list char),
     chunks_of char document chunk_size overlap = inr cs /\
     forall j : nat,
       (j < length document)%nat ->
       exists (start : nat) (c : list char),
         In c cs /\ covers document start c j).
Proof.
  split.
  - intros cs c Hcs Hc. rewrite chunks_sliding in Hcs.
    destruct (sliding_pieces 201 _ _ _ cs c Hcs Hc) as [Hlen Hrun].
    split; [lia | assumption].
  - intros Hov Hsize Hlen. rewrite chunks_sliding.
    apply sliding_covers; lia.
Qed.

(** X23.  A document of 200 characters or fewer has no chunk, with any
    step that is not 0: [embed_document] then asks the service to embed
    the empty list and returns what it answers, with no chunk. *)
Theorem short_document_has_no_chunk
    (create_embeddings : list (list char) -> string -> fallible (list (list float)))
    (document : list char) (chunk_size overlap : Z) :
  (length document <= 200)%nat -> chunk_size <> overlap ->
  chunks_of char document chunk_size overlap = inr [] /\
  embed_document char create_embeddings document chunk_size overlap
  = rbind (create_embeddings [] "RETRIEVAL_DOCUMENT") (fun vectors =>
    inr {| chunks := []; embeddings := vectors |}).
Proof.
  intros Hlen Hne.
  assert (H : chunks_of char document chunk_size overlap = inr []).
  { rewrite chunks_sliding. apply sliding_short; [lia | assumption]. }
  split; [assumption |]. unfold embed_document. rewrite H. reflexivity.
Qed.

End Chunks.

Lemma chunks_cover_the_document_witness :
  exists cs : list (list nat),
    Embedding.chunks_of nat (document_of 1900) 1000 200 = inr cs /\
    map (fun c => (hd 0%nat c, length c)) cs = [(0, 1000); (800, 1000); (1600, 300)]%nat /\
    exists (start : nat) (c : list nat),
      In c cs /\ covers (document_of 1900) start c 1899.
Proof.
  destruct (proj2 (chunks_cover_the_document (document_of 1900) 1000 200))
    as (cs & Hcs & Hcov); [lia | lia | vm_compute; lia |].
  exists cs. split; [assumption |]. split.
  - vm_compute in Hcs. injection Hcs as <-. vm_compute. reflexivity.
  - apply Hcov. vm_compute. lia.
Defined.

Lemma short_document_has_no_chunk_witness :
  Embedding.chunks_of nat (document_of 200) 1000 200 = inr [] /\
  Embedding.embed_document nat empty_vectors (document_of 200) 1000 200
  = inr {| Embedding.chunks := []; Embedding.embeddings := [] |}.
Proof.
  exact (short_document_has_no_chunk empty_vectors (document_of 200) 1000 200
           ltac:(vm_compute; lia) ltac:(lia)).
Defined.

(** ** Where transcripts go, and results without an id *)

Section Targets.

Import WhisperLive.

Lemma upload_transcript_location (C : Config) (E : External) (t : dict)
    (object_name : string) (session_id request_id : option string)
    (s s' : State) (location : string) :
  upload_transcript C E t object_name session_id request_id s
    = (inr location, s') ->
  location = transcript_target C object_name session_id.
Proof.
  unfold upload_transcript, transcript_target, write_json, upload_from_string,
    outcome.
  unfold_monad. intros H.
  repeat (case_match; simpl in *; simplify_eq); reflexivity.
Qed.

(** X24.  The place of a transcript is made of the stem of the object's
    name and the session id only: the folders and the extension of the
    object, and the request id, play no part.  So the transcripts of two
    objects with the same stem, in the same session, go to the same
    place, and the second replaces the first. *)
Theorem same_stem_transcripts_collide (C : Config) (E : External)
    (t1 t2 : dict) (object1 object2 : string) (session_id : option string)
    (request1 request2 : option string) (s s1 s2 : State)
    (location1 location2 : string) :
  path_stem object1 = path_stem object2 ->
  upload_transcript C E t1 object1 session_id request1 s
    = (inr location1, s1) ->
  upload_transcript C E t2 object2 session_id request2 s1
    = (inr location2, s2) ->
  location2 = location1 /\
  stored_at C s1 location1 t1 /\
  stored_at C s2 location1 t2.
Proof.
  intros Hstem H1 H2.
  pose proof (upload_transcript_location _ _ _ _ _ _ _ _ _ H1) as L1.
  pose proof (upload_transcript_location _ _ _ _ _ _ _ _ _ H2) as L2.
  assert (Hloc : location2 = location1).
  { rewrite L1, L2. unfold transcript_target. now rewrite Hstem. }
  split; [assumption |]. split.
  - exact (upload_transcript_persists _ _ _ _ _ _ _ _ _ H1).
  - rewrite <- Hloc. exact (upload_transcript_persists _ _ _ _ _ _ _ _ _ H2).
Qed.

Lemma same_stem_transcripts_collide_witness :
  exists s1 s2 : State,
    upload_transcript cloud_config working [("text", VStr "monday")]
      "monday/lecture.mp3" (Some "s1") (Some "r1") initial_state
    = (inr "s1/lecture.json", s1) /\
    upload_transcript cloud_config working [("text", VStr "tuesday")]
      "tuesday/lecture.wav" (Some "s1") (Some "r2") s1
    = (inr "s1/lecture.json", s2) /\
    stored_at cloud_config s2 "s1/lecture.json" [("text", VStr "tuesday")].
Proof.
  eexists _, _. split; [reflexivity |]. split; [reflexivity |].
  exact (proj2 (proj2 (same_stem_transcripts_collide cloud_config working
                         [("text", VStr "monday")] [("text", VStr "tuesday")]
                         "monday/lecture.mp3" "tuesday/lecture.wav"
                         (Some "s1") (Some "r1") (Some "r2") initial_state
                         _ _ "s1/lecture.json" "s1/lecture.json"
                         eq_refl eq_refl eq_refl))).
Defined.

(** X25.  [process_audio_file] called without a request id (its default)
    stores its result under the key [None].  The result endpoint looks
    ids up as strings, so that result can never be fetched: the endpoint
    answers for every id as it did before the task. *)
Theorem result_without_id_cannot_be_fetched (C : Config) (E : External)
    (bucket_name object_name : string) (session_id : option string)
    (s : State) (request_id : string) :
  is_Some (transcription_results
             (snd (process_audio_file C E bucket_name object_name session_id
                     None s)) !! None) /\
  fst (Api.get_transcription_result request_id
         (snd (process_audio_file C E bucket_name object_name session_id
                 None s)))
  = fst (Api.get_transcription_result request_id s).
Proof.
  destruct (process_audio_file_spec C E bucket_name object_name session_id
              None s) as (d & s' & Hrun & Hstore & _).
  rewrite Hrun. simpl. split.
  - rewrite Hstore, lookup_insert_eq. eauto.
  - unfold Api.get_transcription_result. unfold_monad.
    rewrite Hstore, lookup_insert_ne by discriminate. 
    destruct (transcription_results s !! Some request_id); [| reflexivity].
    repeat case_match; reflexivity.
Qed.

End Targets.
